(** * Transformer Training Studio: the orchestration core of TRAINER.py

    A shallow embedding of the parts of [src/TRAINER.py] that the
    specification talks about, and the properties they have:

    - [Py]: the Python built-ins the code relies on ([int], [float],
      true division, [str.strip], [str.endswith], [str.replace],
      [os.path.splitext]), on texts held as UTF-8;
    - [Orchestrator]: [TrainingApp.start_training], [pause_training],
      [cancel_training], [on_closing], [clean_memory], [train_model] and
      [ProgressCallback];
    - [Estimator]: [TrainingApp.estimate_memory];
    - [Json]: the values [json.loads] builds and their truth value;
    - [Normalizer]: [CustomDataset.load_data], its two readers and
      [__getitem__];
    - [Converter]: [TrainingApp.convert_dataset];
    - [Config]: [save_config], [load_config] and the two list updates;
    - [Preview]: [TrainingApp.preview_dataset];
    - [Dependencies]: [check_dependencies.py].

    The modules hold the embedding; the properties follow them.

    Numbers are Python's: integers are [Z], floats are binary64
    ([PrimFloat]). *)

From Stdlib Require Import ZArith Lia Bool List Ascii String Floats DecimalString.
From stdpp Require Import base option list strings gmap.
Import ListNotations.

Set Warnings "-register-all".

Local Open Scope string_scope.
Local Open Scope Z_scope.

(** ** Python built-ins *)

Module Py.

(** *** Text

    A [str] is held as the bytes of its UTF-8 encoding; a lone surrogate,
    which a [str] can hold and UTF-8 cannot, as the three bytes the
    [surrogatepass] error handler gives it.  An ASCII text is its own
    encoding. *)

Definition byte (c : ascii) : N := N_of_ascii c.

(** The payload of a continuation byte [10xxxxxx]. *)
Definition continuation (c : ascii) : option N :=
  let b := byte c in
  if ((0x80 <=? b) && (b <=? 0xbf))%N then Some (b - 0x80)%N else None.

(** A byte that begins no encoded character stands for no character of a
    [str]; it is passed on as a number beyond the code space. *)
Definition stray (c : ascii) : N := (0x110000 + byte c)%N.

(** The code points of a text. *)
Fixpoint decode (s : list ascii) : list N :=
  match s with
  | [] => []
  | c0 :: r0 =>
      let b0 := byte c0 in
      if (b0 <? 0x80)%N then b0 :: decode r0
      else
        match r0 with
        | c1 :: r1 =>
            match continuation c1 with
            | Some x1 =>
                if ((0xc2 <=? b0) && (b0 <=? 0xdf))%N
                then ((b0 - 0xc0) * 64 + x1)%N :: decode r1
                else
                  match r1 with
                  | c2 :: r2 =>
                      match continuation c2 with
                      | Some x2 =>
                          let p3 := (((b0 - 0xe0) * 64 + x1) * 64 + x2)%N in
                          if ((0xe0 <=? b0) && (b0 <=? 0xef) && (0x800 <=? p3))%N
                          then p3 :: decode r2
                          else
                            match r2 with
                            | c3 :: r3 =>
                                match continuation c3 with
                                | Some x3 =>
                                    let p4 :=
                                      ((((b0 - 0xf0) * 64 + x1) * 64 + x2) * 64
                                       + x3)%N in
                                    if ((0xf0 <=? b0) && (0x10000 <=? p4)
                                        && (p4 <=? 0x10ffff))%N
                                    then p4 :: decode r3
                                    else stray c0 :: decode r0
                                | None => stray c0 :: decode r0
                                end
                            | [] => stray c0 :: decode r0
                            end
                      | None => stray c0 :: decode r0
                      end
                  | [] => stray c0 :: decode r0
                  end
            | None => stray c0 :: decode r0
            end
        | [] => stray c0 :: decode r0
        end
  end.

(** The number of bytes that hold a code point. *)
Definition width (p : N) : nat :=
  if (p <? 0x80)%N then 1
  else if (p <? 0x800)%N then 2
  else if (p <? 0x10000)%N then 3
  else if (p <? 0x110000)%N then 4
  else 1.

(** The text can be written with [encoding='utf-8']: it holds no lone
    surrogate (and every byte belongs to a character). *)
Definition encodable (s : string) : bool :=
  forallb (fun p => (p <? 0xd800) || ((0xdfff <? p) && (p <? 0x110000)))%N
    (decode (list_ascii_of_string s)).

(** The characters for which [str.isspace] holds, the ones [str.strip]
    removes: TAB, LF, VT, FF, CR, the separators 0x1c-0x1f, the space,
    and the spaces and line separators beyond ASCII. *)
Definition is_space (p : N) : bool :=
  ((0x09 <=? p) && (p <=? 0x0d) || (0x1c <=? p) && (p <=? 0x20)
   || (p =? 0x85) || (p =? 0xa0) || (p =? 0x1680)
   || (0x2000 <=? p) && (p <=? 0x200a)
   || (p =? 0x2028) || (p =? 0x2029) || (p =? 0x202f) || (p =? 0x205f)
   || (p =? 0x3000))%N.

(** The bytes taken by the white space a text begins with. *)
Fixpoint leading (ps : list N) : nat :=
  match ps with
  | p :: r => if is_space p then (width p + leading r)%nat else 0%nat
  | [] => 0%nat
  end.

(** [s.strip()]: the text between its leading and its trailing white
    space. *)
Definition strip_chars (s : list ascii) : list ascii :=
  let ps := decode s in
  let before := leading ps in
  let after := leading (rev ps) in
  firstn (length s - before - after) (skipn before s).

Definition strip (s : string) : string :=
  string_of_list_ascii (strip_chars (list_ascii_of_string s)).

(** ASCII [str.lower] on one character. *)
Definition lower_char (c : ascii) : ascii :=
  let n := nat_of_ascii c in
  if ((65 <=? n) && (n <=? 90))%nat then ascii_of_nat (n + 32) else c.

(** [s.lower()], as far as a comparison of the result with [".jsonl"],
    [".json"] or [".csv"] can tell: the ASCII letters are lowered and the
    other characters are kept.  No character beyond ASCII has a letter of
    these words in its lower case (only U+0130 and U+212A have an ASCII
    letter there, [i] and [k]). *)
Definition lower (s : string) : string :=
  string_of_list_ascii (map lower_char (list_ascii_of_string s)).

(** *** Numerals *)

(** The first code points of the runs of ten decimal digits (category
    Nd) of Unicode 14.0, the version of CPython 3.11. *)
Definition decimal_zeros : list N :=
  [0x30; 0x660; 0x6f0; 0x7c0; 0x966; 0x9e6; 0xa66; 0xae6;
   0xb66; 0xbe6; 0xc66; 0xce6; 0xd66; 0xde6; 0xe50; 0xed0;
   0xf20; 0x1040; 0x1090; 0x17e0; 0x1810; 0x1946; 0x19d0; 0x1a80;
   0x1a90; 0x1b50; 0x1bb0; 0x1c40; 0x1c50; 0xa620; 0xa8d0; 0xa900;
   0xa9d0; 0xa9f0; 0xaa50; 0xabf0; 0xff10; 0x104a0; 0x10d30; 0x11066;
   0x110f0; 0x11136; 0x111d0; 0x112f0; 0x11450; 0x114d0; 0x11650; 0x116c0;
   0x11730; 0x118e0; 0x11950; 0x11c50; 0x11d50; 0x11da0; 0x16a60; 0x16ac0;
   0x16b50; 0x1d7ce; 0x1d7d8; 0x1d7e2; 0x1d7ec; 0x1d7f6; 0x1e140; 0x1e2f0;
   0x1e950; 0x1fbf0]%N.

(** [Py_UNICODE_TODECIMAL]: the value of a decimal digit. *)
Definition decimal (p : N) : option N :=
  match List.filter (fun z => (z <=? p) && (p <? z + 10))%N decimal_zeros with
  | z :: _ => Some (p - z)%N
  | [] => None
  end.

(** What [int] and [float] make of a character before they parse
    ([_PyUnicode_TransformDecimalAndSpaceToASCII]): a character below 127
    is kept, white space beyond becomes a space, a decimal digit its ASCII
    digit, and anything else ["?"], which no numeral holds. *)
Definition to_ascii_point (p : N) : ascii :=
  if (p <? 127)%N then ascii_of_N p
  else if is_space p then " "%char
  else
    match decimal p with
    | Some d => ascii_of_N (48 + d)
    | None => "?"%char
    end.

Definition to_ascii (s : list ascii) : list ascii :=
  map to_ascii_point (decode s).

(** [Py_ISSPACE], the white space [int] and [float] skip around a
    numeral: TAB, LF, VT, FF, CR and the space, not the separators
    0x1c-0x1f. *)
Definition is_c_space (c : ascii) : bool :=
  let n := nat_of_ascii c in
  ((9 <=? n) && (n <=? 13) || (n =? 32))%nat.

Fixpoint lstrip (s : list ascii) : list ascii :=
  match s with
  | c :: r => if is_c_space c then lstrip r else s
  | [] => []
  end.

(** The numeral of a text: made ASCII, without the white space around
    it. *)
Definition numeral (s : string) : list ascii :=
  rev (lstrip (rev (lstrip (to_ascii (list_ascii_of_string s))))).

Definition is_digit (c : ascii) : bool :=
  let n := nat_of_ascii c in ((48 <=? n) && (n <=? 57))%nat.

Definition digit_val (c : ascii) : Z := Z.of_nat (nat_of_ascii c) - 48.

(** [digitpart ::= digit (["_"] digit)*]: the digits read (most significant
    first) and what is left.  An underscore is consumed only between two
    digits, as [int] and [float] require. *)
Fixpoint digitpart_more (s : list ascii) : list Z * list ascii :=
  match s with
  | c :: r =>
      if is_digit c then
        let '(ds, rest) := digitpart_more r in (digit_val c :: ds, rest)
      else if Ascii.eqb c "_" then
        match r with
        | d :: r' =>
            if is_digit d then
              let '(ds, rest) := digitpart_more r' in (digit_val d :: ds, rest)
            else ([], s)
        | [] => ([], s)
        end
      else ([], s)
  | [] => ([], [])
  end.

Definition digitpart (s : list ascii) : list Z * list ascii :=
  match s with
  | c :: r =>
      if is_digit c then
        let '(ds, rest) := digitpart_more r in (digit_val c :: ds, rest)
      else ([], s)
  | [] => ([], [])
  end.

Definition digits_value (ds : list Z) : Z :=
  fold_left (fun acc d => 10 * acc + d) ds 0.

(** An optional sign: [true] for a minus. *)
Definition sign (s : list ascii) : bool * list ascii :=
  match s with
  | c :: r =>
      if Ascii.eqb c "-" then (true, r)
      else if Ascii.eqb c "+" then (false, r)
      else (false, s)
  | [] => (false, [])
  end.

(** [int(s)] for a [str] in base 10: [None] stands for [ValueError],
    which a numeral of more than 4300 digits raises as well (the limit of
    [sys.set_int_max_str_digits], as it is set when Python starts). *)
Definition int (s : string) : option Z :=
  let '(neg, body) := sign (numeral s) in
  match digitpart body with
  | (d :: ds, []) =>
      if (4300 <? length (d :: ds))%nat then None
      else
        let v := digits_value (d :: ds) in Some (if neg then - v else v)
  | _ => None
  end.

(** The binary64 number nearest to [m * 10^e10] (ties to even), with
    sign [neg]; [m] is not negative. *)
Definition decimal_to_float (neg : bool) (m e10 : Z) : float :=
  SF2Prim
    (if m =? 0 then S754_zero neg
     else if 0 <=? e10 then
       binary_normalize prec emax (cond_Zopp neg (m * 10 ^ e10)) 0 neg
     else
       let '(q, e, l) := SFdiv_core_binary prec emax m 0 (10 ^ (- e10)) 0 in
       binary_round_aux prec emax neg q e l).

(** The exponent part of a float literal: [("e"|"E") [sign] digitpart]. *)
Definition exponent (s : list ascii) : option (Z * list ascii) :=
  match s with
  | c :: r =>
      if Ascii.eqb (lower_char c) "e" then
        let '(neg, r') := sign r in
        match digitpart r' with
        | (d :: ds, rest) =>
            let v := digits_value (d :: ds) in
            Some (if neg then - v else v, rest)
        | _ => None
        end
      else Some (0, s)
  | [] => Some (0, [])
  end.

Definition named_float (neg : bool) (s : list ascii) : option float :=
  let w := string_of_list_ascii (map lower_char s) in
  if (String.eqb w "inf" || String.eqb w "infinity")%bool then
    Some (if neg then neg_infinity else infinity)
  else if String.eqb w "nan" then Some nan
  else None.

(** [float(s)] for a [str]: [None] stands for [ValueError]. *)
Definition float (s : string) : option float :=
  let '(neg, body) := sign (numeral s) in
  match named_float neg body with
  | Some f => Some f
  | None =>
      let '(ip, r1) := digitpart body in
      let '(fp, r2) :=
        match r1 with
        | c :: r => if Ascii.eqb c "." then digitpart r else ([], r1)
        | [] => ([], [])
        end in
      match (ip ++ fp)%list with
      | [] => None
      | ds =>
          match exponent r2 with
          | Some (e, []) =>
              Some (decimal_to_float neg (digits_value ds)
                      (e - Z.of_nat (length fp)))
          | _ => None
          end
      end
  end.

(** [a / b] on two [int]s: the binary64 number nearest to the quotient;
    [None] stands for [ZeroDivisionError]. *)
Definition int_true_div (a b : Z) : option PrimFloat.float :=
  if b =? 0 then None
  else
    let neg := xorb (a <? 0) (b <? 0) in
    Some (SF2Prim
            (if a =? 0 then S754_zero neg
             else
               let '(q, e, l) :=
                 SFdiv_core_binary prec emax (Z.abs a) 0 (Z.abs b) 0 in
               binary_round_aux prec emax neg q e l)).

(** [str(n)] for an [int]. *)
Definition str_int (n : Z) : string := NilZero.string_of_int (Z.to_int n).

(** [str(b)] for a [bool]. *)
Definition str_bool (b : bool) : string := if b then "True" else "False".

(** [s.endswith(suffix)]. *)
Definition endswith (s suffix : string) : bool :=
  let l := list_ascii_of_string s in
  let x := list_ascii_of_string suffix in
  String.eqb (string_of_list_ascii (skipn (length l - length x) l)) suffix
  && (length x <=? length l)%nat.

(** [s.replace(old, new)] for a non-empty [old]: [skip] characters of an
    occurrence just replaced are still to be passed over. *)
Fixpoint replace_from (old new s : string) (skip : nat) : string :=
  match s with
  | EmptyString => EmptyString
  | String c r =>
      match skip with
      | S k => replace_from old new r k
      | O =>
          if String.prefix old s
          then new ++ replace_from old new r (String.length old - 1)
          else String c (replace_from old new r 0)
      end
  end.

Definition replace (s old new : string) : string := replace_from old new s 0.

(** [s.rfind(c)] for a character: the last index, or -1. *)
Fixpoint rfind_from (c : ascii) (s : list ascii) (i last : Z) : Z :=
  match s with
  | [] => last
  | x :: r => rfind_from c r (i + 1) (if Ascii.eqb x c then i else last)
  end.

Definition rfind (c : ascii) (s : list ascii) : Z := rfind_from c s 0 (-1).

(** [os.path.splitext(p)] (posix): the extension starts at the last dot of
    the last component, unless only dots come before it there. *)
Definition splitext (p : string) : string * string :=
  let l := list_ascii_of_string p in
  let sep := rfind "/" l in
  let dot := rfind "." l in
  if (sep <? dot)
     && existsb (fun x => negb (Ascii.eqb x "."))
          (firstn (Z.to_nat (dot - (sep + 1))) (skipn (Z.to_nat (sep + 1)) l))
  then (string_of_list_ascii (firstn (Z.to_nat dot) l),
        string_of_list_ascii (skipn (Z.to_nat dot) l))
  else (p, "").

(** *** Texts the properties below are tried on *)

(** U+3000, the ideographic space. *)
Definition ideographic_space : string :=
  String "227" (String "128" (String "128" EmptyString)).

(** U+FF11, the fullwidth digit one. *)
Definition fullwidth_one : string :=
  String "239" (String "188" (String "145" EmptyString)).

(** The digit 1 after the file separator 0x1c. *)
Definition separator_one : string := String "028" "1".

End Py.

(** ** The job orchestrator: [TrainingApp]'s training controls *)

Module Orchestrator.

Inductive level := DEBUG | INFO | WARNING | ERROR.

(** The [ValueError]s of the [try] block of [start_training]. *)
Inductive value_error :=
| InvalidInt (s : string)        (* raised by [int(s)] *)
| InvalidFloat (s : string)      (* raised by [float(s)] *)
| NotPositive.                   (* "Batch size, epochs, and learning rate
                                    must be positive numbers." *)

(** Texts of the error boxes of [start_training]. *)
Inductive message :=
| SelectBoth                     (* "Please select both a dataset and a model" *)
| InvalidInput (e : value_error). (* f"Invalid input: {str(e)}" *)

Inductive log_msg :=
| ErrorDisplayed (m : message)   (* show_error: "Error displayed: ..." *)
| TrainingAborted                (* "Training aborted: Dataset or model not selected" *)
| InvalidInputLogged (e : value_error)
| TrainingStarted
| TrainingPaused
| TrainingResumed
| TrainingCancelled              (* "Training cancelled by user" *)
| ClosedDuringTraining.          (* "Application closed during training" *)

(** The [tk.StringVar]s of [__init__]. *)
Record entries := {
  data_var : string;
  model_var : string;
  device_var : string;
  batch_size_var : string;
  epochs_var : string;
  learning_rate_var : string;
  max_length_var : string;
  warmup_steps_var : string;
  weight_decay_var : string;
  gradient_accumulation_steps_var : string;
}.

Inductive field :=
| FData | FModel | FDevice | FBatchSize | FEpochs | FLearningRate
| FMaxLength | FWarmupSteps | FWeightDecay | FGradientAccumulationSteps.

#[global] Instance field_eq_dec : EqDecision field.
Proof. solve_decision. Defined.

Definition get_var (f : field) (e : entries) : string :=
  match f with
  | FData => data_var e
  | FModel => model_var e
  | FDevice => device_var e
  | FBatchSize => batch_size_var e
  | FEpochs => epochs_var e
  | FLearningRate => learning_rate_var e
  | FMaxLength => max_length_var e
  | FWarmupSteps => warmup_steps_var e
  | FWeightDecay => weight_decay_var e
  | FGradientAccumulationSteps => gradient_accumulation_steps_var e
  end.

(** [var.set(v)] on the variable of field [f]: the operator typing into
    an entry, a combobox selection, or [load_config]. *)
Definition set_var (f : field) (v : string) (e : entries) : entries :=
  let get g := if bool_decide (g = f) then v else get_var g e in
  {| data_var := get FData;
     model_var := get FModel;
     device_var := get FDevice;
     batch_size_var := get FBatchSize;
     epochs_var := get FEpochs;
     learning_rate_var := get FLearningRate;
     max_length_var := get FMaxLength;
     warmup_steps_var := get FWarmupSteps;
     weight_decay_var := get FWeightDecay;
     gradient_accumulation_steps_var := get FGradientAccumulationSteps |}.

(** What the status label shows. *)
Inductive status_text :=
| Ready                          (* the initial text of [create_widgets] *)
| InProgress                     (* "Training in progress..." *)
| PausedText                     (* "Training paused..." *)
| CancelledText.                 (* "Training cancelled." *)

Inductive pause_label := PauseInitial | PauseLabel | ResumeLabel.

Inductive button_state := Normal | Disabled.

(** The widgets the handlers configure. *)
Record widgets := {
  start_button : button_state;
  pause_button : button_state;
  pause_text : pause_label;
  cancel_button : button_state;
  status : status_text;
  progress : float;              (* [self.progress['value']] *)
}.

(** The state of the engine's loop inside [self.trainer.train()]:
    [TrainerState.global_step], [TrainerState.max_steps] and
    [TrainerControl.should_training_stop], the flag by which a callback
    asks the engine to stop after the current step.  No statement of the
    file writes it. *)
Record trainer_state := {
  global_step : nat;
  max_steps : nat;
  should_training_stop : bool;
}.

(** A thread running [train_model], as far as the control surface can
    interleave with it. *)
Inductive worker :=
| Preparing                      (* before [self.trainer.train()] *)
| InTrainLoop (t : trainer_state)
| Saved (t : trainer_state)      (* [train()] returned, [save_model()] done *)
| Raised.                        (* an exception left [train_model] *)

Record app := {
  vars : entries;
  ui : widgets;
  is_training : bool;
  is_paused : bool;
  threads : list worker;         (* every [Thread(target=self.train_model)] started *)
  log : list (level * log_msg);
  dialogs : list message;        (* [messagebox.showerror] calls *)
  destroyed : bool;              (* [self.root.destroy()] was called *)
}.

(** [__init__] and [create_widgets]. *)
Definition init_entries : entries :=
  {| data_var := ""; model_var := ""; device_var := "CPU";
     batch_size_var := "1"; epochs_var := "1"; learning_rate_var := "2e-5";
     max_length_var := "32"; warmup_steps_var := "0";
     weight_decay_var := "0.01"; gradient_accumulation_steps_var := "1" |}.

Definition init_widgets : widgets :=
  {| start_button := Normal; pause_button := Disabled;
     pause_text := PauseInitial; cancel_button := Disabled;
     status := Ready; progress := 0%float |}.

Definition init : app :=
  {| vars := init_entries; ui := init_widgets; is_training := false;
     is_paused := false; threads := []; log := []; dialogs := [];
     destroyed := false |}.

Definition logging (l : level) (m : log_msg) (st : app) : app :=
  {| vars := vars st; ui := ui st; is_training := is_training st;
     is_paused := is_paused st; threads := threads st;
     log := (log st ++ [(l, m)])%list; dialogs := dialogs st;
     destroyed := destroyed st |}.

(** [show_error]: an error box, then a log record. *)
Definition show_error (m : message) (st : app) : app :=
  logging ERROR (ErrorDisplayed m)
    {| vars := vars st; ui := ui st; is_training := is_training st;
       is_paused := is_paused st; threads := threads st; log := log st;
       dialogs := (dialogs st ++ [m])%list; destroyed := destroyed st |}.

(** The [try] block of [start_training]: the three conversions in the
    order of the code, then the positivity test. *)
Definition check_inputs (e : entries) : value_error + (Z * Z * float) :=
  match Py.int (batch_size_var e) with
  | None => inl (InvalidInt (batch_size_var e))
  | Some batch_size =>
      match Py.int (epochs_var e) with
      | None => inl (InvalidInt (epochs_var e))
      | Some epochs =>
          match Py.float (learning_rate_var e) with
          | None => inl (InvalidFloat (learning_rate_var e))
          | Some learning_rate =>
              if (batch_size <=? 0) || (epochs <=? 0)
                 || (learning_rate <=? 0)%float
              then inl NotPositive
              else inr (batch_size, epochs, learning_rate)
          end
      end
  end.

Definition start_training (st : app) : app :=
  if (String.eqb (data_var (vars st)) "" || String.eqb (model_var (vars st)) "")%bool
  then logging ERROR TrainingAborted (show_error SelectBoth st)
  else
    match check_inputs (vars st) with
    | inl e =>
        logging ERROR (InvalidInputLogged e) (show_error (InvalidInput e) st)
    | inr _ =>
        logging INFO TrainingStarted
          {| vars := vars st;
             ui := {| start_button := Disabled; pause_button := Normal;
                      pause_text := PauseLabel; cancel_button := Normal;
                      status := InProgress; progress := 0%float |};
             is_training := true;
             is_paused := false;
             threads := (threads st ++ [Preparing])%list;
             log := log st; dialogs := dialogs st;
             destroyed := destroyed st |}
    end.

Definition pause_training (st : app) : app :=
  if negb (is_training st) then st
  else if negb (is_paused st) then
    logging INFO TrainingPaused
      {| vars := vars st;
         ui := {| start_button := start_button (ui st);
                  pause_button := pause_button (ui st);
                  pause_text := ResumeLabel;
                  cancel_button := cancel_button (ui st);
                  status := PausedText; progress := progress (ui st) |};
         is_training := is_training st; is_paused := true;
         threads := threads st; log := log st; dialogs := dialogs st;
         destroyed := destroyed st |}
  else
    logging INFO TrainingResumed
      {| vars := vars st;
         ui := {| start_button := start_button (ui st);
                  pause_button := pause_button (ui st);
                  pause_text := PauseLabel;
                  cancel_button := cancel_button (ui st);
                  status := InProgress; progress := progress (ui st) |};
         is_training := is_training st; is_paused := false;
         threads := threads st; log := log st; dialogs := dialogs st;
         destroyed := destroyed st |}.

(** [cancel_training]; [confirmed] is the operator's answer to
    [messagebox.askyesno], asked only while [is_training]. *)
Definition cancel_training (confirmed : bool) (st : app) : app :=
  if negb (is_training st) then st
  else if confirmed then
    logging INFO TrainingCancelled
      {| vars := vars st;
         ui := {| start_button := Normal; pause_button := Disabled;
                  pause_text := PauseLabel; cancel_button := Disabled;
                  status := CancelledText; progress := 0%float |};
         is_training := false; is_paused := false;
         threads := threads st; log := log st; dialogs := dialogs st;
         destroyed := destroyed st |}
  else st.

(** [on_closing]; [confirmed] answers the question asked while
    [is_training]. *)
Definition on_closing (confirmed : bool) (st : app) : app :=
  if is_training st then
    if negb confirmed then st
    else
      let st' := logging INFO ClosedDuringTraining
        {| vars := vars st; ui := ui st; is_training := false;
           is_paused := is_paused st; threads := threads st;
           log := log st; dialogs := dialogs st;
           destroyed := destroyed st |} in
      {| vars := vars st'; ui := ui st'; is_training := is_training st';
         is_paused := is_paused st'; threads := threads st';
         log := log st'; dialogs := dialogs st'; destroyed := true |}
  else
    {| vars := vars st; ui := ui st; is_training := is_training st;
       is_paused := is_paused st; threads := threads st;
       log := log st; dialogs := dialogs st; destroyed := true |}.


(** The inputs [start_training] lets through: the three entries it
    converts, each positive.  [nan] passes, as [nan <= 0] is false. *)
Definition three_fields_valid (e : entries) : Prop :=
  exists b n lr,
    Py.int (batch_size_var e) = Some b /\ Py.int (epochs_var e) = Some n /\
    Py.float (learning_rate_var e) = Some lr /\
    0 < b /\ 0 < n /\ (lr <=? 0)%float = false.

(** The contract for the three entries that are validated, in the words
    of the specification and of the error box: each converts and is a
    positive number. *)
Definition three_fields_positive (e : entries) : Prop :=
  exists b n lr,
    Py.int (batch_size_var e) = Some b /\ Py.int (epochs_var e) = Some n /\
    Py.float (learning_rate_var e) = Some lr /\
    0 < b /\ 0 < n /\ (0 <? lr)%float = true.

(** The learning rate entered is no spelling of [nan]. *)
Definition learning_rate_is_a_number (e : entries) : Prop :=
  forall lr, Py.float (learning_rate_var e) = Some lr -> is_nan lr = false.

(** *** The control surface and the worker threads, one event at a time *)

(** One more pass of the engine's loop: the loop ends when the steps are
    done or [should_training_stop] is set, then [save_model] runs. *)
Definition engine_step (t : trainer_state) : worker :=
  if (should_training_stop t || (max_steps t <=? global_step t)%nat)%bool
  then Saved t
  else InTrainLoop {| global_step := S (global_step t);
                      max_steps := max_steps t;
                      should_training_stop := should_training_stop t |}.

Inductive event :=
| Edit (f : field) (v : string)  (* the operator changes a variable *)
| ClickStart
| ClickPause
| ClickCancel (confirmed : bool)
| Close (confirmed : bool)       (* WM_DELETE_WINDOW or the exit menu entry *)
| WorkerLoaded (i n : nat)       (* thread [i] enters [train()], [n] steps to do *)
| WorkerRaised (i : nat)         (* thread [i] dies of an exception *)
| WorkerStep (i : nat).          (* thread [i]: one pass of the engine's loop *)

(** A [ttk.Button] runs its command only while it is not disabled. *)
Definition click (b : button_state) (command : app -> app) (st : app) : app :=
  match b with
  | Normal => command st
  | Disabled => st
  end.

Definition with_vars (e : entries) (st : app) : app :=
  {| vars := e; ui := ui st; is_training := is_training st;
     is_paused := is_paused st; threads := threads st; log := log st;
     dialogs := dialogs st; destroyed := destroyed st |}.

Definition with_threads (ws : list worker) (st : app) : app :=
  {| vars := vars st; ui := ui st; is_training := is_training st;
     is_paused := is_paused st; threads := ws; log := log st;
     dialogs := dialogs st; destroyed := destroyed st |}.

Definition worker_event (i : nat) (f : worker -> worker) (st : app) : app :=
  match threads st !! i with
  | Some w => with_threads (<[i := f w]> (threads st)) st
  | None => st
  end.

(** The events of the control surface reach the handlers only while the
    window exists; the threads run on their own. *)
Definition dispatch (ev : event) (st : app) : app :=
  match ev with
  | WorkerLoaded i n =>
      worker_event i (fun w =>
        match w with
        | Preparing => InTrainLoop {| global_step := 0; max_steps := n;
                                      should_training_stop := false |}
        | _ => w
        end) st
  | WorkerRaised i =>
      worker_event i (fun w =>
        match w with
        | Preparing | InTrainLoop _ => Raised
        | _ => w
        end) st
  | WorkerStep i =>
      worker_event i (fun w =>
        match w with
        | InTrainLoop t => engine_step t
        | _ => w
        end) st
  | _ =>
      if destroyed st then st
      else
        match ev with
        | Edit f v => with_vars (set_var f v (vars st)) st
        | ClickStart => click (start_button (ui st)) start_training st
        | ClickPause => click (pause_button (ui st)) pause_training st
        | ClickCancel c => click (cancel_button (ui st)) (cancel_training c) st
        | Close c => on_closing c st
        | _ => st
        end
  end.

Definition run (evs : list event) (st : app) : app :=
  fold_left (fun s ev => dispatch ev s) evs st.

(** The phases of the specification, read off the flags and the status
    label; the code has no state for [Cancelling], [Completed] or
    [Failed]. *)
Inductive phase :=
| Idle | Running | Paused | Cancelling | Cancelled | Completed | Failed.

Definition phase_of (st : app) : phase :=
  if is_training st then (if is_paused st then Paused else Running)
  else match status (ui st) with
       | CancelledText => Cancelled
       | _ => Idle
       end.

(** What the operator controls of a job and what the job consists of:
    everything but the log and the error boxes shown. *)
Definition job_state (st : app) :=
  (vars st, ui st, is_training st, is_paused st, threads st, destroyed st).

(** *** The thread body [train_model], with the engine as a collaborator *)

(** The step-level part of [TrainingArguments] that [train_model] sets. *)
Record training_arguments := {
  output_dir : string;
  num_train_epochs : Z;
  per_device_train_batch_size : Z;
  gradient_accumulation_steps : Z;
  learning_rate : float;
  weight_decay : float;
  warmup_steps : Z;
  logging_steps : Z;
  save_strategy : string;
  evaluation_strategy : string;
  fp16 : bool;
  no_cuda : bool;
  dataloader_pin_memory : bool;
  remove_unused_columns : bool;
  report_to : string;
}.

(** The literal [0.01] of the source, as Python reads it. *)
Definition literal_0_01 : float :=
  Eval vm_compute in Py.decimal_to_float false 1 (-2).

(** An instance of [ProgressCallback]. *)
Record progress_callback := {
  total_steps : Z;
  current_step : Z;
}.

(** What [ProgressCallback.on_step_end] hands to [root.after(0, ...)].
    The status lambda reads the callback only when it runs. *)
Inductive ui_update :=
| ConfigProgress (value : float)   (* progress.config(value=progress) *)
| ConfigStatusStep.                (* status.config(text=f"... Step {c}/{t}") *)

Inductive thread_log :=
| UsingModelPath (p : string)
| UsingDataPath (p : string)
| TrainedAndSaved
| TrainingError                    (* logged by the handler of [train_model] *)
| CleaningMemory                   (* "Cleaning VRAM and RAM" *)
| VramFreeAfterCleanup
| RamFreeAfterCleanup
| TrainingBegun (total : Z)
| StepCompleted (current total : Z)
| TrainingEnded.

(** The calls a thread makes on its collaborators, in order. *)
Inductive call :=
| TorchDevice                      (* torch.device("cuda") *)
| SetPerProcessMemoryFraction
| TokenizerFromPretrained (path : string)
| SetPadToken                      (* the pad token read, and set when it is None *)
| ModelFromPretrained (path : string)
| ModelCuda
| NewLoraConfig                    (* LoraConfig(r=8, ...) *)
| GetPeftModel
| PrintTrainableParameters
| RequireLoraGradients             (* the loop over [model.named_parameters()] *)
| GradientCheckpointingEnable
| NewCustomDataset (path : string) (max_length : Z)
| NewDataCollator
| NewTrainingArguments (a : training_arguments)
| NewTrainer (a : training_arguments) (callbacks : list progress_callback)
| Train                            (* self.trainer.train(...) is entered *)
| TrainingStep (k : nat)           (* the engine's k-th step, see below *)
| SaveModel                        (* self.trainer.save_model() of [train_model] *)
| GcCollect
| SetDevice (i : nat)
| EmptyCache
| Synchronize
| RootAfter (u : ui_update)
| Logging (l : level) (m : thread_log).

(** The places of [train_model] where a collaborator may raise. *)
Inductive site :=
| AtDevice | AtMemoryFraction | AtTokenizer | AtPadToken | AtModel
| AtModelCuda | AtLoraConfig | AtPeft
| AtPrintParameters | AtLoraGradients | AtCheckpointing | AtDataset
| AtCollator | AtArguments | AtTrainer | AtSave.

(** The collaborators of one run. *)
Record environment := {
  raises : site -> bool;           (* which external call raises *)
  engine_steps : nat;              (* [state.max_steps] of the run *)
  step_raises : option nat;        (* the engine's step that raises, if any *)
  cuda_available : bool;           (* [torch.cuda.is_available()] *)
  device_count : nat;              (* [torch.cuda.device_count()] *)
}.

(** A computation of a thread: the calls made, and the value returned
    unless an exception was raised. *)
Definition M (A : Type) : Type := (list call * option A)%type.

Definition ret {A} (a : A) : M A := ([], Some a).

Definition bind {A B} (m : M A) (k : A -> M B) : M B :=
  match m with
  | (t, Some a) => let '(t', r) := k a in ((t ++ t')%list, r)
  | (t, None) => (t, None)
  end.

Definition raise {A} : M A := ([], None).

Definition do (c : call) : M unit := ([c], Some tt).

(** An external call that raises when [fails]. *)
Definition may_raise (c : call) (fails : bool) : M unit :=
  ([c], if fails then None else Some tt).

(** [try: body except Exception: handler]. *)
Definition try_except {A} (body handler : M A) : M A :=
  match body with
  | (t, None) => let '(t', r) := handler in ((t ++ t')%list, r)
  | _ => body
  end.

Definition of_option {A} (o : option A) : M A :=
  match o with
  | Some a => ret a
  | None => raise
  end.

Declare Scope thread_scope.
Delimit Scope thread_scope with thread.
Notation "m ;; k" := (bind m (fun _ => k))
  (at level 100, k at level 200, right associativity) : thread_scope.
Notation "'let*' x := m 'in' k" := (bind m (fun x => k))
  (at level 10, x name, m at level 100, k at level 200) : thread_scope.
Local Open Scope thread_scope.

Definition trace {A} (m : M A) : list call := fst m.
Definition returned {A} (m : M A) : option A := snd m.

(** [ProgressCallback.on_train_begin]. *)
Definition on_train_begin (max : nat) (cb : progress_callback)
  : M progress_callback :=
  do (Logging DEBUG (TrainingBegun (Z.of_nat max))) ;;
  ret {| total_steps := Z.of_nat max; current_step := 0 |}.

(** [ProgressCallback.on_step_end]: the division raises
    [ZeroDivisionError] when [total_steps] is 0. *)
Definition on_step_end (global : nat) (cb : progress_callback)
  : M progress_callback :=
  let cb' := {| total_steps := total_steps cb;
                current_step := Z.of_nat global |} in
  match Py.int_true_div (current_step cb') (total_steps cb') with
  | None => raise
  | Some ratio =>
      let progress := (ratio * 100)%float in
      do (RootAfter (ConfigProgress progress)) ;;
      do (RootAfter ConfigStatusStep) ;;
      do (Logging DEBUG (StepCompleted (current_step cb') (total_steps cb'))) ;;
      ret cb'
  end.

(** [ProgressCallback.on_train_end]. *)
Definition on_train_end (cb : progress_callback) : M progress_callback :=
  do (Logging DEBUG TrainingEnded) ;; ret cb.

(** The engine runs a handler on every registered callback. *)
Fixpoint each (h : progress_callback -> M progress_callback)
  (cbs : list progress_callback) : M (list progress_callback) :=
  match cbs with
  | [] => ret []
  | cb :: rest =>
      let* cb' := h cb in
      let* rest' := each h rest in
      ret (cb' :: rest')
  end.

(** Steps [k+1 .. k+todo] of the engine's loop, each followed by the
    step-end handlers (the epoch-end handlers are left out).  A step
    stands for one update of the optimizer together with what the engine
    does of its own before the next one: its logging every
    [logging_steps] updates and, as the arguments of [train_model] ask for
    [save_strategy = "epoch"], the checkpoint it writes under
    [output_dir] when the step ends an epoch.  These writes of the engine
    are not calls of [train_model] and leave no call of their own in the
    trace; only [SaveModel], the call [train_model] makes after [train]
    has returned, is recorded as a save. *)
Fixpoint training_loop (env : environment) (k todo : nat)
  (cbs : list progress_callback) : M (list progress_callback) :=
  match todo with
  | O => ret cbs
  | S todo' =>
      may_raise (TrainingStep (S k))
        (bool_decide (step_raises env = Some (S k))) ;;
      let* cbs' := each (on_step_end (S k)) cbs in
      training_loop env (S k) todo' cbs'
  end.

(** [Trainer.train()] as the code uses it: the steps of the run with the
    handlers of the callbacks the trainer was built with. *)
Definition train (env : environment) (cbs : list progress_callback) : M unit :=
  do Train ;;
  let* cbs0 := each (on_train_begin (engine_steps env)) cbs in
  let* cbs1 := training_loop env 0 (engine_steps env) cbs0 in
  let* _ := each on_train_end cbs1 in
  ret tt.

Definition models_dir : string := "models".
Definition data_dir : string := "data".
Definition trained_models_dir : string := "trained_models".

(** [os.path.join(dir, name)] for a relative [name]. *)
Definition join (dir name : string) : string := dir ++ "/" ++ name.

(** The [TrainingArguments(...)] call of [train_model]; the conversions
    are evaluated in the order of the keyword arguments. *)
Definition make_training_arguments (e : entries) : M training_arguments :=
  let* epochs := of_option (Py.int (epochs_var e)) in
  let* batch_size := of_option (Py.int (batch_size_var e)) in
  let* lr := of_option (Py.float (learning_rate_var e)) in
  ret {| output_dir := trained_models_dir;
         num_train_epochs := epochs;
         per_device_train_batch_size := batch_size;
         gradient_accumulation_steps := 4;
         learning_rate := lr;
         weight_decay := literal_0_01;
         warmup_steps := 100;
         logging_steps := 10;
         save_strategy := "epoch";
         evaluation_strategy := "no";
         fp16 := true;
         no_cuda := false;
         dataloader_pin_memory := true;
         remove_unused_columns := false;
         report_to := "none" |}.

(** The callbacks [train_model] passes to [Trainer(...)]: the call has no
    [callbacks=] argument. *)
Definition trainer_callbacks : list progress_callback := [].

(** The sequence length [train_model] passes to [CustomDataset(...)]. *)
Definition dataset_max_length : Z := 32.

Definition train_model (env : environment) (st : app) : M unit :=
  try_except
    (may_raise TorchDevice (raises env AtDevice) ;;
     may_raise SetPerProcessMemoryFraction (raises env AtMemoryFraction) ;;
     let model_path := join models_dir (model_var (vars st)) in
     let data_path := join data_dir (data_var (vars st)) in
     do (Logging INFO (UsingModelPath model_path)) ;;
     do (Logging INFO (UsingDataPath data_path)) ;;
     may_raise (TokenizerFromPretrained model_path) (raises env AtTokenizer) ;;
     may_raise SetPadToken (raises env AtPadToken) ;;
     may_raise (ModelFromPretrained model_path) (raises env AtModel) ;;
     may_raise ModelCuda (raises env AtModelCuda) ;;
     may_raise NewLoraConfig (raises env AtLoraConfig) ;;
     may_raise GetPeftModel (raises env AtPeft) ;;
     may_raise PrintTrainableParameters (raises env AtPrintParameters) ;;
     may_raise RequireLoraGradients (raises env AtLoraGradients) ;;
     may_raise GradientCheckpointingEnable (raises env AtCheckpointing) ;;
     may_raise (NewCustomDataset data_path dataset_max_length)
       (raises env AtDataset) ;;
     may_raise NewDataCollator (raises env AtCollator) ;;
     let* training_args := make_training_arguments (vars st) in
     may_raise (NewTrainingArguments training_args) (raises env AtArguments) ;;
     may_raise (NewTrainer training_args trainer_callbacks)
       (raises env AtTrainer) ;;
     train env trainer_callbacks ;;
     may_raise SaveModel (raises env AtSave) ;;
     do (Logging INFO TrainedAndSaved))
    (do (Logging ERROR TrainingError) ;; raise).

(** The loop of [clean_memory] over the devices. *)
Fixpoint clear_caches (devices : list nat) : M unit :=
  match devices with
  | [] => ret tt
  | i :: rest =>
      do (SetDevice i) ;; do EmptyCache ;; do Synchronize ;; clear_caches rest
  end.

(** [clean_memory]: "Clean up memory before and after training." *)
Definition clean_memory (env : environment) : M unit :=
  do (Logging DEBUG CleaningMemory) ;;
  do GcCollect ;;
  (if cuda_available env then
     clear_caches (seq 0 (device_count env)) ;;
     do (Logging DEBUG VramFreeAfterCleanup)
   else ret tt) ;;
  do (Logging DEBUG RamFreeAfterCleanup).

(** The gate of the start button: while [is_training], it is disabled. *)
Definition gated (st : app) : Prop :=
  is_training st = true -> start_button (ui st) = Disabled.

(** Every call of a computation satisfies [P]. *)
Definition all_calls {A} (P : call -> Prop) (m : M A) : Prop :=
  Forall P (trace m).

(** How many calls of a computation satisfy [p]. *)
Definition count_calls {A} (p : call -> bool) (m : M A) : nat :=
  length (List.filter p (trace m)).

(** What a call of [train_model] can be: no cleanup, nothing scheduled on
    the control surface, and the arguments, callbacks, path and length
    the code passes. *)
Definition expected_call (st : app) (c : call) : Prop :=
  match c with
  | GcCollect | SetDevice _ | EmptyCache | Synchronize | RootAfter _ => False
  | NewTrainingArguments a =>
      returned (make_training_arguments (vars st)) = Some a
  | NewTrainer a cbs =>
      returned (make_training_arguments (vars st)) = Some a /\ cbs = []
  | NewCustomDataset p n =>
      p = join data_dir (data_var (vars st)) /\ n = 32
  | _ => True
  end.

Definition is_gc (c : call) : bool :=
  match c with GcCollect => true | _ => false end.

Definition is_cache_clearing (c : call) : bool :=
  match c with EmptyCache | Synchronize => true | _ => false end.

Definition is_root_after (c : call) : bool :=
  match c with RootAfter _ => true | _ => false end.

(** *** States and runs the properties below are tried on *)

(** A dataset and a model selected, and a job started from the default
    entries. *)
Definition one_job_running : app :=
  run [Edit FData "d.jsonl"; Edit FModel "m"; ClickStart] init.

(** Entries whose three validated fields are fine and whose other four
    are not. *)
Definition four_bad_entries : entries :=
  {| data_var := "d.jsonl"; model_var := "m"; device_var := "CPU";
     batch_size_var := "1"; epochs_var := "1"; learning_rate_var := "1e-5";
     max_length_var := "0"; warmup_steps_var := "-1";
     weight_decay_var := "-0.5"; gradient_accumulation_steps_var := "0" |}.

(** A run in which no collaborator raises: 3 steps, one device. *)
Definition quiet_run : environment :=
  {| raises := fun _ => false; engine_steps := 3; step_raises := None;
     cuda_available := true; device_count := 1 |}.

(** Entries with values of the operator's own for the fields
    [train_model] does not read. *)
Definition chosen_entries : entries :=
  {| data_var := "d.jsonl"; model_var := "m"; device_var := "CPU";
     batch_size_var := "1"; epochs_var := "1"; learning_rate_var := "2e-5";
     max_length_var := "64"; warmup_steps_var := "10";
     weight_decay_var := "0.1"; gradient_accumulation_steps_var := "2" |}.

(** *** What the control surface keeps *)

(** The controls agree with the flags: the buttons, the pause label and
    the status label are those of the last handler that set them. *)
Definition controls_follow_flags (st : app) : Prop :=
  start_button (ui st) = (if is_training st then Disabled else Normal) /\
  pause_button (ui st) = (if is_training st then Normal else Disabled) /\
  cancel_button (ui st) = (if is_training st then Normal else Disabled) /\
  (is_paused st = true -> is_training st = true) /\
  (is_training st = true ->
   status (ui st) = (if is_paused st then PausedText else InProgress) /\
   pause_text (ui st) = (if is_paused st then ResumeLabel else PauseLabel)).

Definition is_started (r : level * log_msg) : bool :=
  match snd r with TrainingStarted => true | _ => false end.

Definition is_training_step (c : call) : bool :=
  match c with TrainingStep _ => true | _ => false end.

Definition is_empty_cache (c : call) : bool :=
  match c with EmptyCache => true | _ => false end.

Definition is_synchronize (c : call) : bool :=
  match c with Synchronize => true | _ => false end.

Definition is_error_log (c : call) : bool :=
  match c with Logging ERROR TrainingError => true | _ => false end.

Definition is_save (c : call) : bool :=
  match c with SaveModel => true | _ => false end.

Definition is_progress_update (c : call) : bool :=
  match c with RootAfter (ConfigProgress _) => true | _ => false end.

Definition is_set_device (c : call) : bool :=
  match c with SetDevice _ => true | _ => false end.

(** The engine of a thread has been asked to stop. *)
Definition stop_requested (w : worker) : bool :=
  match w with
  | InTrainLoop t | Saved t => should_training_stop t
  | _ => false
  end.

(** A job whose engine has done 1 step of 5. *)
Definition one_step_of_five : list event :=
  [Edit FData "d.jsonl"; Edit FModel "m"; ClickStart; WorkerLoaded 0 5;
   WorkerStep 0].

(** No step of the run raises. *)
Definition steps_succeed (env : environment) : Prop :=
  forall k, step_raises env = Some k -> (k = 0 \/ engine_steps env < k)%nat.

(** The steps after [k], [todo] of them, do not raise. *)
Definition steps_between (env : environment) (k todo : nat) : Prop :=
  forall j, (k < j <= k + todo)%nat -> step_raises env <> Some j.

End Orchestrator.

(** ** The resource estimator: [TrainingApp.estimate_memory] *)

Module Estimator.

(** What is at a path: a file of some size in bytes, or a directory. *)
Inductive node :=
| File (size : Z)
| Dir (entries : list (string * node)).

(** The sizes of all files below a node. *)
Fixpoint tree_size (n : node) : Z :=
  match n with
  | File size => size
  | Dir entries =>
      (fix total (es : list (string * node)) : Z :=
         match es with
         | [] => 0
         | (_, child) :: rest => tree_size child + total rest
         end) entries
  end.

(** [sum(getsize(join(root, f)) for root, _, files in os.walk(path) for f in
    files)]: [os.walk] yields nothing for a path that is not a directory. *)
Definition walk_size (n : node) : Z :=
  match n with
  | File _ => 0
  | Dir _ => tree_size n
  end.

Fixpoint lookup (name : string) (es : list (string * node)) : option node :=
  match es with
  | [] => None
  | (k, n) :: rest => if String.eqb k name then Some n else lookup name rest
  end.

(** [x / (1024 * 1024)] for a byte count. *)
Definition megabytes (bytes : Z) : float :=
  match Py.int_true_div bytes (1024 * 1024) with
  | Some q => q
  | None => 0%float
  end.

(** The literal [0.1] of the source, as Python reads it. *)
Definition literal_0_1 : float :=
  Eval vm_compute in Py.decimal_to_float false 1 (-1).

Record telemetry := {
  available_ram_bytes : Z;         (* psutil.virtual_memory().available *)
  device_count : nat;              (* pynvml.nvmlDeviceGetCount() at start-up *)
  free_vram_bytes : Z;             (* nvmlDeviceGetMemoryInfo(handle).free *)
}.

Record estimate := {
  total_ram : float;               (* shown in [ram_label], in MB *)
  total_vram : float;              (* shown in [vram_label], in MB *)
  warned : bool;                   (* the "Insufficient memory" warning *)
}.

(** [model_size] of the source: 0 when nothing is at the path. *)
Definition model_size (model : option node) : float :=
  match model with
  | Some n => megabytes (walk_size n)
  | None => 0%float
  end.

(** [dataset_size] of the source: the walk for a directory, the size of
    the file for a file, 0 when nothing is at the path. *)
Definition dataset_size (data : option node) : float :=
  match data with
  | Some (Dir es) => megabytes (walk_size (Dir es))
  | Some (File size) => megabytes size
  | None => 0%float
  end.

(** [estimate_memory], from the two selections, the directories [data] and
    [models] and the telemetry; [None] when a selection is empty (the
    labels are left alone).  The labels exist whenever it runs, and no
    call on the file system or the telemetry raises (the handler of the
    [try] only shows an error box). *)
Definition estimate_memory (data_var model_var : string)
  (data_dir models_dir : list (string * node)) (t : telemetry)
  : option estimate :=
  if (String.eqb data_var "" || String.eqb model_var "")%bool then None
  else
    let model_size := model_size (lookup model_var models_dir) in
    let dataset_size := dataset_size (lookup data_var data_dir) in
    let total_ram := ((model_size + dataset_size + 50) * 0.5)%float in
    let total_vram := (model_size * literal_0_1)%float in
    let available_ram := megabytes (available_ram_bytes t) in
    let warned :=
      if (0 <? device_count t)%nat then
        let available_vram := megabytes (free_vram_bytes t) in
        ((available_vram <? total_vram) || (available_ram <? total_ram))%float
      else false in
    Some {| total_ram := total_ram; total_vram := total_vram;
            warned := warned |}.

(** *** The contract of the specification, in its words *)

(** The sizes of the files found under a path, one by one: of the path
    itself when it is a file, of every file at any depth when it is a
    directory. *)
Fixpoint file_sizes (n : node) : list Z :=
  match n with
  | File size => [size]
  | Dir entries =>
      (fix below (es : list (string * node)) : list Z :=
         match es with
         | [] => []
         | (_, child) :: rest => (file_sizes child ++ below rest)%list
         end) entries
  end.

(** The recursive on-disk byte size under a path. *)
Definition recursive_bytes (n : node) : Z := fold_right Z.add 0 (file_sizes n).

(** *** A selection the properties below are tried on *)

Definition mib : Z := 1024 * 1024.

(** A model directory of 1000 MB in three files, one in a subdirectory,
    and an empty dataset file. *)
Definition models_1000mb : list (string * node) :=
  [("m", Dir [("model.safetensors", File (900 * mib));
              ("tokenizer", Dir [("tokenizer.json", File (99 * mib))]);
              ("config.json", File mib)])].

Definition data_0mb : list (string * node) := [("d.jsonl", File 0)].

Definition idle_host : telemetry :=
  {| available_ram_bytes := 8192 * mib; device_count := 1;
     free_vram_bytes := 4096 * mib |}.

End Estimator.

(** ** JSON values, as [json.loads] builds them *)

Module Json.

Inductive json :=
| JNull
| JBool (b : bool)
| JInt (n : Z)
| JFloat (f : float)
| JStr (s : string)
| JList (items : list json)
| JDict (members : list (string * json)).

(** Python's truth value of a JSON value. *)
Definition truthy (v : json) : bool :=
  match v with
  | JNull => false
  | JBool b => b
  | JInt n => negb (n =? 0)
  | JFloat f => negb (f =? 0)%float
  | JStr s => negb (String.eqb s "")
  | JList items => match items with [] => false | _ => true end
  | JDict members => match members with [] => false | _ => true end
  end.

(** [d.get(key)] on the members of a dict. *)
Fixpoint get (key : string) (members : list (string * json)) : option json :=
  match members with
  | [] => None
  | (k, v) :: rest => if String.eqb k key then Some v else get key rest
  end.

(** [isinstance(item, dict) and 'text' in item and item['text']]. *)
Definition has_text (item : json) : bool :=
  match item with
  | JDict members =>
      match get "text" members with
      | Some v => truthy v
      | None => false
      end
  | _ => false
  end.

(** The value under [key] of a record, if it is a dict that has one. *)
Definition field (key : string) (item : json) : option json :=
  match item with
  | JDict members => get key members
  | _ => None
  end.

Definition is_str (v : json) : bool :=
  match v with JStr _ => true | _ => false end.

(** The value can be written to a file opened with [encoding='utf-8']:
    none of its strings and keys holds a lone surrogate. *)
Fixpoint encodable (v : json) : bool :=
  match v with
  | JStr s => Py.encodable s
  | JList items => forallb encodable items
  | JDict members =>
      forallb (fun member => Py.encodable (fst member) && encodable (snd member))
        members
  | _ => true
  end.

End Json.

(** ** The dataset normalizer: [CustomDataset.load_data] *)

Module Normalizer.

Import Json.

(** A cell of a [pandas] frame read from a CSV file: missing, a string,
    an integer or a boolean. *)
Inductive cell :=
| CNaN
| CStr (s : string)
| CInt (n : Z)
| CBool (b : bool).

Record dataframe := {
  columns : list string;
  rows : list (list (string * cell));   (* a row: its cell per column *)
}.

(** [pd.notna(v)]. *)
Definition notna (c : cell) : bool :=
  match c with CNaN => false | _ => true end.

(** [str(v)]. *)
Definition str (c : cell) : string :=
  match c with
  | CNaN => "nan"
  | CStr s => s
  | CInt n => Py.str_int n
  | CBool b => Py.str_bool b
  end.

(** A cell as the value the record keeps or [to_dict] gives. *)
Definition value (c : cell) : json :=
  match c with
  | CNaN => JFloat nan
  | CStr s => JStr s
  | CInt n => JInt n
  | CBool b => JBool b
  end.

Fixpoint row_get (key : string) (row : list (string * cell)) : cell :=
  match row with
  | [] => CNaN
  | (k, c) :: rest => if String.eqb k key then c else row_get key rest
  end.

(** A file, as the reader the code picks for it sees it. *)
Inductive content :=
| JsonLines (lines : list (option json))
    (* per line, [json.loads(line.strip())]; [None]: [JSONDecodeError] *)
| JsonDocument (doc : json)        (* what [json.load] returns *)
| Csv (df : dataframe)             (* what [pd.read_csv] returns *)
| Unparseable.                     (* the reader raises *)

(** What [open(path).read()] gives for an entry of the [text] directory. *)
Inductive text_entry :=
| Readable (content : string)
| Unreadable.                      (* it raises: no file, no UTF-8, ... *)

(** The [text] sub-collection of a dataset directory. *)
Inductive text_dir :=
| TextMissing                      (* [os.path.exists(text_dir)] is false *)
| TextNotADirectory                (* it exists, [os.listdir] raises *)
| TextListing (entries : list (string * text_entry)).

(** What is at a path of the [data] directory: a file, or a dataset
    directory with its [text] sub-collection and the names under
    [images]. *)
Inductive node :=
| File (c : content)
| Dir (text : text_dir) (images : list string).

Inductive error :=
| TextDirectoryNotFound            (* ValueError("Text directory not found: ...") *)
| NotADirectory                    (* [os.listdir] on something that is no directory *)
| FileNotFound                     (* [open] or [pd.read_csv] on a missing path *)
| ParseError                       (* the reader of the file raised *)
| NoValidData.                     (* ValueError("No valid data loaded from the file") *)

Inductive log_record :=
| WarnInvalidJsonLine              (* warning: "Invalid JSON line: ..." *)
| WarnErrorReadingFile (name : string)
| ErrorReadingFile (e : error)     (* error, [_load_file_data] *)
| ErrorLoadingData (e : error)     (* error, [load_data] *)
| InfoLoaded (n : nat).            (* info: "Successfully loaded n records" *)

(** A reader's outcome: the log records written, then the records
    appended to [self.data] or the exception raised. *)
Definition outcome : Type := (list log_record * (error + list json))%type.

(** The record [{'text': text, 'image': image}]. *)
Definition record (text : string) (image : json) : json :=
  JDict [("text", JStr text); ("image", image)].

(** The loop of [_load_directory_data] over [os.listdir(text_dir)]. *)
Fixpoint read_text_files (es : list (string * text_entry))
  : list log_record * list json :=
  match es with
  | [] => ([], [])
  | (filename, entry) :: rest =>
      let '(logs, data) := read_text_files rest in
      if (Py.endswith filename ".txt" || Py.endswith filename ".md")%bool then
        match entry with
        | Readable content =>
            let text := Py.strip content in
            if negb (String.eqb text "")
            then (logs, record text JNull :: data)
            else (logs, data)
        | Unreadable => (WarnErrorReadingFile filename :: logs, data)
        end
      else (logs, data)
  end.

Definition _load_directory_data (text : text_dir) : outcome :=
  match text with
  | TextMissing => ([], inl TextDirectoryNotFound)
  | TextNotADirectory => ([], inl NotADirectory)
  | TextListing es =>
      let '(logs, data) := read_text_files es in (logs, inr data)
  end.

(** The loop over the lines of a [.jsonl] file. *)
Fixpoint read_lines (lines : list (option json)) : list log_record * list json :=
  match lines with
  | [] => ([], [])
  | line :: rest =>
      let '(logs, data) := read_lines rest in
      match line with
      | Some item => (logs, if has_text item then item :: data else data)
      | None => (WarnInvalidJsonLine :: logs, data)
      end
  end.

(** The records of a [.json] document. *)
Definition read_document (doc : json) : list json :=
  match doc with
  | JList items => List.filter has_text items
  | JDict _ => if has_text doc then [doc] else []
  | _ => []
  end.

(** The loop over [df.iterrows()]. *)
Definition read_rows (df : dataframe) : list json :=
  if existsb (String.eqb "text") (columns df) then
    flat_map
      (fun row =>
         let text := row_get "text" row in
         if (notna text && negb (String.eqb (Py.strip (str text)) ""))%bool
         then [record (Py.strip (str text))
                 (if existsb (String.eqb "image") (columns df)
                  then value (row_get "image" row) else JNull)]
         else [])
      (rows df)
  else [].

(** The body of the [try] of [_load_file_data]: the reader chosen by the
    lower-cased extension of the path. *)
Definition read_file (file_ext : string) (n : option node) : outcome :=
  if String.eqb file_ext ".jsonl" then
    match n with
    | Some (File (JsonLines lines)) =>
        let '(logs, data) := read_lines lines in (logs, inr data)
    | Some _ => ([], inl ParseError)
    | None => ([], inl FileNotFound)
    end
  else if String.eqb file_ext ".json" then
    match n with
    | Some (File (JsonDocument doc)) => ([], inr (read_document doc))
    | Some _ => ([], inl ParseError)
    | None => ([], inl FileNotFound)
    end
  else if String.eqb file_ext ".csv" then
    match n with
    | Some (File (Csv df)) => ([], inr (read_rows df))
    | Some _ => ([], inl ParseError)
    | None => ([], inl FileNotFound)
    end
  else ([], inr []).

Definition _load_file_data (data_path : string) (n : option node) : outcome :=
  let file_ext := Py.lower (snd (Py.splitext data_path)) in
  match read_file file_ext n with
  | (logs, inl e) => ((logs ++ [ErrorReadingFile e])%list, inl e)
  | ok => ok
  end.

(** [load_data] for the path [data_path], with [n] what is there. *)
Definition load_data (data_path : string) (n : option node) : outcome :=
  let '(logs, r) :=
    match n with
    | Some (Dir text _) => _load_directory_data text
    | _ => _load_file_data data_path n
    end in
  match r with
  | inl e => ((logs ++ [ErrorLoadingData e])%list, inl e)
  | inr [] => ((logs ++ [ErrorLoadingData NoValidData])%list, inl NoValidData)
  | inr data => ((logs ++ [InfoLoaded (length data)])%list, inr data)
  end.

Definition logs (o : outcome) : list log_record := fst o.
Definition result (o : outcome) : error + list json := snd o.


(** *** The contract of the specification, in its words *)

(** The example of an entry of [text]: a [.txt] or [.md] file that can be
    read and is not blank. *)
Definition text_example (e : string * text_entry) : option json :=
  if (Py.endswith (fst e) ".txt" || Py.endswith (fst e) ".md")%bool then
    match snd e with
    | Readable content =>
        if String.eqb (Py.strip content) "" then None
        else Some (record (Py.strip content) JNull)
    | Unreadable => None
    end
  else None.

(** The example of a row of a frame: its [text] is there and not blank. *)
Definition row_example (df : dataframe) (row : list (string * cell))
  : option json :=
  match row_get "text" row with
  | CNaN => None
  | c =>
      if String.eqb (Py.strip (str c)) "" then None
      else Some (record (Py.strip (str c))
                   (if existsb (String.eqb "image") (columns df)
                    then value (row_get "image" row) else JNull))
  end.

(** The records a document holds: those of a list, or the bare one. *)
Definition document_records (doc : json) : list json :=
  match doc with
  | JList items => items
  | JDict _ => [doc]
  | _ => []
  end.

(** The valid examples of a source: what is left of its records after
    the row filter. *)
Definition valid_examples (data_path : string) (n : option node) : list json :=
  let file_ext := Py.lower (snd (Py.splitext data_path)) in
  match n with
  | Some (Dir (TextListing es) _) => omap text_example es
  | Some (File (JsonLines lines)) =>
      if String.eqb file_ext ".jsonl"
      then List.filter has_text (omap id lines) else []
  | Some (File (JsonDocument doc)) =>
      if String.eqb file_ext ".json"
      then List.filter has_text (document_records doc) else []
  | Some (File (Csv df)) =>
      if (String.eqb file_ext ".csv" && existsb (String.eqb "text") (columns df))%bool
      then omap (row_example df) (rows df) else []
  | _ => []
  end.

(** A structured file cannot be parsed: the reader its extension selects
    raises on it. *)
Definition cannot_be_parsed (file_ext : string) (c : content) : bool :=
  if String.eqb file_ext ".jsonl" then
    match c with JsonLines _ => false | _ => true end
  else if String.eqb file_ext ".json" then
    match c with JsonDocument _ => false | _ => true end
  else if String.eqb file_ext ".csv" then
    match c with Csv _ => false | _ => true end
  else false.

(** [load_data] raised. *)
Definition raises (o : outcome) : Prop := exists e, result o = inl e.


(** The text of a record is a string that is not empty. *)
Definition text_is_nonempty_string (item : json) : Prop :=
  exists s, field "text" item = Some (JStr s) /\ s <> "".

(** *** Sources the properties below are tried on *)

Definition example (s : string) : json := JDict [("text", JStr s)].

(** Three valid lines and a malformed one. *)
Definition three_and_one : node :=
  File (JsonLines [Some (example "a"); None; Some (example "b");
                   Some (example "c")]).


Definition small_frame : node :=
  File (Csv {| columns := ["text"; "image"];
               rows := [[("text", CStr " a "); ("image", CNaN)];
                        [("text", CNaN); ("image", CStr "i.jpg")];
                        [("text", CInt 5); ("image", CStr "i.jpg")]] |}).

(** *** Reading an example: [CustomDataset.__getitem__] *)

(** [l[idx]] of Python: a negative index counts from the end; [None] is
    the [IndexError]. *)
Definition py_index {A} (l : list A) (idx : Z) : option A :=
  let n := Z.of_nat (length l) in
  if (0 <=? idx) && (idx <? n) then nth_error l (Z.to_nat idx)
  else if (- n <=? idx) && (idx <? 0) then nth_error l (Z.to_nat (idx + n))
  else None.

(** What the tokenizer returns for one text, squeezed. *)
Record encoding := {
  encoded_ids : list Z;            (* encoding['input_ids'] *)
  encoded_mask : list Z;           (* encoding['attention_mask'] *)
}.

(** The dict [__getitem__] returns; [pixel_values] is [None] when the key
    is absent and [Some None] when it holds [None]. *)
Record output := {
  input_ids : list Z;
  attention_mask : list Z;
  labels : list Z;
  pixel_values : option (option (list Z));
}.

Inductive item_log :=
| WarnInvalidText (idx : Z)        (* warning: "Encountered invalid text ..." *)
| WarnImage (idx : Z)              (* warning: "Error loading image ..." *)
| ErrorInGetitem (idx : Z).        (* error: "Error in __getitem__ ..." *)

(** [not text or not isinstance(text, str)]. *)
Definition invalid_text (text : json) : bool :=
  (negb (truthy text) || negb (is_str text))%bool.

(** The text handed to the tokenizer: ["[UNK]"] in place of an invalid
    one. *)
Definition text_or_unk (text : json) : string :=
  if invalid_text text then "[UNK]"
  else match text with JStr s => s | _ => "[UNK]" end.

(** [labels[labels == pad_token_id] = -100] on a copy of the ids. *)
Definition mask_padding (pad_token_id : Z) (ids : list Z) : list Z :=
  map (fun id => if id =? pad_token_id then -100 else id) ids.

Section Tokenizer.

(** [self.tokenizer(text, max_length=..., padding='max_length',
    truncation=True, return_tensors='pt')] with the two tensors squeezed
    and moved to the device; [None] when one of these calls raises. *)
Variable tokenizer : string -> Z -> option encoding.

Variable pad_token_id : Z.

(** [torch.tensor(Image.open(path).convert('RGB')).cuda()]; [None] when
    one of these calls raises. *)
Variable open_image : json -> option (list Z).

Definition __getitem__ (data : list json) (max_length : Z) (idx : Z)
  : list item_log * option output :=
  match py_index data idx with
  | None => ([ErrorInGetitem idx], None)
  | Some item =>
      match field "text" item with
      | None => ([ErrorInGetitem idx], None)
      | Some text =>
          let warned :=
            if invalid_text text then [WarnInvalidText idx] else [] in
          match tokenizer (text_or_unk text) max_length with
          | None => ((warned ++ [ErrorInGetitem idx])%list, None)
          | Some enc =>
              let out pixels :=
                {| input_ids := encoded_ids enc;
                   attention_mask := encoded_mask enc;
                   labels := mask_padding pad_token_id (encoded_ids enc);
                   pixel_values := pixels |} in
              match field "image" item with
              | Some image =>
                  if truthy image then
                    match open_image image with
                    | Some tensor => (warned, Some (out (Some (Some tensor))))
                    | None =>
                        ((warned ++ [WarnImage idx])%list, Some (out (Some None)))
                    end
                  else (warned, Some (out None))
              | None => (warned, Some (out None))
              end
          end
      end
  end.

(** [__len__]. *)
Definition __len__ (data : list json) : Z := Z.of_nat (length data).

End Tokenizer.

Definition is_getitem_error (r : item_log) : bool :=
  match r with ErrorInGetitem _ => true | _ => false end.

(** A tokenizer that gives every text the ids 7, 7 and two pads. *)
Definition toy_tokenizer (text : string) (max_length : Z) : option encoding :=
  Some {| encoded_ids := [7; 7; 0; 0]; encoded_mask := [1; 1; 0; 0] |}.

End Normalizer.

(** ** The format converter: [TrainingApp.convert_dataset] *)

Module Converter.

Import Json Normalizer.

Inductive failure :=
| NoDatasetSelected                (* the first error box *)
| DatasetMissing                   (* the second error box *)
| TextDirectoryRequired            (* ValueError: no [text] subdirectory *)
| ListingFailed                    (* [os.listdir] raised *)
| UnreadableText                   (* [open] or [read] raised *)
| MalformedLine                    (* [json.loads] raised on a line *)
| ParseFailure                     (* [json.load] or [pd.read_csv] raised *)
| UnsupportedFormat                (* ValueError: the extension is not one of the three *)
| NotIterable                      (* TypeError of [for item in data] *)
| FrameFailure                     (* [pd.DataFrame(data)] raised *)
| TargetNotWritable                (* [open(target_path, 'w')] raised *)
| EncodeFailure                    (* UnicodeEncodeError of [f.write] *)
| CsvWriteFailure.                 (* [df.to_csv] raised while writing *)

Inductive outcome :=
| Converted                        (* the success box was shown *)
| Failed (f : failure).            (* an error box was shown *)

(** [df.to_dict('records')]. *)
Definition to_dict_records (df : dataframe) : list json :=
  map (fun row =>
         JDict (map (fun col => (col, value (row_get col row))) (columns df)))
      (rows df).

(** The characters of a string, each a string. *)
Fixpoint characters (s : string) : list json :=
  match s with
  | EmptyString => []
  | String c r => JStr (String c EmptyString) :: characters r
  end.

(** [for item in data]: the items, or [None] for the [TypeError] of a
    value that is not iterable. *)
Definition iterate (data : json) : option (list json) :=
  match data with
  | JList items => Some items
  | JDict members => Some (map (fun kv => JStr (fst kv)) members)
  | JStr s => Some (characters s)
  | _ => None
  end.

(** The list comprehension over the lines of a [.jsonl] source. *)
Fixpoint all_lines (lines : list (option json)) : option (list json) :=
  match lines with
  | [] => Some []
  | Some item :: rest =>
      match all_lines rest with
      | Some items => Some (item :: items)
      | None => None
      end
  | None :: _ => None
  end.

(** The loop over [os.listdir(text_path)] of a directory source. *)
Fixpoint collect_texts (source_path : string) (images : list string)
  (es : list (string * text_entry)) : failure + list json :=
  match es with
  | [] => inr []
  | (file, entry) :: rest =>
      if Py.endswith file ".txt" then
        match entry with
        | Unreadable => inl UnreadableText
        | Readable content =>
            match collect_texts source_path images rest with
            | inl f => inl f
            | inr data =>
                let text := Py.strip content in
                if negb (String.eqb text "") then
                  let image := Py.replace file ".txt" ".jpg" in
                  let image_file :=
                    Orchestrator.join (Orchestrator.join source_path "images") image in
                  inr (record text
                         (if existsb (String.eqb image) images
                          then JStr image_file else JNull) :: data)
                else inr data
            end
        end
      else collect_texts source_path images rest
  end.

(** The first half of the [try]: the source read into [data]. *)
Definition read_source (source_path : string) (n : node) : failure + json :=
  match n with
  | Dir text images =>
      match text with
      | TextMissing => inl TextDirectoryRequired
      | TextNotADirectory => inl ListingFailed
      | TextListing es =>
          match collect_texts source_path images es with
          | inl f => inl f
          | inr data => inr (JList data)
          end
      end
  | File c =>
      if Py.endswith source_path ".jsonl" then
        match c with
        | JsonLines lines =>
            match all_lines lines with
            | Some items => inr (JList items)
            | None => inl MalformedLine
            end
        | _ => inl ParseFailure
        end
      else if Py.endswith source_path ".json" then
        match c with
        | JsonDocument doc => inr doc
        | _ => inl ParseFailure
        end
      else if Py.endswith source_path ".csv" then
        match c with
        | Csv df => inr (JList (to_dict_records df))
        | _ => inl ParseFailure
        end
      else inl UnsupportedFormat
  end.

(** The loop of the [jsonl] branch over the items: the lines written when
    it ends, and whether it ended on an item that cannot be encoded (the
    lines before it stay in the file). *)
Fixpoint written_lines (items : list json) : list json * bool :=
  match items with
  | [] => ([], false)
  | item :: rest =>
      if encodable item then
        let '(lines, raised) := written_lines rest in (item :: lines, raised)
      else ([], true)
  end.

Definition is_directory (n : option node) : bool :=
  match n with
  | Some (Dir _ _) => true
  | _ => false
  end.

Section Pandas.

(** [pd.DataFrame(data)]: [None] when it raises. *)
Variable DataFrame : json -> option dataframe.

(** [df.to_csv(path, index=False, encoding='utf-8')] on a path that can
    be opened: the file it leaves, as a later [pd.read_csv] sees it, and
    whether it raised while writing. *)
Variable to_csv : dataframe -> content * bool.

(** The second half of the [try]: the file left at the target path, if
    one is written, and whether an exception ended the block.
    [can_open] tells whether [open(target_path, 'w')] succeeds.  A
    written line is what [json.loads] reads back from
    [json.dumps(item)], the item; a document that [json.dump] could not
    finish, because a string of it cannot be encoded, is cut short and
    cannot be parsed. *)
Definition write_target (target_format : string) (can_open : bool)
  (data : json) : option content * option failure :=
  if String.eqb target_format "jsonl" then
    if can_open then
      match iterate data with
      | Some items =>
          let '(lines, raised) := written_lines items in
          (Some (JsonLines (map Some lines)),
           if raised then Some EncodeFailure else None)
      | None => (Some (JsonLines []), Some NotIterable)
      end
    else (None, Some TargetNotWritable)
  else if String.eqb target_format "json" then
    if can_open then
      if encodable data then (Some (JsonDocument data), None)
      else (Some Unparseable, Some EncodeFailure)
    else (None, Some TargetNotWritable)
  else if String.eqb target_format "csv" then
    match DataFrame data with
    | Some df =>
        if can_open then
          let '(c, raised) := to_csv df in
          (Some c, if raised then Some CsvWriteFailure else None)
        else (None, Some TargetNotWritable)
    | None => (None, Some FrameFailure)
    end
  else (None, None).

(** [convert_dataset], on the [data] directory [fs]: the directory
    afterwards and the box shown.  [writable] tells of a path whether the
    system lets the program open it for writing; a path that holds a
    directory cannot be opened whatever it says.  The refresh of the
    dataset list that follows a success is left out. *)
Definition convert_dataset (writable : string -> bool)
  (data_var target_format : string)
  (fs : gmap string node) : gmap string node * outcome :=
  if String.eqb data_var "" then (fs, Failed NoDatasetSelected)
  else
    let source_path := Orchestrator.join Orchestrator.data_dir data_var in
    match fs !! data_var with
    | None => (fs, Failed DatasetMissing)
    | Some n =>
        let target := fst (Py.splitext data_var) ++ "." ++ target_format in
        let target_path := Orchestrator.join Orchestrator.data_dir target in
        match read_source source_path n with
        | inl f => (fs, Failed f)
        | inr data =>
            let can_open :=
              (writable target_path && negb (is_directory (fs !! target)))%bool in
            let '(written, raised) := write_target target_format can_open data in
            let fs' :=
              match written with
              | Some c => <[target := File c]> fs
              | None => fs
              end in
            (fs', match raised with
                  | Some f => Failed f
                  | None => Converted
                  end)
        end
    end.

(** A data directory in which the system lets every path be written. *)
Definition permissive : string -> bool := fun _ => true.

(** [A -> B -> A]: the file [stem.A] converted to [B], the result
    converted back to [A], where every path may be written. *)
Definition round_trip (stem a b : string) (fs : gmap string node)
  : gmap string node :=
  let fs1 := fst (convert_dataset permissive (stem ++ "." ++ a) b fs) in
  fst (convert_dataset permissive (stem ++ "." ++ b) a fs1).

End Pandas.

(** The values under [key] of the records of a file. *)
Definition field_values (key : string) (n : option node) : list json :=
  match n with
  | Some (File (JsonLines lines)) =>
      omap (fun line => line ≫= field key) lines
  | Some (File (JsonDocument (JList items))) => omap (field key) items
  | Some (File (JsonDocument doc)) => omap (field key) [doc]
  | Some (File (Csv df)) => omap (field key) (to_dict_records df)
  | _ => []
  end.

(** A [.json] file that holds one bare record. *)
Definition bare_record : json := JDict [("text", JStr "hi")].

Definition one_bare_record : gmap string node :=
  {[ "d.json" := File (JsonDocument bare_record) ]}.

(** An entry of a [text] directory that the converter reads. *)
Definition is_txt (e : string * text_entry) : bool := Py.endswith (fst e) ".txt".

(** A [.jsonl] file with a malformed line, one without, and a directory
    dataset with a note, a Markdown file and a blank file. *)
Definition one_bad_line : gmap string node := {[ "d.jsonl" := three_and_one ]}.

Definition two_lines : gmap string node :=
  {[ "d.jsonl" := File (JsonLines [Some (example "a"); Some (example "b")]) ]}.

Definition notes_directory : gmap string node :=
  {[ "notes" := Dir (TextListing [("a.txt", Readable " hello ");
                                  ("b.md", Readable "world");
                                  ("c.txt", Readable "  ")]) [] ]}.

(** A dataset directory whose name ends in [.jsonl]: converted to
    [jsonl], it is its own target. *)
Definition directory_named_jsonl : gmap string node :=
  {[ "x.jsonl" := Dir (TextListing [("a.txt", Readable "hello")]) [] ]}.

(** A [pd.DataFrame] that raises and a [df.to_csv] that writes the frame,
    for the examples. *)
Definition frame_of_nothing : json -> option dataframe := fun _ => None.

Definition csv_as_written : dataframe -> content * bool :=
  fun df => (Csv df, false).

End Converter.

(** ** Saving and restoring the form: [save_config], [load_config] *)

Module Config.

Import Json Orchestrator.

(** The key of a variable in the saved file. *)
Definition key (f : field) : string :=
  match f with
  | FData => "dataset"
  | FModel => "model"
  | FDevice => "device"
  | FBatchSize => "batch_size"
  | FEpochs => "epochs"
  | FLearningRate => "learning_rate"
  | FMaxLength => "max_length"
  | FWarmupSteps => "warmup_steps"
  | FWeightDecay => "weight_decay"
  | FGradientAccumulationSteps => "gradient_accumulation_steps"
  end.

(** The second argument of [config.get(key, ...)] in [load_config]. *)
Definition default (f : field) : string :=
  match f with
  | FData => ""
  | FModel => ""
  | FDevice => "CPU"
  | FBatchSize => "1"
  | FEpochs => "1"
  | FLearningRate => "2e-5"
  | FMaxLength => "32"
  | FWarmupSteps => "0"
  | FWeightDecay => "0.01"
  | FGradientAccumulationSteps => "1"
  end.

(** The dict [save_config] dumps. *)
Definition config (e : entries) : json :=
  JDict [("dataset", JStr (data_var e));
         ("model", JStr (model_var e));
         ("device", JStr (device_var e));
         ("batch_size", JStr (batch_size_var e));
         ("epochs", JStr (epochs_var e));
         ("learning_rate", JStr (learning_rate_var e));
         ("max_length", JStr (max_length_var e));
         ("warmup_steps", JStr (warmup_steps_var e));
         ("weight_decay", JStr (weight_decay_var e));
         ("gradient_accumulation_steps",
          JStr (gradient_accumulation_steps_var e))].

Inductive box :=
| ConfigurationSaved               (* showinfo: "Configuration saved successfully!" *)
| ConfigurationLoaded              (* showinfo: "Configuration loaded successfully!" *)
| InsufficientMemory.              (* showerror: "Insufficient memory detected, ..." *)

Inductive record :=
| SavedTo (file_path : string)     (* info: "Configuration saved to ..." *)
| LoadedFrom (file_path : string)  (* info: "Configuration loaded from ..." *)
| WarningDisplayed                 (* error, [show_error]: "Error displayed: Warning - ..." *)
| InsufficientMemoryLogged.        (* warning: "Insufficient memory: VRAM needed ..." *)

(** The part of the window these handlers read and write. *)
Record panel := {
  form : entries;
  data_values : list string;       (* [data_combo['values']] *)
  model_values : list string;      (* [model_combo['values']] *)
  ram_vram : option (float * float);
    (* the numbers in [ram_label] and [vram_label]; [None]: still "0 MB" *)
  boxes : list box;
  records : list (level * record);
}.

(** What the handlers find outside the window. *)
Record host := {
  data_listing : list (string * Estimator.node);     (* under [data] *)
  models_listing : list (string * Estimator.node);   (* under [models] *)
  telemetry : Estimator.telemetry;
}.

(** [estimate_memory], on the panel. *)
Definition estimate_memory (h : host) (p : panel) : panel :=
  match Estimator.estimate_memory (data_var (form p)) (model_var (form p))
          (data_listing h) (models_listing h) (telemetry h) with
  | None => p
  | Some est =>
      {| form := form p;
         data_values := data_values p;
         model_values := model_values p;
         ram_vram := Some (Estimator.total_ram est, Estimator.total_vram est);
         boxes :=
           (boxes p ++ if Estimator.warned est then [InsufficientMemory] else [])%list;
         records :=
           (records p ++
            if Estimator.warned est
            then [(ERROR, WarningDisplayed); (WARNING, InsufficientMemoryLogged)]
            else [])%list |}
  end.

Definition is_dir (n : Estimator.node) : bool :=
  match n with Estimator.Dir _ => true | Estimator.File _ => false end.

(** The filter of [update_data_list]. *)
Definition is_dataset (e : string * Estimator.node) : bool :=
  (is_dir (snd e) || Py.endswith (fst e) ".jsonl" || Py.endswith (fst e) ".json"
   || Py.endswith (fst e) ".csv")%bool.

Definition datasets (h : host) : list string :=
  map fst (List.filter is_dataset (data_listing h)).

Definition models (h : host) : list string :=
  map fst (List.filter (fun e => is_dir (snd e)) (models_listing h)).

(** [if names and not var.get(): var.set(names[0])]. *)
Definition select_first (f : field) (names : list string) (e : entries)
  : entries :=
  match names with
  | first :: _ => if String.eqb (get_var f e) "" then set_var f first e else e
  | [] => e
  end.

Definition update_data_list (h : host) (p : panel) : panel :=
  estimate_memory h
    {| form := select_first FData (datasets h) (form p);
       data_values := datasets h;
       model_values := model_values p;
       ram_vram := ram_vram p; boxes := boxes p; records := records p |}.

Definition update_model_list (h : host) (p : panel) : panel :=
  estimate_memory h
    {| form := select_first FModel (models h) (form p);
       data_values := data_values p;
       model_values := models h;
       ram_vram := ram_vram p; boxes := boxes p; records := records p |}.

(** [save_config] with the path the dialog returned ([""] when it was
    dismissed): the file written, if one is, and the panel afterwards;
    [None] when [open] raises. *)
Definition save_config (file_path : string) (writable : bool) (p : panel)
  : option (option (string * json) * panel) :=
  if String.eqb file_path "" then Some (None, p)
  else if writable then
    Some (Some (file_path, config (form p)),
          {| form := form p; data_values := data_values p;
             model_values := model_values p; ram_vram := ram_vram p;
             boxes := (boxes p ++ [ConfigurationSaved])%list;
             records := (records p ++ [(INFO, SavedTo file_path)])%list |})
  else None.

Section Tk.

(** What a [StringVar] holds after [set(v)] for a value that is no
    string. *)
Variable tk_string : json -> string.

Definition as_set (v : json) : string :=
  match v with
  | JStr s => s
  | _ => tk_string v
  end.

(** [load_config] with the path the dialog returned and what
    [json.load] gives for it ([None] when [open] or [json.load] raises);
    [None] when an exception leaves the handler: nothing has been set
    then, as [config.get] is the first call that can raise on a value
    that is no dict. *)
Definition load_config (file_path : string) (read : option json) (h : host)
  (p : panel) : option panel :=
  if String.eqb file_path "" then Some p
  else
    match read with
    | Some (JDict members) =>
        let loaded f :=
          match get (key f) members with
          | Some v => as_set v
          | None => default f
          end in
        let p1 :=
          {| form :=
               {| data_var := loaded FData;
                  model_var := loaded FModel;
                  device_var := loaded FDevice;
                  batch_size_var := loaded FBatchSize;
                  epochs_var := loaded FEpochs;
                  learning_rate_var := loaded FLearningRate;
                  max_length_var := loaded FMaxLength;
                  warmup_steps_var := loaded FWarmupSteps;
                  weight_decay_var := loaded FWeightDecay;
                  gradient_accumulation_steps_var :=
                    loaded FGradientAccumulationSteps |};
             data_values := data_values p; model_values := model_values p;
             ram_vram := ram_vram p; boxes := boxes p; records := records p |} in
        let p2 := update_model_list h (update_data_list h p1) in
        Some {| form := form p2; data_values := data_values p2;
                model_values := model_values p2; ram_vram := ram_vram p2;
                boxes := (boxes p2 ++ [ConfigurationLoaded])%list;
                records := (records p2 ++ [(INFO, LoadedFrom file_path)])%list |}
    | _ => None
    end.

End Tk.

(** The window after [create_widgets], before the lists are filled. *)
Definition blank : panel :=
  {| form := init_entries; data_values := []; model_values := [];
     ram_vram := None; boxes := []; records := [] |}.

(** A form filled in by the operator. *)
Definition filled : panel :=
  {| form := chosen_entries; data_values := []; model_values := [];
     ram_vram := None; boxes := []; records := [] |}.

(** A host with one dataset and one model. *)
Definition small_host : host :=
  {| data_listing := ("notes.txt", Estimator.File 10) :: Estimator.data_0mb;
     models_listing := Estimator.models_1000mb;
     telemetry := Estimator.idle_host |}.

End Config.

(** ** The preview window: [TrainingApp.preview_dataset] *)

Module Preview.

Import Json Normalizer.

(** What is inserted into the text area. *)
Inductive shown :=
| FileHeader (file : string)       (* the header line with the file name *)
| FileBody (content : string)      (* [f.read()] *)
| RecordText (number : nat) (item : json)
    (* the record number and [json.dumps(item, indent=2)] *)
| FrameText (df : dataframe).      (* row count, column names and [df.head()] *)

Inductive outcome :=
| NoDatasetSelected                (* error box, no window *)
| DatasetMissing                   (* error box, no window *)
| Window (texts : list shown) (raised : bool).
    (* the window and what was inserted; [raised]: the handler of the
       [try] showed an error box *)

Section Files.

(** For an entry of [text] that cannot be read: whether [open] itself
    raises (otherwise [read] does, after the header was inserted). *)
Variable fails_at_open : string -> bool.

(** The loop over the first files of the [text] directory. *)
Fixpoint show_files (es : list (string * text_entry)) : list shown * bool :=
  match es with
  | [] => ([], false)
  | (file, entry) :: rest =>
      if Py.endswith file ".txt" then
        match entry with
        | Readable content =>
            let '(texts, raised) := show_files rest in
            (FileHeader file :: FileBody content :: texts, raised)
        | Unreadable =>
            if fails_at_open file then ([], true) else ([FileHeader file], true)
        end
      else show_files rest
  end.

(** The loop over [enumerate(f)], from line [i] on. *)
Fixpoint show_lines (i : nat) (lines : list (option json)) : list shown * bool :=
  match lines with
  | [] => ([], false)
  | line :: rest =>
      if (5 <=? i)%nat then ([], false)
      else
        match line with
        | Some item =>
            let '(texts, raised) := show_lines (S i) rest in
            (RecordText (S i) item :: texts, raised)
        | None => ([], true)
        end
  end.

(** [enumerate(items[:5])] with the record numbers from [i + 1] on. *)
Fixpoint show_items (i : nat) (items : list json) : list shown :=
  match items with
  | [] => []
  | item :: rest => RecordText (S i) item :: show_items (S i) rest
  end.

(** [items[:5]]: [None] for a value that cannot be sliced. *)
Definition first_five (doc : json) : option (list json) :=
  match doc with
  | JList items => Some (take 5 items)
  | JStr s => Some (take 5 (Converter.characters s))
  | _ => None
  end.

Definition preview_dataset (data_var : string) (n : option node) : outcome :=
  if String.eqb data_var "" then NoDatasetSelected
  else
    let data_path := Orchestrator.join Orchestrator.data_dir data_var in
    match n with
    | None => DatasetMissing
    | Some (Dir text _) =>
        match text with
        | TextMissing => Window [] false
        | TextNotADirectory => Window [] true
        | TextListing es =>
            let '(texts, raised) := show_files (take 5 es) in
            Window texts raised
        end
    | Some (File c) =>
        if Py.endswith data_path ".jsonl" then
          match c with
          | JsonLines lines =>
              let '(texts, raised) := show_lines 0 lines in Window texts raised
          | _ => Window [] true
          end
        else if Py.endswith data_path ".json" then
          match c with
          | JsonDocument doc =>
              match first_five doc with
              | Some items => Window (show_items 0 items) false
              | None => Window [] true
              end
          | _ => Window [] true
          end
        else if Py.endswith data_path ".csv" then
          match c with
          | Csv df => Window [FrameText df] false
          | _ => Window [] true
          end
        else Window [] false
    end.

End Files.

Definition texts_of (o : outcome) : list shown :=
  match o with Window texts _ => texts | _ => [] end.

Definition raised_in (o : outcome) : bool :=
  match o with Window _ raised => raised | _ => false end.

Definition is_record (s : shown) : bool :=
  match s with RecordText _ _ => true | _ => false end.

Definition is_file_header (s : shown) : bool :=
  match s with FileHeader _ => true | _ => false end.

(** Five lines that parse and a sixth that does not. *)
Definition six_lines : list (option json) :=
  [Some (example "a"); Some (example "b"); Some (example "c");
   Some (example "d"); Some (example "e"); None].

End Preview.

(** ** The start-up check: [check_dependencies.py] *)

Module Dependencies.

Definition REQUIRED_PACKAGES : list (string * string) :=
  [("torch", ">=2.0.0");
   ("transformers", ">=4.30.0");
   ("peft", ">=0.4.0");
   ("accelerate", ">=0.20.0");
   ("bitsandbytes", ">=0.41.0");
   ("optimum", ">=1.16.0")].

(** What [import torch] and [torch.cuda.is_available()] give. *)
Inductive probe :=
| CudaOn
| CudaOff
| TorchMissing                     (* ImportError *)
| ProbeRaises.                     (* any other exception *)

(** What [pkg_resources.require(f"{package}{version}")] gives. *)
Inductive requirement :=
| Satisfied
| Unsatisfied                      (* VersionConflict or DistributionNotFound *)
| RequireRaises.                   (* any other exception *)

(** What [subprocess.check_call([..., "pip", "install", ...])] gives. *)
Inductive pip :=
| PipOk
| PipFails                         (* CalledProcessError *)
| PipRaises.                       (* any other exception: no interpreter, ... *)

(** The host: for each package, the outcome of the one [require] and the
    one [pip install] the loop can make for it. *)
Record host := {
  version_info : Z * Z;            (* [sys.version_info[:2]] *)
  cuda : probe;
  require : string -> requirement;
  install : string -> pip;
}.

Inductive record :=
| CheckStarted                     (* info, first record of the check *)
| PythonTooOld                     (* error *)
| CudaAvailable                    (* info: the device name *)
| CudaVersion                      (* info *)
| CudaUnavailable                  (* warning *)
| TorchNotImportable               (* warning *)
| AlreadyInstalled (package : string)         (* info *)
| MissingPackage (package version : string)   (* warning *)
| Installed (package : string)                (* info, [install_package] *)
| InstallFailed (package : string)            (* error, [install_package] *)
| DependencyFailed (package : string)         (* error, after a failed installation *)
| AllChecked                       (* info, after the loop *)
| CheckPassed                      (* info, [main] *)
| CheckFailed                      (* error, [main] *)
| CheckRaised.                     (* error, the handler of [main] *)

(** What a run does, in order. *)
Inductive action :=
| Log (r : record)
| PipInstall (requirement : string).   (* [pip install {package}{version}] *)

(** A run: its actions, and the value returned unless an exception was
    raised. *)
Definition run (A : Type) : Type := (list action * option A)%type.

Definition ret {A} (a : A) : run A := ([], Some a).

Definition bind {A B} (m : run A) (k : A -> run B) : run B :=
  match m with
  | (t, Some a) => let '(t', r) := k a in ((t ++ t')%list, r)
  | (t, None) => (t, None)
  end.

Definition raise {A} : run A := ([], None).

Definition log (r : record) : run unit := ([Log r], Some tt).

Declare Scope run_scope.
Delimit Scope run_scope with run.
Notation "m ;; k" := (bind m (fun _ => k))
  (at level 100, k at level 200, right associativity) : run_scope.
Notation "'let*' x := m 'in' k" := (bind m (fun x => k))
  (at level 10, x name, m at level 100, k at level 200) : run_scope.
Local Open Scope run_scope.

(** [current_version < required_version] on tuples. *)
Definition version_lt (a b : Z * Z) : bool :=
  (fst a <? fst b) || ((fst a =? fst b) && (snd a <? snd b)).

Definition check_python_version (h : host) : run bool :=
  if version_lt (version_info h) (3, 8) then log PythonTooOld ;; ret false
  else ret true.

Definition check_cuda_availability (h : host) : run bool :=
  match cuda h with
  | CudaOn => log CudaAvailable ;; log CudaVersion ;; ret true
  | CudaOff => log CudaUnavailable ;; ret false
  | TorchMissing => log TorchNotImportable ;; ret false
  | ProbeRaises => raise
  end.

Definition install_package (h : host) (package_name version_spec : string)
  : run bool :=
  ([PipInstall (package_name ++ version_spec)], Some tt) ;;
  match install h package_name with
  | PipOk => log (Installed package_name) ;; ret true
  | PipFails => log (InstallFailed package_name) ;; ret false
  | PipRaises => raise
  end.

(** The loop over [REQUIRED_PACKAGES.items()]: [false] as soon as an
    installation fails. *)
Fixpoint check_packages (h : host) (packages : list (string * string))
  : run bool :=
  match packages with
  | [] => ret true
  | (package, version) :: rest =>
      match require h package with
      | Satisfied => log (AlreadyInstalled package) ;; check_packages h rest
      | Unsatisfied =>
          log (MissingPackage package version) ;;
          let* ok := install_package h package version in
          if ok then check_packages h rest
          else log (DependencyFailed package) ;; ret false
      | RequireRaises => raise
      end
  end.

Definition check_and_install_dependencies (h : host) : run bool :=
  log CheckStarted ;;
  let* ok := check_python_version h in
  if negb ok then ret false
  else
    check_cuda_availability h ;;
    let* ok := check_packages h REQUIRED_PACKAGES in
    if negb ok then ret false
    else log AllChecked ;; ret true.

(** [main]: its handler turns every exception into [False]. *)
Definition main (h : host) : run bool :=
  match check_and_install_dependencies h with
  | (t, Some true) => ((t ++ [Log CheckPassed])%list, Some true)
  | (t, Some false) => ((t ++ [Log CheckFailed])%list, Some false)
  | (t, None) => ((t ++ [Log CheckRaised])%list, Some false)
  end.

Definition actions {A} (m : run A) : list action := fst m.
Definition value {A} (m : run A) : option A := snd m.

(** The requirements handed to [pip install], in order. *)
Definition installs {A} (m : run A) : list string :=
  omap (fun a => match a with PipInstall r => Some r | _ => None end) (actions m).

(** A package the run can go past: it is there, or it installs. *)
Definition ready (h : host) (package : string) : Prop :=
  require h package = Satisfied \/
  (require h package = Unsatisfied /\ install h package = PipOk).

(** A package the loop has to install. *)
Definition is_unsatisfied (h : host) (e : string * string) : bool :=
  match require h (fst e) with Unsatisfied => true | _ => false end.

(** The requirement string of an entry of [REQUIRED_PACKAGES]. *)
Definition requirement_of (e : string * string) : string := fst e ++ snd e.

(** A host on Python 3.10 without a GPU, on which [peft] is missing and
    installs. *)
Definition laptop : host :=
  {| version_info := (3, 10); cuda := CudaOff;
     require := fun package =>
       if String.eqb package "peft" then Unsatisfied else Satisfied;
     install := fun _ => PipOk |}.

End Dependencies.

(** * Properties *)

Import Orchestrator.

(** ** Text beyond ASCII *)

Section Text.

(** [str.strip] removes the white space of Unicode, [int] and [float]
    read its decimal digits and skip its spaces, but the separators
    0x1c-0x1f, which [str.strip] removes, are no white space to them. *)
Lemma strip_and_numerals_beyond_ascii :
  Py.strip (Py.ideographic_space ++ "a " ++ Py.ideographic_space) = "a" /\
  Py.strip Py.ideographic_space = "" /\
  Py.strip Py.separator_one = "1" /\
  Py.int Py.separator_one = None /\
  Py.float Py.separator_one = None /\
  Py.int (Py.ideographic_space ++ Py.fullwidth_one ++ "2") = Some 12 /\
  Py.float (Py.fullwidth_one ++ ".5") = Some 1.5%float.
Proof. vm_compute. repeat split; reflexivity. Qed.

(** A batch size spelled with a separator is refused, as [int] raises on
    it; a text file that holds only an ideographic space is blank. *)
Lemma separators_and_blank_texts :
  (exists e,
     check_inputs (set_var FBatchSize Py.separator_one four_bad_entries) = inl e) /\
  Normalizer.result
    (Normalizer.load_data "data/notes"
       (Some (Normalizer.Dir
                (Normalizer.TextListing
                   [("a.txt", Normalizer.Readable Py.ideographic_space)]) [])))
  = inl Normalizer.NoValidData.
Proof. split; [eexists|]; vm_compute; reflexivity. Qed.

End Text.

(** ** Starting a job *)

Section Start.

Lemma logging_job_state l m st : job_state (logging l m st) = job_state st.
Proof. reflexivity. Qed.

Lemma show_error_job_state m st : job_state (show_error m st) = job_state st.
Proof. reflexivity. Qed.

Lemma check_inputs_valid e :
  three_fields_valid e <-> exists r, check_inputs e = inr r.
Proof.
  unfold three_fields_valid, check_inputs. split.
  - intros (b & n & lr & -> & -> & -> & Hb & Hn & Hlr).
    rewrite Hlr.
    destruct (Z.leb_spec b 0); [lia|]. destruct (Z.leb_spec n 0); [lia|].
    simpl. eauto.
  - intros [r Hr].
    destruct (Py.int (batch_size_var e)) as [b|]; [|discriminate].
    destruct (Py.int (epochs_var e)) as [n|]; [|discriminate].
    destruct (Py.float (learning_rate_var e)) as [lr|]; [|discriminate].
    destruct (Z.leb_spec b 0); [discriminate|].
    destruct (Z.leb_spec n 0); [discriminate|].
    destruct (lr <=? 0)%float eqn:Hlr; [discriminate|].
    exists b, n, lr. repeat split; assumption || reflexivity.
Qed.

Lemma check_inputs_invalid e :
  ~ three_fields_valid e -> exists err, check_inputs e = inl err.
Proof.
  intros H. destruct (check_inputs e) as [err|r] eqn:E; [eauto|].
  exfalso. apply H, check_inputs_valid. eauto.
Qed.

Lemma selected_eqb (st : app) :
  data_var (vars st) <> "" -> model_var (vars st) <> "" ->
  (String.eqb (data_var (vars st)) "" || String.eqb (model_var (vars st)) "")%bool = false.
Proof.
  intros Hd Hm. apply orb_false_iff.
  split; apply String.eqb_neq; assumption.
Qed.

Lemma start_training_accepts (st : app) :
  data_var (vars st) <> "" -> model_var (vars st) <> "" ->
  three_fields_valid (vars st) ->
  is_training (start_training st) = true /\
  threads (start_training st) = (threads st ++ [Preparing])%list.
Proof.
  intros Hd Hm Hv. apply check_inputs_valid in Hv as [r Hr].
  unfold start_training. rewrite (selected_eqb st Hd Hm), Hr.
  split; reflexivity.
Qed.

Lemma start_training_gated st : gated st -> gated (start_training st).
Proof.
  unfold gated, start_training. intros H.
  destruct (_ || _)%bool; [exact H|].
  destruct (check_inputs (vars st)); [exact H|reflexivity].
Qed.

Lemma pause_training_gated st : gated st -> gated (pause_training st).
Proof.
  unfold gated, pause_training. intros H.
  destruct (is_training st) eqn:E; simpl; [|rewrite E; exact H].
  destruct (is_paused st); simpl; intros _; auto.
Qed.

Lemma cancel_training_gated c st : gated st -> gated (cancel_training c st).
Proof.
  unfold gated, cancel_training. intros H.
  destruct (is_training st) eqn:E; simpl; [|rewrite E; exact H].
  destruct c; simpl; [discriminate|rewrite E; exact H].
Qed.

Lemma on_closing_gated c st : gated st -> gated (on_closing c st).
Proof.
  unfold gated, on_closing. intros H.
  destruct (is_training st) eqn:E; simpl.
  - destruct c; simpl; [discriminate|rewrite E; exact H].
  - discriminate.
Qed.

Lemma worker_event_gated i f st : gated st -> gated (worker_event i f st).
Proof.
  unfold gated, worker_event. intros H.
  destruct (threads st !! i); exact H.
Qed.

Lemma dispatch_gated ev st : gated st -> gated (dispatch ev st).
Proof.
  intros H.
  destruct ev; simpl; try apply worker_event_gated; try exact H;
    destruct (destroyed st); try exact H; unfold click.
  - destruct (start_button (ui st)); [apply start_training_gated|]; exact H.
  - destruct (pause_button (ui st)); [apply pause_training_gated|]; exact H.
  - destruct (cancel_button (ui st)); [apply cancel_training_gated|]; exact H.
  - apply on_closing_gated, H.
Qed.

Lemma run_gated evs st : gated st -> gated (run evs st).
Proof.
  revert st. induction evs as [|ev evs IH]; intros st H; [exact H|].
  simpl. apply IH, dispatch_gated, H.
Qed.

(** C1: in every state the control surface can reach, while a job is in
    flight ([is_training]) the start button, the one caller of
    [start_training], is disabled, so a start request is dropped: no
    second thread is started and the whole state, job state included, is
    unchanged. *)
Theorem start_is_gated_while_training (evs : list event) :
  is_training (run evs init) = true ->
  start_button (ui (run evs init)) = Disabled /\
  dispatch ClickStart (run evs init) = run evs init.
Proof.
  intros Ht.
  assert (G : gated (run evs init)) by (apply run_gated; intros H; discriminate H).
  specialize (G Ht). split; [exact G|].
  simpl. destruct (destroyed (run evs init)); [reflexivity|].
  rewrite G. reflexivity.
Qed.

Lemma start_is_gated_while_training_witness :
  start_button (ui one_job_running) = Disabled /\
  dispatch ClickStart one_job_running = one_job_running.
Proof.
  apply (start_is_gated_while_training
           [Edit FData "d.jsonl"; Edit FModel "m"; ClickStart]).
  reflexivity.
Defined.

(** C2, as the specification has it, fails: with [max_length] 0,
    [warmup_steps] -1, [weight_decay] -0.5 and
    [gradient_accumulation_steps] 0 the job starts. *)
Lemma start_accepts_four_bad_entries :
  let st := start_training (with_vars four_bad_entries init) in
  Py.int (max_length_var four_bad_entries) = Some 0 /\
  Py.int (warmup_steps_var four_bad_entries) = Some (-1) /\
  Py.int (gradient_accumulation_steps_var four_bad_entries) = Some 0 /\
  is_training st = true /\ threads st = [Preparing] /\ dialogs st = [].
Proof. vm_compute. repeat split; reflexivity. Qed.

Lemma leb_zero_number lr :
  is_nan lr = false -> (lr <=? 0)%float = negb (0 <? lr)%float.
Proof.
  unfold is_nan. rewrite FloatAxioms.leb_spec, FloatAxioms.ltb_spec, FloatAxioms.eqb_spec.
  change (Prim2SF 0) with (S754_zero false).
  destruct (Prim2SF lr) as [s|s| |s mant e]; try discriminate;
    try (destruct s; reflexivity).
Qed.

Lemma positive_is_a_number lr : (0 <? lr)%float = true -> is_nan lr = false.
Proof.
  unfold is_nan. rewrite FloatAxioms.ltb_spec, FloatAxioms.eqb_spec.
  change (Prim2SF 0) with (S754_zero false).
  destruct (Prim2SF lr) as [s|s| |s mant e]; try discriminate;
    try (destruct s; try discriminate; intros _; cbn;
         rewrite ?Z.compare_refl, ?Pos.compare_refl; reflexivity).
Qed.

Lemma three_fields_positive_valid e :
  three_fields_positive e -> three_fields_valid e.
Proof.
  intros (b & n & lr & Hb & Hn & Hlr & Pb & Pn & Plr).
  exists b, n, lr. repeat split; try assumption.
  rewrite (leb_zero_number lr (positive_is_a_number lr Plr)), Plr. reflexivity.
Qed.

Lemma three_fields_valid_positive e :
  learning_rate_is_a_number e -> three_fields_valid e -> three_fields_positive e.
Proof.
  intros Hnum (b & n & lr & Hb & Hn & Hlr & Pb & Pn & Plr).
  exists b, n, lr. repeat split; try assumption.
  rewrite (leb_zero_number lr (Hnum lr Hlr)) in Plr.
  destruct (0 <? lr)%float; [reflexivity|discriminate].
Qed.

(** C2 (amended): with a dataset and a model selected, [start_training]
    validates exactly [batch_size], [epochs] (integers) and [learning_rate]
    (a float), each to be a positive number.  When they are, the job
    starts, whatever the other four entries hold.  When one of them does
    not convert, or converts to a number that is not positive, the start
    is rejected: an error box tells the failed conversion or that the
    three must be positive (without naming the field), and the job state
    is unchanged, no thread started.  [batch_size = 0] is rejected;
    [batch_size = 1, epochs = 1, learning_rate = 1e-5] passes.  (For
    entries that convert, the rejection is proved for a learning rate that
    is a number, positive or not; every failure of the check, whatever the
    entries, is a rejection.) *)
Theorem start_validates_three_fields (st : app) :
  data_var (vars st) <> "" -> model_var (vars st) <> "" ->
  (three_fields_positive (vars st) ->
     is_training (start_training st) = true /\
     threads (start_training st) = (threads st ++ [Preparing])%list) /\
  (~ three_fields_positive (vars st) ->
   learning_rate_is_a_number (vars st) ->
     exists e,
       check_inputs (vars st) = inl e /\
       dialogs (start_training st) = (dialogs st ++ [InvalidInput e])%list /\
       job_state (start_training st) = job_state st) /\
  (forall e, check_inputs (vars st) = inl e ->
     dialogs (start_training st) = (dialogs st ++ [InvalidInput e])%list /\
     job_state (start_training st) = job_state st) /\
  (Py.int (batch_size_var (vars st)) = None \/
   Py.int (epochs_var (vars st)) = None \/
   Py.float (learning_rate_var (vars st)) = None ->
   exists e, check_inputs (vars st) = inl e /\ e <> NotPositive) /\
  (forall b n lr,
     Py.int (batch_size_var (vars st)) = Some b ->
     Py.int (epochs_var (vars st)) = Some n ->
     Py.float (learning_rate_var (vars st)) = Some lr ->
     b <= 0 \/ n <= 0 \/ (lr <=? 0)%float = true ->
     check_inputs (vars st) = inl NotPositive) /\
  (forall v1 v2 v3 v4,
     three_fields_positive
       (set_var FMaxLength v1 (set_var FWarmupSteps v2
          (set_var FWeightDecay v3
             (set_var FGradientAccumulationSteps v4 (vars st))))) <->
     three_fields_positive (vars st)) /\
  (batch_size_var (vars st) = "0" -> ~ three_fields_positive (vars st)) /\
  (batch_size_var (vars st) = "1" -> epochs_var (vars st) = "1" ->
   learning_rate_var (vars st) = "1e-5" -> three_fields_positive (vars st)).
Proof.
  intros Hd Hm.
  pose proof (selected_eqb st Hd Hm) as Hsel.
  repeat apply conj.
  - intros Hv. apply (start_training_accepts st Hd Hm).
    apply three_fields_positive_valid, Hv.
  - intros Hv Hnum.
    assert (Hv' : ~ three_fields_valid (vars st)).
    { intros H. apply Hv, three_fields_valid_positive; assumption. }
    apply check_inputs_invalid in Hv' as [e He].
    exists e. unfold start_training. rewrite Hsel, He.
    repeat split; reflexivity.
  - intros e He. unfold start_training. rewrite Hsel, He.
    split; reflexivity.
  - unfold check_inputs. intros H.
    destruct (Py.int (batch_size_var (vars st))) as [b|];
      [|eexists; split; [reflexivity|discriminate]].
    destruct (Py.int (epochs_var (vars st))) as [n|];
      [|eexists; split; [reflexivity|discriminate]].
    destruct (Py.float (learning_rate_var (vars st))) as [lr|];
      [|eexists; split; [reflexivity|discriminate]].
    destruct H as [H|[H|H]]; discriminate H.
  - intros b n lr Hb Hn Hlr Hbad. unfold check_inputs.
    rewrite Hb, Hn, Hlr.
    destruct Hbad as [H|[H|H]].
    + apply Z.leb_le in H. rewrite H. reflexivity.
    + apply Z.leb_le in H. rewrite H, orb_true_r. reflexivity.
    + rewrite H, orb_true_r. reflexivity.
  - intros v1 v2 v3 v4. reflexivity.
  - intros H0 (b & n & lr & Hb & _ & _ & Hpos & _).
    rewrite H0 in Hb. vm_compute in Hb. injection Hb as <-. lia.
  - intros H1 H2 H3. exists 1, 1.
    eexists. rewrite H1, H2, H3. vm_compute. repeat split; reflexivity.
Qed.

Lemma start_validates_three_fields_witness :
  let st := with_vars four_bad_entries init in
  is_training (start_training st) = true /\
  threads (start_training st) = (threads st ++ [Preparing])%list.
Proof.
  simpl.
  refine (proj1 (start_validates_three_fields
                   (with_vars four_bad_entries init) _ _) _).
  - discriminate.
  - discriminate.
  - exists 1, 1. eexists. vm_compute. repeat split; reflexivity.
Defined.

End Start.

(** ** Cancelling a job *)

Section Cancel.

(** Pausing is a toggle of what the control surface shows: on a job in
    flight it switches between [Paused] and [Running], twice gives the
    phase back, and it never touches the threads. *)
Theorem pause_is_a_toggle (st : app) :
  is_training st = true ->
  phase_of (pause_training st) = (if is_paused st then Running else Paused) /\
  phase_of (pause_training (pause_training st)) = phase_of st /\
  threads (pause_training st) = threads st.
Proof.
  intros Ht. unfold pause_training, phase_of.
  rewrite Ht. cbn [negb]. destruct (is_paused st) eqn:Hp; cbn; rewrite ?Ht, ?Hp; auto.
Qed.

Lemma pause_is_a_toggle_witness :
  phase_of (pause_training one_job_running)
  = (if is_paused one_job_running then Running else Paused) /\
  phase_of (pause_training (pause_training one_job_running))
  = phase_of one_job_running /\
  threads (pause_training one_job_running) = threads one_job_running.
Proof. apply (pause_is_a_toggle one_job_running). reflexivity. Defined.

(** After a confirmed cancel the start button works again while the
    threads of the cancelled job are as they were: a start with valid
    entries adds a thread to them. *)
Theorem start_after_cancel_adds_a_thread (st : app) :
  is_training st = true ->
  data_var (vars st) <> "" -> model_var (vars st) <> "" ->
  three_fields_valid (vars st) ->
  let st' := cancel_training true st in
  threads st' = threads st /\
  start_button (ui st') = Normal /\
  threads (click (start_button (ui st')) start_training st')
  = (threads st ++ [Preparing])%list.
Proof.
  intros Ht Hdata Hmodel Hvalid. cbv zeta.
  unfold cancel_training. rewrite Ht. cbn [negb].
  split; [reflexivity|]. split; [reflexivity|].
  cbn [click ui start_button logging].
  set (st' := logging INFO TrainingCancelled _).
  apply (start_training_accepts st' Hdata Hmodel Hvalid).
Qed.

Lemma start_after_cancel_adds_a_thread_witness :
  let st' := cancel_training true one_job_running in
  threads st' = threads one_job_running /\
  start_button (ui st') = Normal /\
  threads (click (start_button (ui st')) start_training st')
  = (threads one_job_running ++ [Preparing])%list.
Proof.
  apply (start_after_cancel_adds_a_thread one_job_running).
  - reflexivity.
  - discriminate.
  - discriminate.
  - exists 1, 1. eexists. vm_compute. repeat split; reflexivity.
Defined.

End Cancel.

(** ** The thread body *)

Section Thread.

Local Open Scope thread_scope.

Lemma all_calls_ret {A} P (a : A) : all_calls P (ret a).
Proof. constructor. Qed.

Lemma all_calls_raise {A} P : all_calls P (@raise A).
Proof. constructor. Qed.

Lemma all_calls_do (P : call -> Prop) c : P c -> all_calls P (do c).
Proof. intros H. repeat constructor. exact H. Qed.

Lemma all_calls_may_raise (P : call -> Prop) c b :
  P c -> all_calls P (may_raise c b).
Proof. intros H. repeat constructor. exact H. Qed.

Lemma all_calls_of_option {A} P (o : option A) : all_calls P (of_option o).
Proof. destruct o; constructor. Qed.

Lemma all_calls_bind {A B} P (m : M A) (k : A -> M B) :
  all_calls P m -> (forall a, returned m = Some a -> all_calls P (k a)) ->
  all_calls P (bind m k).
Proof.
  unfold all_calls, trace, returned, bind. intros Hm Hk.
  destruct m as [t [a|]]; [|exact Hm].
  specialize (Hk a eq_refl). destruct (k a) as [t' r]. simpl in *.
  apply Forall_app. split; assumption.
Qed.

Lemma all_calls_try_except {A} P (body handler : M A) :
  all_calls P body -> all_calls P handler ->
  all_calls P (try_except body handler).
Proof.
  unfold all_calls, trace, try_except. intros Hb Hh.
  destruct body as [t [a|]]; [exact Hb|].
  destruct handler as [t' r]. simpl in *.
  apply Forall_app. split; assumption.
Qed.

Lemma bind_ret_l {A B} (a : A) (k : A -> M B) : bind (ret a) k = k a.
Proof. unfold bind, ret. destruct (k a). reflexivity. Qed.

Lemma all_calls_training_loop_nil (P : call -> Prop) env k todo :
  (forall j, P (TrainingStep j)) ->
  all_calls P (training_loop env k todo []).
Proof.
  intros Hp. revert k.
  induction todo as [|todo IH]; intros k; [constructor|].
  cbn [training_loop each].
  apply all_calls_bind; [apply all_calls_may_raise, Hp|intros _ _].
  rewrite bind_ret_l. apply IH.
Qed.

Lemma training_loop_nil_returns env k todo cbs :
  returned (training_loop env k todo []) = Some cbs -> cbs = [].
Proof.
  revert k. induction todo as [|todo IH]; intros k.
  - intros [= <-]. reflexivity.
  - cbn [training_loop each]. rewrite bind_ret_l.
    unfold bind at 1, may_raise.
    destruct (bool_decide _); [discriminate|].
    specialize (IH (S k)). destruct (training_loop env (S k) todo []) as [t r].
    exact IH.
Qed.

(** [train()] on a trainer without callbacks only steps. *)
Lemma all_calls_train_nil (P : call -> Prop) env :
  P Train -> (forall j, P (TrainingStep j)) -> all_calls P (train env []).
Proof.
  intros Ht Hs. unfold train. cbn [each].
  apply all_calls_bind; [apply all_calls_do, Ht|intros _ _].
  rewrite bind_ret_l.
  apply all_calls_bind;
    [apply all_calls_training_loop_nil, Hs|intros cbs Hc].
  apply training_loop_nil_returns in Hc as ->.
  cbn [each]. rewrite bind_ret_l. apply all_calls_ret.
Qed.

(** What each call of [train_model] is, whatever the collaborators do. *)
Lemma train_model_calls env st :
  all_calls (expected_call st) (train_model env st).
Proof.
  unfold train_model, trainer_callbacks.
  repeat first
    [ apply all_calls_try_except
    | apply all_calls_train_nil; [|intros ?]; exact I
    | apply all_calls_bind; [|intros ? ?]
    | apply all_calls_may_raise; simpl; auto; fail
    | apply all_calls_do; exact I
    | apply all_calls_ret
    | apply all_calls_raise
    | apply all_calls_of_option ].
Qed.

Lemma count_calls_none {A} (P : call -> Prop) (p : call -> bool) (m : M A) :
  all_calls P m -> (forall c, P c -> p c = false) -> count_calls p m = 0%nat.
Proof.
  unfold all_calls, count_calls. intros H Hp.
  induction H as [|c l Hc _ IH]; [reflexivity|].
  simpl. rewrite (Hp c Hc). exact IH.
Qed.

Lemma count_calls_bind_ok {A B} p (m : M A) (k : A -> M B) a :
  returned m = Some a ->
  count_calls p (bind m k) = (count_calls p m + count_calls p (k a))%nat.
Proof.
  unfold returned, count_calls, trace, bind.
  destruct m as [t r]. simpl. intros ->.
  destruct (k a) as [t' r']. simpl.
  rewrite List.filter_app, length_app. reflexivity.
Qed.

Lemma clear_caches_no_gc l :
  count_calls is_gc (clear_caches l) = 0%nat /\
  returned (clear_caches l) = Some tt.
Proof.
  induction l as [|i l [IH1 IH2]]; [split; reflexivity|].
  cbn [clear_caches].
  unfold count_calls, returned, trace, bind, do in *.
  destruct (clear_caches l) as [t r]. simpl in *. subst r. auto.
Qed.

(** [clean_memory] itself does one garbage pass. *)
Lemma clean_memory_one_gc env : count_calls is_gc (clean_memory env) = 1%nat.
Proof.
  unfold clean_memory.
  destruct (cuda_available env); [|reflexivity].
  destruct (clear_caches_no_gc (seq 0 (device_count env))) as [H1 H2].
  unfold count_calls, returned, trace, bind, do in *.
  destruct (clear_caches _) as [t r]. simpl in *. subst r. simpl.
  rewrite !List.filter_app, !length_app, H1. reflexivity.
Qed.

(** C4: on no exit path of [train_model] does the cleanup run.  Whatever
    the collaborators do (every call succeeds, or any of them raises), the
    calls of the thread hold no garbage pass and no cache clearing or
    synchronization, although [clean_memory], which nothing calls, does
    exactly one garbage pass. *)
Theorem train_model_never_cleans_up (env : environment) (st : app) :
  count_calls is_gc (train_model env st) = 0%nat /\
  count_calls is_cache_clearing (train_model env st) = 0%nat /\
  count_calls is_gc (clean_memory env) = 1%nat.
Proof.
  repeat split.
  - apply (count_calls_none _ _ _ (train_model_calls env st)).
    intros c. destruct c; simpl; intros H; (reflexivity || contradiction).
  - apply (count_calls_none _ _ _ (train_model_calls env st)).
    intros c. destruct c; simpl; intros H; (reflexivity || contradiction).
  - apply clean_memory_one_gc.
Qed.

(** A registered [ProgressCallback] with a positive [total_steps]
    schedules two updates of the control surface per step. *)
Lemma on_step_end_schedules_two k cb :
  total_steps cb <> 0 ->
  count_calls is_root_after (on_step_end k cb) = 2%nat /\
  returned (on_step_end k cb)
  = Some {| total_steps := total_steps cb; current_step := Z.of_nat k |}.
Proof.
  intros H. unfold on_step_end, Py.int_true_div. cbn [total_steps current_step].
  destruct (Z.eqb_spec (total_steps cb) 0); [contradiction|].
  split; reflexivity.
Qed.

Lemma training_loop_schedules env k todo cb :
  step_raises env = None -> total_steps cb <> 0 ->
  count_calls is_root_after (training_loop env k todo [cb]) = (2 * todo)%nat.
Proof.
  intros Hr. revert k cb.
  induction todo as [|todo IH]; intros k cb Hcb; [reflexivity|].
  destruct (on_step_end_schedules_two (S k) cb Hcb) as [H2 Hret].
  cbn [training_loop each].
  rewrite Hr. case_bool_decide; [discriminate|].
  rewrite (count_calls_bind_ok _ _ _ tt) by reflexivity.
  set (cb' := {| total_steps := total_steps cb; current_step := Z.of_nat (S k) |}) in *.
  assert (He : returned (let* cb1 := on_step_end (S k) cb in
                         let* rest := ret [] in ret (cb1 :: rest)) = Some [cb']
               /\ count_calls is_root_after
                    (let* cb1 := on_step_end (S k) cb in
                     let* rest := ret [] in ret (cb1 :: rest)) = 2%nat).
  { unfold returned, count_calls, trace, bind in *.
    destruct (on_step_end (S k) cb) as [t r]. simpl in *. subst r. simpl.
    rewrite app_nil_r. auto. }
  destruct He as [He1 He2].
  rewrite (count_calls_bind_ok _ _ _ [cb']) by exact He1.
  rewrite He2, IH by exact Hcb.
  simpl. lia.
Qed.

(** C5: the engine steps of a run trigger no progress callback.  The
    trainer is built without callbacks, so whatever the run does, its
    calls hold no [root.after]: no snapshot reaches the control surface. *)
Theorem train_model_relays_no_progress (env : environment) (st : app) :
  trainer_callbacks = [] /\
  count_calls is_root_after (train_model env st) = 0%nat.
Proof.
  split; [reflexivity|].
  apply (count_calls_none _ _ _ (train_model_calls env st)).
  intros c. destruct c; simpl; intros H; (reflexivity || contradiction).
Qed.

Lemma make_training_arguments_returned e a :
  returned (make_training_arguments e) = Some a ->
  Py.int (epochs_var e) = Some (num_train_epochs a) /\
  Py.int (batch_size_var e) = Some (per_device_train_batch_size a) /\
  Py.float (learning_rate_var e) = Some (learning_rate a) /\
  gradient_accumulation_steps a = 4 /\
  warmup_steps a = 100 /\
  weight_decay a = literal_0_01.
Proof.
  unfold make_training_arguments.
  destruct (Py.int (epochs_var e)) as [n|]; [|discriminate].
  destruct (Py.int (batch_size_var e)) as [b|]; [|discriminate].
  destruct (Py.float (learning_rate_var e)) as [lr|]; [|discriminate].
  intros [= <-]. repeat split; reflexivity.
Qed.

(** C6: the configuration handed to the engine is not the operator's.
    Whenever [train_model] builds the trainer, its arguments take
    [num_train_epochs], [per_device_train_batch_size] and [learning_rate]
    from the entries, but [gradient_accumulation_steps], [warmup_steps] and
    [weight_decay] are the constants 4, 100 and 0.01, and every dataset is
    built with sequence length 32, whatever the operator entered. *)
Theorem engine_configuration_is_hard_coded
  (env : environment) (st : app) (a : training_arguments)
  (cbs : list progress_callback) :
  In (NewTrainer a cbs) (trace (train_model env st)) ->
  (Py.int (epochs_var (vars st)) = Some (num_train_epochs a) /\
   Py.int (batch_size_var (vars st)) = Some (per_device_train_batch_size a) /\
   Py.float (learning_rate_var (vars st)) = Some (learning_rate a)) /\
  (gradient_accumulation_steps a = 4 /\ warmup_steps a = 100 /\
   weight_decay a = literal_0_01) /\
  (forall p n, In (NewCustomDataset p n) (trace (train_model env st)) -> n = 32).
Proof.
  intros Hin.
  pose proof (train_model_calls env st) as Hall.
  unfold all_calls in Hall. rewrite List.Forall_forall in Hall.
  destruct (Hall _ Hin) as [Ha _].
  apply make_training_arguments_returned in Ha.
  split; [tauto|]. split; [tauto|].
  intros p n Hd. apply (Hall _ Hd).
Qed.

(** The operator keeps the default entries, but for the four fields of C6
    chooses 64, 10, 0.1 and 2. *)
Lemma engine_configuration_is_hard_coded_witness :
  let st := with_vars chosen_entries init in
  let a := {| output_dir := trained_models_dir; num_train_epochs := 1;
              per_device_train_batch_size := 1;
              gradient_accumulation_steps := 4;
              learning_rate := Py.decimal_to_float false 2 (-5);
              weight_decay := literal_0_01; warmup_steps := 100;
              logging_steps := 10; save_strategy := "epoch";
              evaluation_strategy := "no"; fp16 := true; no_cuda := false;
              dataloader_pin_memory := true; remove_unused_columns := false;
              report_to := "none" |} in
  (Py.int (max_length_var (vars st)) = Some 64 /\
   Py.int (warmup_steps_var (vars st)) = Some 10 /\
   Py.int (gradient_accumulation_steps_var (vars st)) = Some 2) /\
  (Py.int (epochs_var (vars st)) = Some (num_train_epochs a) /\
   Py.int (batch_size_var (vars st)) = Some (per_device_train_batch_size a) /\
   Py.float (learning_rate_var (vars st)) = Some (learning_rate a)) /\
  (gradient_accumulation_steps a = 4 /\ warmup_steps a = 100 /\
   weight_decay a = literal_0_01) /\
  (forall p n,
     In (NewCustomDataset p n) (trace (train_model quiet_run st)) -> n = 32).
Proof.
  split; [repeat split; reflexivity|].
  apply (engine_configuration_is_hard_coded quiet_run
           (with_vars chosen_entries init) _ []).
  vm_compute. tauto.
Defined.

End Thread.

(** ** The resource estimate *)

Section Estimate.

Import Estimator.

Lemma dataset_size_tree d :
  dataset_size (Some d) = megabytes (tree_size d).
Proof. destruct d; reflexivity. Qed.

Lemma literal_0_1_is_the_literal : Py.float "0.1" = Some literal_0_1.
Proof. reflexivity. Qed.

(** The walk over a tree adds up the sizes of all files in it, whatever
    their depth. *)
Lemma tree_size_recursive_bytes : forall n, tree_size n = recursive_bytes n.
Proof.
  fix IH 1. intros [size|entries].
  - unfold recursive_bytes. cbn. lia.
  - unfold recursive_bytes. cbn [tree_size file_sizes].
    revert entries. fix IHl 1. intros [|[name child] rest]; [reflexivity|].
    rewrite fold_right_app, (IHl rest), (IH child). unfold recursive_bytes.
    generalize (file_sizes child). intros l.
    induction l as [|x l IHx]; cbn; [reflexivity|]. rewrite <- IHx. lia.
Qed.

(** C9: with a dataset and a model directory selected, the estimate is
    [projected_ram = (model_bytes/1MB + dataset_bytes/1MB + 50) * 0.5] and
    [projected_vram = model_bytes/1MB * 0.1] in binary64 arithmetic, the
    byte counts being the recursive sums of the sizes of all files under
    the two paths; a model of 1000 MB with a dataset of 0 MB gives 100.0
    and 525.0. *)
Theorem estimate_follows_the_formula
  (data_var model_var : string) (data_dir models_dir : list (string * node))
  (t : telemetry) (ms : list (string * node)) (d : node) :
  data_var <> "" -> model_var <> "" ->
  lookup model_var models_dir = Some (Dir ms) ->
  lookup data_var data_dir = Some d ->
  exists e,
    estimate_memory data_var model_var data_dir models_dir t = Some e /\
    let model_mb := megabytes (recursive_bytes (Dir ms)) in
    let dataset_mb := megabytes (recursive_bytes d) in
    total_ram e = ((model_mb + dataset_mb + 50) * 0.5)%float /\
    total_vram e = (model_mb * literal_0_1)%float /\
    (recursive_bytes (Dir ms) = 1000 * (1024 * 1024) -> recursive_bytes d = 0 ->
     total_vram e = 100%float /\ total_ram e = 525%float).
Proof.
  intros Hd Hm Hmodel Hdata.
  unfold estimate_memory.
  apply String.eqb_neq in Hd, Hm. rewrite Hd, Hm. cbn [orb].
  rewrite Hmodel, Hdata, dataset_size_tree.
  eexists. split; [reflexivity|].
  cbn [total_ram total_vram model_size walk_size].
  rewrite !tree_size_recursive_bytes.
  split; [reflexivity|]. split; [reflexivity|].
  intros Hmodel_bytes Hdata_bytes. rewrite Hmodel_bytes, Hdata_bytes.
  split; reflexivity.
Qed.

Lemma estimate_follows_the_formula_witness :
  recursive_bytes (Dir [("model.safetensors", File (900 * mib));
                        ("tokenizer", Dir [("tokenizer.json", File (99 * mib))]);
                        ("config.json", File mib)]) = 1000 * (1024 * 1024) /\
  recursive_bytes (File 0) = 0 /\
  exists e,
    estimate_memory "d.jsonl" "m" data_0mb models_1000mb idle_host = Some e /\
    total_vram e = 100%float /\ total_ram e = 525%float.
Proof.
  split; [reflexivity|]. split; [reflexivity|].
  destruct (estimate_follows_the_formula "d.jsonl" "m" data_0mb models_1000mb
              idle_host
              [("model.safetensors", File (900 * mib));
               ("tokenizer", Dir [("tokenizer.json", File (99 * mib))]);
               ("config.json", File mib)] (File 0))
    as (e & He & _ & _ & Hexample); try reflexivity; try discriminate.
  exists e. split; [exact He|]. apply Hexample; reflexivity.
Defined.

End Estimate.

(** ** Loading a dataset *)

Section Load.

Import Json Normalizer.

Lemma read_text_files_data es : snd (read_text_files es) = omap text_example es.
Proof.
  induction es as [|[filename entry] es IH]; [reflexivity|].
  cbn [read_text_files omap list_omap]. unfold text_example at 1. cbn [fst snd].
  destruct (read_text_files es) as [logs data]. cbn [snd] in IH. subst data.
  destruct (_ || _)%bool; [|reflexivity].
  destruct entry as [content|]; [|reflexivity].
  destruct (String.eqb (Py.strip content) ""); reflexivity.
Qed.

Lemma read_lines_data lines :
  snd (read_lines lines) = List.filter has_text (omap id lines).
Proof.
  induction lines as [|line lines IH]; [reflexivity|].
  cbn [read_lines omap list_omap].
  destruct (read_lines lines) as [logs data]. cbn [snd] in IH. subst data.
  destruct line as [item|]; [|reflexivity].
  cbn [id List.filter snd]. destruct (has_text item); reflexivity.
Qed.


Lemma read_document_data doc :
  read_document doc = List.filter has_text (document_records doc).
Proof.
  destruct doc; reflexivity.
Qed.

Lemma read_rows_data df :
  read_rows df
  = if existsb (String.eqb "text") (columns df)
    then omap (row_example df) (rows df) else [].
Proof.
  unfold read_rows. destruct (existsb _ (columns df)); [|reflexivity].
  induction (rows df) as [|row rs IH]; [reflexivity|].
  cbn [flat_map omap list_omap]. rewrite IH. unfold row_example at 2.
  destruct (row_get "text" row) as [|s|z|b]; cbn [notna andb]; try reflexivity;
    destruct (String.eqb _ ""); reflexivity.
Qed.

(** What [load_data] does with the outcome of its reader. *)
Lemma load_data_result data_path n :
  result (load_data data_path n)
  = match n with
    | None =>
        let file_ext := Py.lower (snd (Py.splitext data_path)) in
        if (String.eqb file_ext ".jsonl" || String.eqb file_ext ".json"
            || String.eqb file_ext ".csv")%bool
        then inl FileNotFound else inl NoValidData
    | Some (Dir TextMissing _) => inl TextDirectoryNotFound
    | Some (Dir TextNotADirectory _) => inl NotADirectory
    | Some (File c) =>
        if cannot_be_parsed (Py.lower (snd (Py.splitext data_path))) c
        then inl ParseError
        else match valid_examples data_path n with
             | [] => inl NoValidData
             | data => inr data
             end
    | Some (Dir (TextListing es) _) =>
        match valid_examples data_path n with
        | [] => inl NoValidData
        | data => inr data
        end
    end.
Proof.
  unfold load_data, result, valid_examples.
  destruct n as [[c|text images]|].
  - unfold _load_file_data, read_file, cannot_be_parsed.
    set (ext := Py.lower (snd (Py.splitext data_path))).
    destruct (String.eqb ext ".jsonl") eqn:E1.
    { destruct c as [lines|doc|df|]; try reflexivity.
      pose proof (read_lines_data lines) as H.
      destruct (read_lines lines) as [l data]. cbn [snd] in H. subst data.
      destruct (List.filter has_text (omap id lines)); reflexivity. }
    destruct (String.eqb ext ".json") eqn:E2.
    { destruct c as [lines|doc|df|]; try reflexivity.
      rewrite read_document_data.
      destruct (List.filter has_text (document_records doc)); reflexivity. }
    destruct (String.eqb ext ".csv") eqn:E3.
    { destruct c as [lines|doc|df|]; try reflexivity.
      rewrite read_rows_data. cbn [andb].
      destruct (existsb _ (columns df)); [|reflexivity].
      destruct (omap (row_example df) (rows df)); reflexivity. }
    destruct c; reflexivity.
  - destruct text as [| |es]; try reflexivity.
    unfold _load_directory_data.
    pose proof (read_text_files_data es) as H.
    destruct (read_text_files es) as [l data]. cbn [snd] in H. subst data.
    destruct (omap text_example es); reflexivity.
  - unfold _load_file_data, read_file.
    set (ext := Py.lower (snd (Py.splitext data_path))).
    destruct (String.eqb ext ".jsonl"); [reflexivity|].
    destruct (String.eqb ext ".json"); [reflexivity|].
    destruct (String.eqb ext ".csv"); reflexivity.
Qed.




(** A directory source with a [text] sub-collection loads the examples
    of its readable, non-blank [.txt] and [.md] files: none of them, and
    [load_data] raises; one of them, and the dataset has length 1. *)
Theorem directory_source_loads_its_text_files
  (data_path : string) (es : list (string * text_entry)) (images : list string) :
  result (load_data data_path (Some (Dir (TextListing es) images)))
  = match omap text_example es with
    | [] => inl NoValidData
    | data => inr data
    end.
Proof. rewrite load_data_result. reflexivity. Qed.


Lemma text_example_nonempty e item :
  text_example e = Some item ->
  has_text item = true /\ text_is_nonempty_string item.
Proof.
  unfold text_example, text_is_nonempty_string.
  destruct (_ || _)%bool; [|discriminate].
  destruct (snd e) as [content|]; [|discriminate].
  destruct (String.eqb (Py.strip content) "") eqn:E; [discriminate|].
  intros [= <-]. cbn. rewrite E. split; [reflexivity|].
  eexists. split; [reflexivity|]. apply String.eqb_neq, E.
Qed.

Lemma row_example_nonempty df row item :
  row_example df row = Some item ->
  has_text item = true /\ text_is_nonempty_string item.
Proof.
  unfold row_example, text_is_nonempty_string.
  destruct (row_get "text" row) as [|s|z|b]; [discriminate| | |];
    (destruct (String.eqb (Py.strip _) "") eqn:E; [discriminate|]);
    intros [= <-]; cbn [str] in E;
    cbn [has_text get String.eqb Ascii.eqb Bool.eqb truthy field record];
    rewrite E; (split; [reflexivity|]);
    (eexists; split; [reflexivity|]); apply String.eqb_neq, E.
Qed.

Lemma omap_Forall {A B} (f : A -> option B) (P : B -> Prop) l :
  (forall a b, f a = Some b -> P b) -> Forall P (omap f l).
Proof.
  intros H. induction l as [|a l IH]; [constructor|].
  cbn [omap list_omap]. destruct (f a) eqn:E; [constructor; eauto|exact IH].
Qed.

Lemma filter_Forall {A} (p : A -> bool) l :
  Forall (fun a => p a = true) (List.filter p l).
Proof.
  apply List.Forall_forall. intros a Ha.
  apply List.filter_In in Ha. tauto.
Qed.



End Load.

(** ** Converting a dataset *)

Section Convert.

Import Json Normalizer Converter.

Variable DataFrame : json -> option dataframe.
Variable to_csv : dataframe -> content * bool.

Lemma all_lines_map_Some items : all_lines (map Some items) = Some items.
Proof.
  induction items as [|item items IH]; [reflexivity|].
  cbn [map all_lines]. rewrite IH. reflexivity.
Qed.

Lemma written_lines_encodable items :
  forallb encodable items = true -> written_lines items = (items, false).
Proof.
  induction items as [|item items IH]; [reflexivity|].
  cbn [forallb written_lines]. intros H. apply andb_prop in H as [H1 H2].
  rewrite H1, (IH H2). reflexivity.
Qed.

(** A [.json] file that holds a list of records goes to [.jsonl] and back
    unchanged, when no directory is in the way at [d.jsonl], every path
    may be written and the records can be encoded. *)
Theorem list_document_round_trip (items : list json) (fs : gmap string node) :
  fs !! "d.json" = Some (File (JsonDocument (JList items))) ->
  is_directory (fs !! "d.jsonl") = false ->
  forallb encodable items = true ->
  round_trip DataFrame to_csv "d" "json" "jsonl" fs !! "d.json"
  = Some (File (JsonDocument (JList items))).
Proof.
  intros H Hdir Henc. unfold round_trip, convert_dataset.
  change ("d" ++ "." ++ "json") with "d.json".
  change ("d" ++ "." ++ "jsonl") with "d.jsonl".
  cbn [String.eqb Ascii.eqb Bool.eqb]. rewrite H.
  change (fst (Py.splitext "d.json") ++ "." ++ "jsonl") with "d.jsonl".
  change (fst (Py.splitext "d.jsonl") ++ "." ++ "json") with "d.json".
  change (read_source (Orchestrator.join Orchestrator.data_dir "d.json")
            (File (JsonDocument (JList items))))
    with (@inr failure json (JList items)).
  rewrite Hdir. unfold permissive. cbn [andb negb].
  cbn [write_target String.eqb Ascii.eqb Bool.eqb iterate].
  rewrite (written_lines_encodable _ Henc). cbn [fst].
  rewrite lookup_insert_eq.
  change (read_source (Orchestrator.join Orchestrator.data_dir "d.jsonl")
            (File (JsonLines (map Some items))))
    with (match all_lines (map Some items) with
          | Some l => @inr failure json (JList l)
          | None => inl MalformedLine
          end).
  rewrite all_lines_map_Some.
  rewrite lookup_insert_ne by discriminate. rewrite H.
  cbn [is_directory andb negb write_target String.eqb Ascii.eqb Bool.eqb].
  cbn [encodable]. rewrite Henc. cbn [fst].
  apply lookup_insert_eq.
Qed.

(** C10: a [.json] dataset that holds one bare record, which the
    normalizer loads as one example, does not survive [json -> jsonl ->
    json]: the conversion iterates over the keys of the record, so the
    [.jsonl] file holds the line ["text"] and the file converted back holds
    the list [["text"]]; the text "hi" is gone. *)
Theorem bare_record_round_trip_loses_text :
  let fs := round_trip DataFrame to_csv "d" "json" "jsonl" one_bare_record in
  result (load_data "data/d.json" (one_bare_record !! "d.json"))
  = inr [bare_record] /\
  field_values "text" (one_bare_record !! "d.json") = [JStr "hi"] /\
  fs !! "d.jsonl" = Some (File (JsonLines [Some (JStr "text")])) /\
  fs !! "d.json" = Some (File (JsonDocument (JList [JStr "text"]))) /\
  field_values "text" (fs !! "d.json") = [].
Proof. vm_compute. repeat split; reflexivity. Qed.

End Convert.

Lemma list_document_round_trip_witness :
  Converter.round_trip Converter.frame_of_nothing Converter.csv_as_written
    "d" "json" "jsonl"
    {[ "d.json" :=
         Normalizer.File
           (Normalizer.JsonDocument
              (Json.JList [Normalizer.example "a"; Normalizer.example "b"])) ]}
  !! "d.json"
  = Some (Normalizer.File
            (Normalizer.JsonDocument
               (Json.JList [Normalizer.example "a"; Normalizer.example "b"]))).
Proof.
  apply (list_document_round_trip Converter.frame_of_nothing
           Converter.csv_as_written
           [Normalizer.example "a"; Normalizer.example "b"]);
    reflexivity.
Defined.

(** ** The life of a job on the control surface *)

Section Lifecycle.

Lemma worker_event_fields i f st :
  vars (worker_event i f st) = vars st /\ ui (worker_event i f st) = ui st /\
  is_training (worker_event i f st) = is_training st /\
  is_paused (worker_event i f st) = is_paused st /\
  log (worker_event i f st) = log st /\
  dialogs (worker_event i f st) = dialogs st /\
  destroyed (worker_event i f st) = destroyed st /\
  length (threads (worker_event i f st)) = length (threads st).
Proof.
  unfold worker_event. destruct (threads st !! i); cbn; repeat split; try reflexivity.
  apply length_insert.
Qed.

Lemma destroyed_stays ev st : destroyed st = true -> destroyed (dispatch ev st) = true.
Proof.
  intros H.
  assert (Hw : forall i f, destroyed (worker_event i f st) = true).
  { intros i f.
    destruct (worker_event_fields i f st) as (_ & _ & _ & _ & _ & _ & -> & _).
    exact H. }
  destruct ev; cbn [dispatch]; rewrite ?H; first [reflexivity|exact H|apply Hw].
Qed.

Lemma start_training_controls st :
  controls_follow_flags st -> controls_follow_flags (start_training st).
Proof.
  unfold start_training. intros H.
  destruct (_ || _)%bool; [exact H|].
  destruct (check_inputs (vars st)); [exact H|].
  unfold controls_follow_flags. cbn. repeat split; (reflexivity || discriminate).
Qed.

Lemma pause_training_controls st :
  controls_follow_flags st -> controls_follow_flags (pause_training st).
Proof.
  unfold pause_training. intros H.
  destruct (is_training st) eqn:Ht; cbn [negb]; [|exact H].
  destruct H as (H1 & H2 & H3 & H4 & H5). rewrite Ht in H1, H2, H3.
  destruct (is_paused st) eqn:Hp; unfold controls_follow_flags; cbn;
    rewrite ?Ht, ?H1, ?H2, ?H3; repeat split; auto.
Qed.

Lemma cancel_training_controls c st :
  controls_follow_flags st -> controls_follow_flags (cancel_training c st).
Proof.
  unfold cancel_training. intros H.
  destruct (is_training st) eqn:Ht; cbn [negb]; [|exact H].
  destruct c; [|exact H].
  unfold controls_follow_flags. cbn. repeat split; (reflexivity || discriminate).
Qed.

Lemma dispatch_controls ev st :
  destroyed (dispatch ev st) = false ->
  controls_follow_flags st -> controls_follow_flags (dispatch ev st).
Proof.
  intros Hd H.
  assert (Hw : forall i f, controls_follow_flags (worker_event i f st)).
  { intros i f. unfold controls_follow_flags.
    destruct (worker_event_fields i f st) as (_ & -> & -> & -> & _). exact H. }
  destruct ev; cbn [dispatch] in *; try apply Hw;
    destruct (destroyed st) eqn:Hds; try exact H; unfold click.
  - destruct (start_button (ui st)); [apply start_training_controls|]; exact H.
  - destruct (pause_button (ui st)); [apply pause_training_controls|]; exact H.
  - destruct (cancel_button (ui st)); [apply cancel_training_controls|]; exact H.
  - unfold on_closing in *. destruct (is_training st).
    + destruct confirmed; cbn in *; [discriminate|exact H].
    + cbn in Hd. discriminate.
Qed.

(** While the window exists, the controls agree with the flags in every
    state the control surface can reach: start is disabled exactly while
    [is_training], pause and cancel are enabled exactly then, a paused job
    is a job in flight, and the status and the pause label show the
    phase. *)
Theorem controls_agree_with_the_flags (evs : list event) :
  destroyed (run evs init) = false ->
  controls_follow_flags (run evs init).
Proof.
  assert (G : forall evs st, destroyed (run evs st) = false ->
                controls_follow_flags st -> controls_follow_flags (run evs st)).
  { clear evs. induction evs as [|ev evs IH]; intros st Hd H; [exact H|].
    cbn [run fold_left] in *. apply IH; [exact Hd|].
    apply dispatch_controls; [|exact H].
    destruct (destroyed (dispatch ev st)) eqn:E; [|reflexivity].
    exfalso. clear IH H.
    assert (Hs : forall evs st, destroyed st = true -> destroyed (run evs st) = true).
    { clear. induction evs as [|e evs IH]; intros st H; [exact H|].
      cbn [run fold_left]. apply IH, destroyed_stays, H. }
    unfold run in Hs. rewrite (Hs evs _ E) in Hd. discriminate. }
  intros Hd. apply G; [exact Hd|].
  unfold controls_follow_flags. cbn. repeat split; (reflexivity || discriminate).
Qed.

Lemma controls_agree_with_the_flags_witness :
  controls_follow_flags
    (run [Edit FData "d.jsonl"; Edit FModel "m"; ClickStart; ClickPause;
          WorkerLoaded 0 2; WorkerStep 0] init).
Proof.
  apply (controls_agree_with_the_flags
           [Edit FData "d.jsonl"; Edit FModel "m"; ClickStart; ClickPause;
            WorkerLoaded 0 2; WorkerStep 0]).
  reflexivity.
Defined.

(** What one event adds: records at the end of the log, and one thread per
    "Training started" among them. *)
Lemma dispatch_adds ev st :
  exists l,
    log (dispatch ev st) = (log st ++ l)%list /\
    length (threads (dispatch ev st))
    = (length (threads st) + length (List.filter is_started l))%nat.
Proof.
  assert (Hnone : exists l, log st = (log st ++ l)%list /\
            length (threads st)
            = (length (threads st) + length (List.filter is_started l))%nat).
  { exists []. rewrite app_nil_r. cbn. split; [reflexivity|lia]. }
  assert (Hw : forall i f, exists l,
            log (worker_event i f st) = (log st ++ l)%list /\
            length (threads (worker_event i f st))
            = (length (threads st) + length (List.filter is_started l))%nat).
  { intros i f.
    destruct (worker_event_fields i f st) as (_ & _ & _ & _ & -> & _ & _ & ->).
    exact Hnone. }
  destruct ev; cbn [dispatch]; try apply Hw;
    destruct (destroyed st); try exact Hnone; unfold click.
  - destruct (start_button (ui st)); [|exact Hnone].
    unfold start_training.
    destruct (_ || _)%bool.
    { exists [(ERROR, ErrorDisplayed SelectBoth); (ERROR, TrainingAborted)].
      cbn. rewrite <- app_assoc. split; [reflexivity|lia]. }
    destruct (check_inputs (vars st)) as [e|r].
    { exists [(ERROR, ErrorDisplayed (InvalidInput e)); (ERROR, InvalidInputLogged e)].
      cbn. rewrite <- app_assoc. split; [reflexivity|lia]. }
    exists [(INFO, TrainingStarted)]. cbn. split; [reflexivity|].
    rewrite length_app. reflexivity.
  - destruct (pause_button (ui st)); [|exact Hnone].
    unfold pause_training. destruct (is_training st); cbn [negb]; [|exact Hnone].
    destruct (is_paused st); cbn [negb];
      [exists [(INFO, TrainingResumed)]|exists [(INFO, TrainingPaused)]];
      cbn; split; (reflexivity || lia).
  - destruct (cancel_button (ui st)); [|exact Hnone].
    unfold cancel_training. destruct (is_training st); cbn [negb]; [|exact Hnone].
    destruct confirmed; [|exact Hnone].
    exists [(INFO, TrainingCancelled)]; cbn; split; (reflexivity || lia).
  - unfold on_closing. destruct (is_training st).
    + destruct confirmed; cbn [negb]; [|exact Hnone].
      exists [(INFO, ClosedDuringTraining)]; cbn; split; (reflexivity || lia).
    + exact Hnone.
Qed.

(** The log of the control surface is append-only: whatever happens, the
    records already written stay, in their order, at its head. *)
Theorem log_is_append_only (evs : list event) (st : app) :
  exists l, log (run evs st) = (log st ++ l)%list.
Proof.
  revert st. induction evs as [|ev evs IH]; intros st.
  - exists []. cbn. rewrite app_nil_r. reflexivity.
  - cbn [run fold_left]. destruct (IH (dispatch ev st)) as [l2 H2].
    destruct (dispatch_adds ev st) as (l1 & H1 & _).
    exists (l1 ++ l2)%list. unfold run in H2. rewrite H2, H1, app_assoc.
    reflexivity.
Qed.

(** Threads are only ever added, one per accepted start: in every state
    the control surface can reach, there are as many threads as "Training
    started" records in the log. *)
Theorem one_thread_per_accepted_start (evs : list event) :
  length (threads (run evs init))
  = length (List.filter is_started (log (run evs init))).
Proof.
  assert (G : forall evs st,
            length (threads st) = length (List.filter is_started (log st)) ->
            length (threads (run evs st))
            = length (List.filter is_started (log (run evs st)))).
  { clear evs. induction evs as [|ev evs IH]; intros st H; [exact H|].
    cbn [run fold_left]. apply IH.
    destruct (dispatch_adds ev st) as (l & -> & ->).
    rewrite List.filter_app, length_app, H. reflexivity. }
  apply G. reflexivity.
Qed.

(** Once a job is in flight, [is_training] stays set until the operator
    confirms a cancel or confirms closing the window: no other event
    clears it, the end of the training thread included. *)
Theorem training_ends_only_by_cancel_or_close (ev : event) (st : app) :
  is_training st = true ->
  is_training (dispatch ev st) = false ->
  ev = ClickCancel true \/ ev = Close true.
Proof.
  intros Ht Hf.
  assert (Hw : forall i f, is_training (worker_event i f st) = true).
  { intros i f.
    destruct (worker_event_fields i f st) as (_ & _ & -> & _). exact Ht. }
  destruct ev; cbn [dispatch] in Hf; try (rewrite Hw in Hf; discriminate);
    destruct (destroyed st); try congruence; unfold click in Hf.
  - cbn in Hf. congruence.
  - destruct (start_button (ui st)); [|congruence].
    unfold start_training in Hf. destruct (_ || _)%bool; [cbn in Hf; congruence|].
    destruct (check_inputs (vars st)); cbn in Hf; congruence.
  - destruct (pause_button (ui st)); [|congruence].
    unfold pause_training in Hf. rewrite Ht in Hf. cbn [negb] in Hf.
    destruct (is_paused st); cbn in Hf; congruence.
  - destruct confirmed; [auto|].
    destruct (cancel_button (ui st)); [|congruence].
    unfold cancel_training in Hf. rewrite Ht in Hf. cbn in Hf. congruence.
  - destruct confirmed; [auto|].
    unfold on_closing in Hf. rewrite Ht in Hf. cbn in Hf. congruence.
Qed.

Lemma training_ends_only_by_cancel_or_close_witness :
  ClickCancel true = ClickCancel true \/ ClickCancel true = Close true.
Proof.
  apply (training_ends_only_by_cancel_or_close (ClickCancel true) one_job_running);
    reflexivity.
Defined.

(** Without a dataset or without a model selected, a start is rejected
    before any entry is converted: the error box asks to select both, and
    the job state is unchanged, whatever the entries hold. *)
Theorem start_needs_a_selection (st : app) :
  data_var (vars st) = "" \/ model_var (vars st) = "" ->
  dialogs (start_training st) = (dialogs st ++ [SelectBoth])%list /\
  log (start_training st)
  = (log st ++ [(ERROR, ErrorDisplayed SelectBoth); (ERROR, TrainingAborted)])%list /\
  job_state (start_training st) = job_state st.
Proof.
  intros H. unfold start_training.
  assert (E : (String.eqb (data_var (vars st)) ""
               || String.eqb (model_var (vars st)) "")%bool = true).
  { destruct H as [-> | ->]; [reflexivity|apply orb_true_r]. }
  rewrite E. cbn. rewrite <- app_assoc. repeat split; reflexivity.
Qed.

Lemma start_needs_a_selection_witness :
  dialogs (start_training init) = (dialogs init ++ [SelectBoth])%list /\
  log (start_training init)
  = (log init ++ [(ERROR, ErrorDisplayed SelectBoth); (ERROR, TrainingAborted)])%list /\
  job_state (start_training init) = job_state init.
Proof. apply (start_needs_a_selection init). left. reflexivity. Defined.

End Lifecycle.

(** ** Cancelling and the engine *)

Section Engine.

Lemma run_cons ev evs st : run (ev :: evs) st = run evs (dispatch ev st).
Proof. reflexivity. Qed.

Lemma worker_event_threads i f st :
  threads (worker_event i f st)
  = match threads st !! i with
    | Some w => <[i := f w]> (threads st)
    | None => threads st
    end.
Proof. unfold worker_event. destruct (threads st !! i); reflexivity. Qed.

Lemma worker_event_never_stops i f st :
  (forall w, stop_requested w = false -> stop_requested (f w) = false) ->
  Forall (fun w => stop_requested w = false) (threads st) ->
  Forall (fun w => stop_requested w = false) (threads (worker_event i f st)).
Proof.
  intros Hf H. rewrite worker_event_threads.
  destruct (threads st !! i) as [w|] eqn:E; [|exact H].
  apply Forall_insert; [exact H|]. apply Hf.
  rewrite Forall_lookup in H. apply (H i w E).
Qed.

Lemma engine_step_never_stops t :
  should_training_stop t = false -> stop_requested (engine_step t) = false.
Proof.
  intros H. unfold engine_step. rewrite H. cbn [orb].
  destruct (max_steps t <=? global_step t)%nat; cbn; [exact H|reflexivity].
Qed.

Lemma dispatch_never_stops ev st :
  Forall (fun w => stop_requested w = false) (threads st) ->
  Forall (fun w => stop_requested w = false) (threads (dispatch ev st)).
Proof.
  intros H. destruct ev; cbn [dispatch];
    try (destruct (destroyed st); [exact H|]); try exact H.
  - unfold click. destruct (start_button (ui st)); [|exact H].
    unfold start_training. destruct (_ || _)%bool; [exact H|].
    destruct (check_inputs (vars st)); [exact H|].
    cbn. apply Forall_app. split; [exact H|]. repeat constructor.
  - unfold click. destruct (pause_button (ui st)); [|exact H].
    unfold pause_training. destruct (is_training st); [|exact H].
    cbn [negb]. destruct (negb (is_paused st)); exact H.
  - unfold click. destruct (cancel_button (ui st)); [|exact H].
    unfold cancel_training. destruct (is_training st); [|exact H].
    cbn [negb]. destruct confirmed; exact H.
  - unfold on_closing. destruct (is_training st); [|exact H].
    destruct confirmed; exact H.
  - apply worker_event_never_stops; [|exact H].
    intros [| | |] Hw; try exact Hw; reflexivity.
  - apply worker_event_never_stops; [|exact H].
    intros [| | |] Hw; try exact Hw; reflexivity.
  - apply worker_event_never_stops; [|exact H].
    intros [|t| |] Hw; try exact Hw. apply engine_step_never_stops, Hw.
Qed.

(** Nothing the control surface or a thread does ever sets
    [should_training_stop]. *)
Lemma run_never_stops evs st :
  Forall (fun w => stop_requested w = false) (threads st) ->
  Forall (fun w => stop_requested w = false) (threads (run evs st)).
Proof.
  revert st. induction evs as [|ev evs IH]; intros st H; [exact H|].
  rewrite run_cons. apply IH, dispatch_never_stops, H.
Qed.

Lemma run_controls evs st :
  destroyed (run evs st) = false ->
  controls_follow_flags st -> controls_follow_flags (run evs st).
Proof.
  revert st. induction evs as [|ev evs IH]; intros st Hd H; [exact H|].
  rewrite run_cons in *. apply IH; [exact Hd|].
  apply dispatch_controls; [|exact H].
  destruct (destroyed (dispatch ev st)) eqn:E; [|reflexivity].
  exfalso. clear IH H.
  assert (Hs : forall evs st, destroyed st = true -> destroyed (run evs st) = true).
  { clear. induction evs as [|e evs IH]; intros st H; [exact H|].
    rewrite run_cons. apply IH, destroyed_stays, H. }
  rewrite (Hs evs _ E) in Hd. discriminate.
Qed.

(** A thread in the training loop that is not asked to stop goes on to
    the last step and saves the model. *)
Lemma engine_runs_to_the_end k : forall st i t,
  threads st !! i = Some (InTrainLoop t) ->
  should_training_stop t = false ->
  k = (max_steps t - global_step t)%nat ->
  threads (run (repeat (WorkerStep i) (S k)) st) !! i
  = Some (Saved {| global_step := Nat.max (global_step t) (max_steps t);
                   max_steps := max_steps t;
                   should_training_stop := false |}).
Proof.
  induction k as [|k IH]; intros st i t Hi Hs Hk.
  - cbn [repeat]. rewrite run_cons. cbn [run fold_left dispatch].
    rewrite worker_event_threads, Hi.
    rewrite list_lookup_insert_eq by (apply lookup_lt_Some in Hi; exact Hi).
    unfold engine_step. rewrite Hs. cbn [orb].
    destruct (Nat.leb_spec (max_steps t) (global_step t)); [|lia].
    destruct t as [g n s]. cbn in *. subst s. do 2 f_equal.
    f_equal. lia.
  - change (repeat (WorkerStep i) (S (S k)))
      with (WorkerStep i :: repeat (WorkerStep i) (S k)).
    rewrite run_cons.
    set (t' := {| global_step := S (global_step t); max_steps := max_steps t;
                  should_training_stop := false |}).
    assert (Ht' : threads (dispatch (WorkerStep i) st) !! i = Some (InTrainLoop t')).
    { cbn [dispatch]. rewrite worker_event_threads, Hi.
      rewrite list_lookup_insert_eq by (apply lookup_lt_Some in Hi; exact Hi).
      unfold engine_step. rewrite Hs. cbn [orb].
      destruct (Nat.leb_spec (max_steps t) (global_step t)); [lia|reflexivity]. }
    rewrite (IH _ i t' Ht'); [|reflexivity|cbn; lia].
    cbn. do 2 f_equal. f_equal. lia.
Qed.

(** C3: a cancel that the operator declines changes nothing.  A
    confirmed cancel, though, is cosmetic: in every state the control
    surface can reach with a job in flight, it shows the job as cancelled
    at once and leaves the training threads as they are; the engine is
    never signalled ([should_training_stop] stays unset), so a thread in
    the training loop does all its remaining steps and saves the model.
    The specification asks for a [Cancelling] phase, a signal to the
    engine and a stop at the next step boundary. *)
Theorem cancel_never_signals_the_engine
  (evs : list event) (i : nat) (t : trainer_state) :
  let st := run evs init in
  let st' := dispatch (ClickCancel true) st in
  is_training st = true -> destroyed st = false ->
  threads st !! i = Some (InTrainLoop t) ->
  dispatch (ClickCancel false) st = st /\
  phase_of st' = Cancelled /\
  threads st' = threads st /\
  should_training_stop t = false /\
  threads (run (repeat (WorkerStep i) (S (max_steps t - global_step t))) st') !! i
  = Some (Saved {| global_step := Nat.max (global_step t) (max_steps t);
                   max_steps := max_steps t;
                   should_training_stop := false |}).
Proof.
  cbv zeta. intros Ht Hd Hi.
  assert (Hc : controls_follow_flags (run evs init)).
  { apply run_controls; [exact Hd|].
    unfold controls_follow_flags. cbn. repeat split; (reflexivity || discriminate). }
  destruct Hc as (_ & _ & Hcancel & _). rewrite Ht in Hcancel.
  assert (Hstop : should_training_stop t = false).
  { assert (H : Forall (fun w => stop_requested w = false) (threads (run evs init)))
      by (apply run_never_stops; constructor).
    rewrite Forall_lookup in H. apply (H i _ Hi). }
  cbn [dispatch]. rewrite Hd, Hcancel. cbn [click].
  unfold cancel_training. rewrite Ht. cbn [negb].
  split; [reflexivity|]. split; [reflexivity|]. split; [reflexivity|].
  split; [exact Hstop|].
  apply engine_runs_to_the_end; [exact Hi|exact Hstop|reflexivity].
Qed.

Lemma cancel_never_signals_the_engine_witness :
  let st := run one_step_of_five init in
  let st' := dispatch (ClickCancel true) st in
  let t := {| global_step := 1; max_steps := 5; should_training_stop := false |} in
  dispatch (ClickCancel false) st = st /\
  phase_of st' = Cancelled /\
  threads st' = threads st /\
  should_training_stop t = false /\
  threads (run (repeat (WorkerStep 0) (S (max_steps t - global_step t))) st') !! 0%nat
  = Some (Saved {| global_step := Nat.max (global_step t) (max_steps t);
                   max_steps := max_steps t;
                   should_training_stop := false |}).
Proof.
  apply (cancel_never_signals_the_engine one_step_of_five 0
           {| global_step := 1; max_steps := 5; should_training_stop := false |});
    reflexivity.
Defined.

End Engine.

(** ** The outcome of a run *)

Section Run.

Local Open Scope thread_scope.

Lemma returned_bind {A B} (m : M A) (k : A -> M B) :
  returned (bind m k)
  = match returned m with Some a => returned (k a) | None => None end.
Proof.
  unfold returned, bind. destruct m as [t [a|]]; cbn; [|reflexivity].
  destruct (k a). reflexivity.
Qed.

Lemma trace_bind {A B} (m : M A) (k : A -> M B) :
  trace (bind m k)
  = match returned m with
    | Some a => (trace m ++ trace (k a))%list
    | None => trace m
    end.
Proof.
  unfold returned, trace, bind. destruct m as [t [a|]]; cbn; [|reflexivity].
  destruct (k a). reflexivity.
Qed.

Lemma count_calls_bind {A B} p (m : M A) (k : A -> M B) :
  count_calls p (bind m k)
  = match returned m with
    | Some a => (count_calls p m + count_calls p (k a))%nat
    | None => count_calls p m
    end.
Proof.
  unfold count_calls. rewrite trace_bind.
  destruct (returned m); [|reflexivity].
  rewrite List.filter_app, length_app. reflexivity.
Qed.

Lemma returned_try_except {A} (body handler : M A) :
  returned (try_except body handler)
  = match returned body with Some a => Some a | None => returned handler end.
Proof.
  unfold returned, try_except. destruct body as [t [a|]]; [reflexivity|].
  destruct handler. reflexivity.
Qed.

Lemma trace_try_except {A} (body handler : M A) :
  trace (try_except body handler)
  = match returned body with
    | Some _ => trace body
    | None => (trace body ++ trace handler)%list
    end.
Proof.
  unfold returned, trace, try_except. destruct body as [t [a|]]; [reflexivity|].
  destruct handler. reflexivity.
Qed.

Lemma steps_succeed_between env :
  steps_succeed env <-> steps_between env 0 (engine_steps env).
Proof.
  unfold steps_succeed, steps_between. split.
  - intros H j Hj E. destruct (H j E); lia.
  - intros H k E. destruct (Nat.eq_dec k 0%nat) as [->|Hk]; [auto|right].
    destruct (Nat.lt_ge_cases (engine_steps env) k) as [Hlt|Hge]; [exact Hlt|].
    exfalso. apply (H k); [lia|exact E].
Qed.

(** The loop of a trainer without callbacks returns exactly when none of
    its steps raises, and then it has done them all. *)
Lemma training_loop_nil_outcome env k todo :
  (returned (training_loop env k todo []) = Some [] <-> steps_between env k todo) /\
  (returned (training_loop env k todo []) = Some [] ->
   count_calls is_training_step (training_loop env k todo []) = todo) /\
  count_calls is_save (training_loop env k todo []) = 0%nat /\
  count_calls is_error_log (training_loop env k todo []) = 0%nat.
Proof.
  revert k. induction todo as [|todo IH]; intros k.
  - cbn. unfold steps_between. repeat split; auto; intros; lia.
  - cbn [training_loop each]. rewrite bind_ret_l.
    rewrite returned_bind, !count_calls_bind.
    destruct (IH (S k)) as (IH1 & IH2 & IH4 & IH5).
    unfold may_raise. cbn [returned snd].
    case_bool_decide as Hs.
    + repeat split; try discriminate; try reflexivity.
      intros H. exfalso. apply (H (S k)); [lia|exact Hs].
    + unfold count_calls at 1 3 5. cbn [trace fst List.filter is_training_step
                                           is_save is_error_log length].
      repeat split.
      * intros H. apply IH1 in H. intros j Hj.
        destruct (Nat.eq_dec j (S k)) as [->|Hne]; [exact Hs|].
        apply H. lia.
      * intros H. apply IH1. intros j Hj. apply H. lia.
      * intros H. rewrite (IH2 H). reflexivity.
      * exact IH4.
      * exact IH5.
Qed.

Lemma make_training_arguments_trace e : trace (make_training_arguments e) = [].
Proof.
  unfold make_training_arguments.
  destruct (Py.int (epochs_var e)); [|reflexivity].
  destruct (Py.int (batch_size_var e)); [|reflexivity].
  destruct (Py.float (learning_rate_var e)); reflexivity.
Qed.

Lemma train_nil_outcome env :
  (returned (train env []) = Some tt <-> steps_succeed env) /\
  (returned (train env []) = Some tt ->
   count_calls is_training_step (train env []) = engine_steps env) /\
  count_calls is_save (train env []) = 0%nat /\
  count_calls is_error_log (train env []) = 0%nat.
Proof.
  unfold train. cbn [each]. rewrite !bind_ret_l.
  rewrite !returned_bind, !count_calls_bind. cbn [returned do snd].
  destruct (training_loop_nil_outcome env 0 (engine_steps env))
    as (H1 & H2 & H4 & H5).
  rewrite steps_succeed_between, H4, H5.
  change (count_calls is_training_step (do Train)) with 0%nat.
  change (count_calls is_save (do Train)) with 0%nat.
  change (count_calls is_error_log (do Train)) with 0%nat.
  destruct (returned (training_loop env 0 (engine_steps env) [])) as [cbs|] eqn:E.
  - pose proof (training_loop_nil_returns _ _ _ _ E) as ->.
    cbn [each]. rewrite !bind_ret_l.
    repeat split; try tauto.
    intros _. rewrite (H2 eq_refl). cbn. lia.
  - repeat split; try discriminate.
    intros H. apply H1 in H. discriminate.
Qed.

Ltac raised_at E :=
  cbn; repeat split; try reflexivity; try discriminate; try lia;
  let H := fresh in intros (H & _); rewrite H in E; discriminate.

(** The calls of [train_model] and its result, one external call after
    the other. *)
Lemma train_model_unfolded env st :
  let m := train_model env st in
  (returned m = Some tt <->
     (forall s, raises env s = false) /\
     (exists a, returned (make_training_arguments (vars st)) = Some a) /\
     steps_succeed env) /\
  count_calls is_error_log m = match returned m with Some _ => 0 | None => 1 end%nat /\
  (returned m = None -> last (trace m) = Some (Logging ERROR TrainingError)) /\
  (count_calls is_save m <= 1)%nat /\
  (count_calls is_save m = 1%nat ->
   count_calls is_training_step m = engine_steps env /\ steps_succeed env).
Proof.
  cbv zeta. unfold train_model, trainer_callbacks, count_calls.
  rewrite returned_try_except, trace_try_except.
  rewrite !returned_bind, !trace_bind, ?make_training_arguments_trace.
  cbn [returned trace may_raise do raise fst snd].
  destruct (raises env AtDevice) eqn:E0; [raised_at E0|].
  destruct (raises env AtMemoryFraction) eqn:E1; [raised_at E1|].
  destruct (raises env AtTokenizer) eqn:E2; [raised_at E2|].
  destruct (raises env AtPadToken) eqn:E2'; [raised_at E2'|].
  destruct (raises env AtModel) eqn:E3; [raised_at E3|].
  destruct (raises env AtModelCuda) eqn:E4; [raised_at E4|].
  destruct (raises env AtLoraConfig) eqn:E4'; [raised_at E4'|].
  destruct (raises env AtPeft) eqn:E5; [raised_at E5|].
  destruct (raises env AtPrintParameters) eqn:E6; [raised_at E6|].
  destruct (raises env AtLoraGradients) eqn:E7; [raised_at E7|].
  destruct (raises env AtCheckpointing) eqn:E8; [raised_at E8|].
  destruct (raises env AtDataset) eqn:E9; [raised_at E9|].
  destruct (raises env AtCollator) eqn:E10; [raised_at E10|].
  cbv iota.
  destruct (returned (make_training_arguments (vars st))) as [a|] eqn:Ea.
  2:{ cbn. repeat split; try reflexivity; try discriminate; try lia.
      intros (_ & (a & Ha) & _). discriminate. }
  rewrite !returned_bind, !trace_bind.
  cbn [returned trace may_raise do raise fst snd].
  destruct (raises env AtArguments) eqn:E11; [raised_at E11|].
  destruct (raises env AtTrainer) eqn:E12; [raised_at E12|].
  cbv iota.
  destruct (train_nil_outcome env) as (T1 & T2 & T3 & T4).
  unfold count_calls in T2, T3, T4.
  destruct (returned (train env [])) as [[]|] eqn:Et.
  2:{ split.
      { split; [discriminate|]. intros (_ & _ & Hs). apply T1 in Hs. discriminate. }
      rewrite !List.filter_app, !length_app, T3, T4.
      change ([Logging ERROR TrainingError] ++ [])%list
        with [Logging ERROR TrainingError].
      rewrite last_snoc. cbn.
      repeat split; try lia; try reflexivity. }
  assert (Hs : steps_succeed env) by (apply T1; reflexivity).
  specialize (T2 eq_refl).
  rewrite ?returned_bind, ?trace_bind.
  cbn [returned trace may_raise do raise fst snd].
  destruct (raises env AtSave) eqn:E13.
  - split.
    { split; [discriminate|]. intros (H & _). rewrite H in E13. discriminate. }
    rewrite !List.filter_app, !length_app, T2, T3, T4.
    change ([Logging ERROR TrainingError] ++ [])%list
      with [Logging ERROR TrainingError].
    rewrite last_snoc. cbn.
    repeat split; try lia; try reflexivity; try exact Hs.
  - split.
    { split; [intros _|reflexivity].
      split; [|split; [eauto|exact Hs]].
      intros s. destruct s; assumption. }
    rewrite !List.filter_app, !length_app, T2, T3, T4. cbn.
    repeat split; try lia; try reflexivity; try exact Hs.
    discriminate.
Qed.

Lemma on_step_end_outcome k cb :
  total_steps cb <> 0 ->
  exists t,
    on_step_end k cb
    = (t, Some {| total_steps := total_steps cb; current_step := Z.of_nat k |}) /\
    length (List.filter is_root_after t) = 2%nat /\
    length (List.filter is_progress_update t) = 1%nat /\
    length (List.filter is_training_step t) = 0%nat.
Proof.
  intros H. unfold on_step_end, Py.int_true_div. cbn [total_steps current_step].
  destruct (Z.eqb_spec (total_steps cb) 0); [contradiction|].
  eexists. split; [reflexivity|]. repeat split; reflexivity.
Qed.

Lemma each_on_step_end k cb :
  total_steps cb <> 0 ->
  exists t,
    each (on_step_end k) [cb]
    = (t, Some [{| total_steps := total_steps cb; current_step := Z.of_nat k |}]) /\
    length (List.filter is_root_after t) = 2%nat /\
    length (List.filter is_progress_update t) = 1%nat /\
    length (List.filter is_training_step t) = 0%nat.
Proof.
  intros H. destruct (on_step_end_outcome k cb H) as (t & Ht & Ht1 & Ht2 & Ht3).
  exists t. cbn [each]. rewrite Ht. unfold bind, ret.
  rewrite !app_nil_r. auto.
Qed.

(** The loop of a trainer with one callback whose [total_steps] is not 0:
    when no step raises, every step is followed by the two updates of the
    callback. *)
Lemma training_loop_reports env k todo cb :
  steps_between env k todo -> total_steps cb <> 0 ->
  exists cb',
    returned (training_loop env k todo [cb]) = Some [cb'] /\
    count_calls is_root_after (training_loop env k todo [cb]) = (2 * todo)%nat /\
    count_calls is_progress_update (training_loop env k todo [cb]) = todo /\
    count_calls is_training_step (training_loop env k todo [cb]) = todo.
Proof.
  revert k cb. induction todo as [|todo IH]; intros k cb Hs Hcb.
  - exists cb. repeat split; reflexivity.
  - destruct (each_on_step_end (S k) cb Hcb) as (t & Ht & Ht1 & Ht2 & Ht3).
    set (cb1 := {| total_steps := total_steps cb;
                   current_step := Z.of_nat (S k) |}) in *.
    destruct (IH (S k) cb1) as (cb' & R & C1 & C2 & C3).
    { intros j Hj. apply Hs. lia. }
    { exact Hcb. }
    exists cb'. cbn [training_loop].
    rewrite !returned_bind, !count_calls_bind.
    assert (Hraise : bool_decide (step_raises env = Some (S k)) = false).
    { apply bool_decide_eq_false. apply Hs. lia. }
    rewrite Hraise, Ht. cbn [returned may_raise snd]. rewrite R, C1, C2, C3.
    unfold count_calls. cbn [trace fst may_raise List.filter is_root_after
                               is_progress_update is_training_step length].
    rewrite Ht1, Ht2, Ht3. repeat split; try reflexivity; lia.
Qed.

Lemma make_training_arguments_returns e :
  (exists a, returned (make_training_arguments e) = Some a) <->
  is_Some (Py.int (epochs_var e)) /\ is_Some (Py.int (batch_size_var e)) /\
  is_Some (Py.float (learning_rate_var e)).
Proof.
  unfold make_training_arguments.
  destruct (Py.int (epochs_var e)) as [n|]; cbn.
  2:{ split; [intros (a & H); discriminate|intros (H & _); destruct H; discriminate]. }
  destruct (Py.int (batch_size_var e)) as [b|]; cbn.
  2:{ split; [intros (a & H); discriminate|intros (_ & H & _); destruct H; discriminate]. }
  destruct (Py.float (learning_rate_var e)) as [l|]; cbn.
  2:{ split; [intros (a & H); discriminate|intros (_ & _ & H); destruct H; discriminate]. }
  split; eauto.
Qed.

(** The thread of a job ends normally exactly when no external call
    raises, the three entries that [TrainingArguments(...)] converts are
    numerals, and no step of the run raises. *)
Theorem train_model_completes_exactly_when env st :
  returned (train_model env st) = Some tt <->
  (forall s, raises env s = false) /\
  (is_Some (Py.int (epochs_var (vars st))) /\
   is_Some (Py.int (batch_size_var (vars st))) /\
   is_Some (Py.float (learning_rate_var (vars st)))) /\
  steps_succeed env.
Proof.
  rewrite <- make_training_arguments_returns.
  exact (proj1 (train_model_unfolded env st)).
Qed.

(** The handler of [train_model]: a run that ends normally logs no error;
    a run that raises logs the error once, as its last call, and the
    exception goes on to the thread. *)
Theorem train_model_logs_every_failure env st :
  match returned (train_model env st) with
  | Some _ => count_calls is_error_log (train_model env st) = 0%nat
  | None =>
      count_calls is_error_log (train_model env st) = 1%nat /\
      last (trace (train_model env st)) = Some (Logging ERROR TrainingError)
  end.
Proof.
  destruct (train_model_unfolded env st) as (_ & H & L & _).
  destruct (returned (train_model env st)); [exact H|].
  split; [exact H|]. apply L. reflexivity.
Qed.

Lemma count_calls_In {A} (p : call -> bool) (c : call) (m : M A) :
  In c (trace m) -> p c = true -> (1 <= count_calls p m)%nat.
Proof.
  unfold count_calls. intros H Hp. induction (trace m) as [|x l IH]; [destruct H|].
  cbn. destruct H as [->|H].
  - rewrite Hp. cbn. lia.
  - specialize (IH H). destruct (p x); cbn; lia.
Qed.

(** The save of [train_model], its call [self.trainer.save_model()] after
    [train] has returned, is made at most once and only on a run that has
    done all its steps: a run that makes it made [max_steps] steps of the
    engine, none of which raised, so a run in which a step raises never
    reaches it.  (The checkpoints the engine writes of its own during
    [train] are no calls of [train_model]: see [training_loop].) *)
Theorem final_save_follows_a_completed_run env st :
  In SaveModel (trace (train_model env st)) ->
  count_calls is_save (train_model env st) = 1%nat /\
  count_calls is_training_step (train_model env st) = engine_steps env /\
  steps_succeed env /\
  (forall k, (1 <= k <= engine_steps env)%nat -> step_raises env <> Some k).
Proof.
  intros H. destruct (train_model_unfolded env st) as (_ & _ & _ & L & S).
  apply (count_calls_In is_save) in H; [|reflexivity].
  assert (E : count_calls is_save (train_model env st) = 1%nat) by lia.
  split; [exact E|]. destruct (S E) as [S1 S2].
  split; [exact S1|]. split; [exact S2|].
  intros k Hk Hr. destruct (S2 k Hr); lia.
Qed.

Lemma final_save_follows_a_completed_run_witness :
  count_calls is_save (train_model quiet_run one_job_running) = 1%nat /\
  count_calls is_training_step (train_model quiet_run one_job_running)
  = engine_steps quiet_run /\
  steps_succeed quiet_run /\
  (forall k, (1 <= k <= engine_steps quiet_run)%nat ->
             step_raises quiet_run <> Some k).
Proof.
  apply (final_save_follows_a_completed_run quiet_run one_job_running).
  vm_compute. tauto.
Defined.

(** Had the callback been registered: [on_train_begin] sets [total_steps]
    to [max_steps] before the first step, so [on_step_end] never divides
    by zero, whatever the callback held before; a run whose steps do not
    raise returns and every step schedules one update of the progress
    bar. *)
Theorem registered_callback_reports_every_step env cb :
  steps_succeed env ->
  returned (train env [cb]) = Some tt /\
  count_calls is_progress_update (train env [cb]) = engine_steps env /\
  count_calls is_training_step (train env [cb]) = engine_steps env.
Proof.
  intros Hs. apply steps_succeed_between in Hs.
  set (cb0 := {| total_steps := Z.of_nat (engine_steps env); current_step := 0 |}).
  assert (B : each (on_train_begin (engine_steps env)) [cb]
              = ([Logging DEBUG (TrainingBegun (Z.of_nat (engine_steps env)))],
                 Some [cb0])) by reflexivity.
  assert (E : forall cb', each on_train_end [cb']
              = ([Logging DEBUG TrainingEnded], Some [cb'])) by reflexivity.
  unfold train.
  rewrite !returned_bind, !count_calls_bind. cbn [returned do snd].
  rewrite B. cbn [returned snd].
  rewrite !returned_bind, !count_calls_bind.
  destruct (engine_steps env) as [|n] eqn:En.
  - cbn. auto.
  - destruct (training_loop_reports env 0 (S n) cb0 Hs) as (cb' & R & _ & C2 & C3).
    { cbn. lia. }
    rewrite R, C2, C3, E. cbn. repeat split; lia.
Qed.

Lemma registered_callback_reports_every_step_witness :
  returned (train quiet_run [{| total_steps := 0; current_step := 0 |}]) = Some tt /\
  count_calls is_progress_update
    (train quiet_run [{| total_steps := 0; current_step := 0 |}]) = 3%nat /\
  count_calls is_training_step
    (train quiet_run [{| total_steps := 0; current_step := 0 |}]) = 3%nat.
Proof.
  apply (registered_callback_reports_every_step quiet_run).
  intros k H. discriminate.
Defined.

Ltac through_binds :=
  repeat progress
    (rewrite ?returned_bind, ?trace_bind, ?count_calls_bind;
     cbn [returned do snd trace fst]).

Lemma clear_caches_outcome devices :
  returned (clear_caches devices) = Some tt /\
  List.filter is_set_device (trace (clear_caches devices)) = map SetDevice devices /\
  count_calls is_empty_cache (clear_caches devices) = length devices /\
  count_calls is_synchronize (clear_caches devices) = length devices /\
  count_calls is_gc (clear_caches devices) = 0%nat.
Proof.
  induction devices as [|i rest (R & D & E & S & G)]; [repeat split; reflexivity|].
  cbn [clear_caches]. through_binds.
  rewrite R, E, S, G. cbn. rewrite D. repeat split; reflexivity.
Qed.

(** [clean_memory] collects garbage once; with CUDA it selects every
    device [0 .. device_count - 1] once, in order, emptying and
    synchronising its cache; without CUDA it touches no device. *)
Theorem clean_memory_visits_every_device_once env :
  count_calls is_gc (clean_memory env) = 1%nat /\
  List.filter is_set_device (trace (clean_memory env))
  = (if cuda_available env then map SetDevice (seq 0 (device_count env)) else []) /\
  count_calls is_empty_cache (clean_memory env)
  = (if cuda_available env then device_count env else 0%nat) /\
  count_calls is_synchronize (clean_memory env)
  = (if cuda_available env then device_count env else 0%nat).
Proof.
  unfold clean_memory.
  destruct (clear_caches_outcome (seq 0 (device_count env))) as (R & D & E & S & G).
  rewrite length_seq in E, S.
  through_binds.
  destruct (cuda_available env).
  - through_binds. rewrite ?R. through_binds. rewrite ?E, ?S, ?G.
    cbn. rewrite !List.filter_app, D. cbn. rewrite !app_nil_r.
    repeat split; try reflexivity; lia.
  - cbn. repeat split; reflexivity.
Qed.

End Run.

(** ** Reading an example of a loaded dataset *)

Section Getitem.

Import Json Normalizer.

Variable tokenizer : string -> Z -> option encoding.
Variable pad_token_id : Z.
Variable open_image : json -> option (list Z).

Lemma py_index_None {A} (l : list A) idx :
  py_index l idx = None <-> idx < - Z.of_nat (length l) \/ Z.of_nat (length l) <= idx.
Proof.
  unfold py_index.
  destruct (Z.leb_spec 0 idx), (Z.ltb_spec idx (Z.of_nat (length l))); cbn [andb].
  - rewrite nth_error_None. lia.
  - split; [lia|intros _].
    destruct (Z.leb_spec (- Z.of_nat (length l)) idx), (Z.ltb_spec idx 0);
      cbn [andb]; try reflexivity; lia.
  - destruct (Z.leb_spec (- Z.of_nat (length l)) idx), (Z.ltb_spec idx 0);
      cbn [andb]; try (split; [lia|intros; reflexivity]); try lia.
    rewrite nth_error_None. lia.
  - lia.
Qed.

Lemma py_index_nonneg {A} (l : list A) idx :
  0 <= idx < Z.of_nat (length l) -> py_index l idx = nth_error l (Z.to_nat idx).
Proof.
  intros H. unfold py_index.
  destruct (Z.leb_spec 0 idx), (Z.ltb_spec idx (Z.of_nat (length l))); try lia.
  reflexivity.
Qed.

Lemma py_index_In {A} (l : list A) idx a : py_index l idx = Some a -> In a l.
Proof.
  unfold py_index.
  destruct (_ && _)%bool; [apply nth_error_In|].
  destruct (_ && _)%bool; [apply nth_error_In|discriminate].
Qed.

(** [__getitem__] raises exactly when the index is out of range, the item
    is no dict with a [text], or the tokenizer raises; it then has logged
    one error, as its last record.  An image that cannot be opened never
    makes it raise. *)
Theorem getitem_raises_exactly_when (data : list json) (max_length idx : Z) :
  let r := __getitem__ tokenizer pad_token_id open_image data max_length idx in
  (snd r = None <->
     (idx < - __len__ data \/ __len__ data <= idx) \/
     (exists item, py_index data idx = Some item /\
        (field "text" item = None \/
         exists text, field "text" item = Some text /\
                      tokenizer (text_or_unk text) max_length = None))) /\
  match snd r with
  | None => last (fst r) = Some (ErrorInGetitem idx) /\
            length (List.filter is_getitem_error (fst r)) = 1%nat
  | Some _ => length (List.filter is_getitem_error (fst r)) = 0%nat
  end.
Proof.
  cbv zeta. unfold __getitem__, __len__.
  destruct (py_index data idx) as [item|] eqn:Ei.
  2:{ cbn. split; [|auto]. split; [intros _; left; apply py_index_None, Ei|auto]. }
  assert (Hin : ~ (idx < - Z.of_nat (length data) \/ Z.of_nat (length data) <= idx)).
  { intros H. apply py_index_None in H. congruence. }
  destruct (field "text" item) as [text|] eqn:Et.
  2:{ cbn. split; [|auto]. split; [intros _; right; eauto|auto]. }
  destruct (tokenizer (text_or_unk text) max_length) as [enc|] eqn:Ek.
  2:{ cbn [fst snd]. split.
      - split; [intros _; right; exists item; split; [reflexivity|right; eauto]|auto].
      - rewrite last_snoc, List.filter_app, length_app.
        destruct (invalid_text text); cbn; auto. }
  assert (Hno : ~ ((idx < - Z.of_nat (length data) \/ Z.of_nat (length data) <= idx) \/
     (exists item0, Some item = Some item0 /\
        (field "text" item0 = None \/
         exists text0, field "text" item0 = Some text0 /\
                      tokenizer (text_or_unk text0) max_length = None)))).
  { intros [H|(item0 & [= <-] & [H|(text0 & H1 & H2)])]; [tauto|congruence|].
    rewrite Et in H1. injection H1 as <-. congruence. }
  destruct (field "image" item) as [image|].
  - destruct (truthy image).
    + destruct (open_image image); cbn [fst snd];
        (split; [split; [discriminate|tauto]|]);
        rewrite ?List.filter_app, ?length_app;
        destruct (invalid_text text); reflexivity.
    + cbn [fst snd]. split; [split; [discriminate|tauto]|].
      destruct (invalid_text text); reflexivity.
  - cbn [fst snd]. split; [split; [discriminate|tauto]|].
    destruct (invalid_text text); reflexivity.
Qed.

Lemma mask_padding_spec pad ids :
  Forall2 (fun id l => (id = pad /\ l = -100) \/ (id <> pad /\ l = id))
    ids (mask_padding pad ids).
Proof.
  induction ids as [|id ids IH]; [constructor|].
  cbn. constructor; [|exact IH].
  destruct (Z.eqb_spec id pad); auto.
Qed.

Lemma mask_padding_no_pad pad ids : pad <> -100 -> ~ In pad (mask_padding pad ids).
Proof.
  intros Hp. unfold mask_padding. rewrite in_map_iff. intros (id & H & _).
  destruct (Z.eqb_spec id pad); congruence.
Qed.

(** The labels of an example are its input ids with every padding position
    set to -100: same length, position by position, and no label is the pad
    id (unless the pad id is -100 itself). *)
Theorem getitem_labels_mask_the_padding
  (data : list json) (max_length idx : Z) (out : output) :
  snd (__getitem__ tokenizer pad_token_id open_image data max_length idx) = Some out ->
  length (labels out) = length (input_ids out) /\
  Forall2 (fun id l => (id = pad_token_id /\ l = -100) \/ (id <> pad_token_id /\ l = id))
    (input_ids out) (labels out) /\
  (pad_token_id <> -100 -> ~ In pad_token_id (labels out)).
Proof.
  unfold __getitem__.
  destruct (py_index data idx) as [item|]; [|discriminate].
  destruct (field "text" item) as [text|]; [|discriminate].
  destruct (tokenizer _ max_length) as [enc|]; [|discriminate].
  assert (H : forall (w : list item_log) px,
     snd (w, Some {| input_ids := encoded_ids enc; attention_mask := encoded_mask enc;
                     labels := mask_padding pad_token_id (encoded_ids enc);
                     pixel_values := px |}) = Some out ->
     length (labels out) = length (input_ids out) /\
     Forall2 (fun id l => (id = pad_token_id /\ l = -100) \/ (id <> pad_token_id /\ l = id))
       (input_ids out) (labels out) /\
     (pad_token_id <> -100 -> ~ In pad_token_id (labels out))).
  { intros w px [= <-]. cbn [labels input_ids]. split; [|split].
    - unfold mask_padding. apply length_map.
    - apply mask_padding_spec.
    - apply mask_padding_no_pad. }
  destruct (field "image" item) as [image|]; [|apply H].
  destruct (truthy image); [|apply H].
  destruct (open_image image); apply H.
Qed.

Lemma loaded_examples_are_valid data_path n data :
  result (load_data data_path n) = inr data ->
  data = valid_examples data_path n /\ data <> [].
Proof.
  rewrite load_data_result. intros Hload.
  destruct n as [[c|[| |es] images]|]; try discriminate.
  - destruct (cannot_be_parsed _ c); [discriminate|].
    destruct (valid_examples data_path (Some (File c))); [discriminate|].
    split; congruence.
  - destruct (valid_examples data_path _); [discriminate|]. split; congruence.
  - cbv zeta in Hload. destruct (_ || _)%bool; discriminate.
Qed.

Lemma valid_examples_have_text data_path n :
  Forall (fun item => has_text item = true) (valid_examples data_path n).
Proof.
  unfold valid_examples.
  destruct n as [[[lines|doc|df|]|[| |es] images]|]; try constructor.
  - destruct (String.eqb _ ".jsonl"); [apply filter_Forall|constructor].
  - destruct (String.eqb _ ".json"); [apply filter_Forall|constructor].
  - destruct (_ && _)%bool; [|constructor].
    apply omap_Forall. intros a b H. apply (row_example_nonempty _ _ _ H).
  - apply omap_Forall. intros a b H. apply (text_example_nonempty _ _ H).
Qed.

Lemma valid_examples_of_text_are_strings data_path n :
  (exists text images, n = Some (Dir text images)) \/
  (exists df, n = Some (File (Csv df))) ->
  Forall text_is_nonempty_string (valid_examples data_path n).
Proof.
  unfold valid_examples. intros [(text & images & ->)|(df & ->)].
  - destruct text as [| |es]; try constructor.
    apply omap_Forall. intros a b H. apply (text_example_nonempty _ _ H).
  - destruct (_ && _)%bool; [|constructor].
    apply omap_Forall. intros a b H. apply (row_example_nonempty _ _ _ H).
Qed.

Lemma has_text_field item :
  has_text item = true ->
  exists text, field "text" item = Some text /\ truthy text = true.
Proof.
  unfold has_text, field. destruct item as [| | | | | |members]; try discriminate.
  destruct (get "text" members) as [v|]; [eauto|discriminate].
Qed.

(** Every example of a loaded dataset can be read: the dataset is not
    empty, an index in range finds a record whose [text] is there and
    truthy, so [__getitem__] raises only when the tokenizer does.  A text
    that is a string is tokenised as it is, without a warning; a text that
    is no string, which only a [.jsonl] or [.json] source can hold, is
    replaced by ["[UNK]"] with a warning. *)
Theorem loaded_examples_can_be_read
  (data_path : string) (n : option node) (data : list json)
  (max_length idx : Z) :
  result (load_data data_path n) = inr data ->
  - __len__ data <= idx < __len__ data ->
  let r := __getitem__ tokenizer pad_token_id open_image data max_length idx in
  0 < __len__ data /\
  exists item text,
    py_index data idx = Some item /\ field "text" item = Some text /\
    truthy text = true /\
    (snd r = None <-> tokenizer (text_or_unk text) max_length = None) /\
    (is_str text = true ->
     text = JStr (text_or_unk text) /\ ~ In (WarnInvalidText idx) (fst r)) /\
    (is_str text = false ->
     text_or_unk text = "[UNK]" /\ In (WarnInvalidText idx) (fst r)) /\
    ((exists text images, n = Some (Dir text images)) \/
     (exists df, n = Some (File (Csv df))) -> is_str text = true).
Proof.
  intros Hload Hidx. cbv zeta.
  destruct (loaded_examples_are_valid _ _ _ Hload) as (Hdata & Hne).
  unfold __len__ in *.
  split; [destruct data; [congruence|cbn; lia]|].
  destruct (py_index data idx) as [item|] eqn:Ei.
  2:{ apply py_index_None in Ei. lia. }
  pose proof (py_index_In _ _ _ Ei) as Hin.
  pose proof (valid_examples_have_text data_path n) as Hall.
  rewrite <- Hdata in Hall. rewrite List.Forall_forall in Hall.
  destruct (has_text_field item (Hall item Hin)) as (text & Ht & Htruthy).
  exists item, text. split; [reflexivity|]. split; [exact Ht|].
  split; [exact Htruthy|].
  unfold __getitem__. rewrite Ei, Ht.
  unfold text_or_unk, invalid_text. rewrite Htruthy. cbn [negb orb].
  split; [|split; [|split]].
  - destruct (tokenizer _ max_length) as [enc|]; [|tauto].
    destruct (field "image" item) as [image|]; [|cbn [snd]; split; congruence].
    destruct (truthy image); [|cbn [snd]; split; congruence].
    destruct (open_image image); cbn [snd]; split; congruence.
  - intros Hs. rewrite Hs. cbn [negb]. destruct text; try discriminate.
    split; [reflexivity|].
    destruct (tokenizer _ max_length) as [enc|]; [|cbn; intros [H|[]]; discriminate].
    destruct (field "image" _) as [image|]; [|intros []].
    destruct (truthy image); [|intros []].
    destruct (open_image image); cbn; [tauto|intros [H|[]]; discriminate].
  - intros Hs. rewrite Hs. cbn [negb]. split; [reflexivity|].
    destruct (tokenizer _ max_length) as [enc|]; [|left; reflexivity].
    destruct (field "image" _) as [image|]; [|left; reflexivity].
    destruct (truthy image); [|left; reflexivity].
    destruct (open_image image); left; reflexivity.
  - intros Hsrc. pose proof (valid_examples_of_text_are_strings data_path n Hsrc) as Hstr.
    rewrite <- Hdata in Hstr. rewrite List.Forall_forall in Hstr.
    destruct (Hstr item Hin) as (s & Hf & _). rewrite Ht in Hf.
    injection Hf as ->. reflexivity.
Qed.

End Getitem.

Lemma getitem_labels_mask_the_padding_witness :
  let out := {| Normalizer.input_ids := [7; 7; 0; 0];
                Normalizer.attention_mask := [1; 1; 0; 0];
                Normalizer.labels := [7; 7; -100; -100];
                Normalizer.pixel_values := None |} in
  length (Normalizer.labels out) = length (Normalizer.input_ids out) /\
  Forall2 (fun id l => (id = 0 /\ l = -100) \/ (id <> 0 /\ l = id))
    (Normalizer.input_ids out) (Normalizer.labels out) /\
  (0 <> -100 -> ~ In 0 (Normalizer.labels out)).
Proof.
  apply (getitem_labels_mask_the_padding Normalizer.toy_tokenizer 0
           (fun _ => None) [Normalizer.example "a"] 32 0).
  reflexivity.
Defined.

Lemma loaded_examples_can_be_read_witness :
  let data := [Normalizer.record "a" (Json.JFloat nan);
               Normalizer.record "5" (Json.JStr "i.jpg")] in
  let r := Normalizer.__getitem__ Normalizer.toy_tokenizer 0 (fun _ => None)
             data 32 1 in
  0 < Normalizer.__len__ data /\
  exists item text,
    Normalizer.py_index data 1 = Some item /\
    Json.field "text" item = Some text /\
    Json.truthy text = true /\
    (snd r = None <->
     Normalizer.toy_tokenizer (Normalizer.text_or_unk text) 32 = None) /\
    (Json.is_str text = true ->
     text = Json.JStr (Normalizer.text_or_unk text) /\
     ~ In (Normalizer.WarnInvalidText 1) (fst r)) /\
    (Json.is_str text = false ->
     Normalizer.text_or_unk text = "[UNK]" /\
     In (Normalizer.WarnInvalidText 1) (fst r)) /\
    ((exists text images,
        Some Normalizer.small_frame = Some (Normalizer.Dir text images)) \/
     (exists df,
        Some Normalizer.small_frame = Some (Normalizer.File (Normalizer.Csv df))) ->
     Json.is_str text = true).
Proof.
  apply (loaded_examples_can_be_read Normalizer.toy_tokenizer 0 (fun _ => None)
           "data/d.csv" (Some Normalizer.small_frame)).
  - reflexivity.
  - vm_compute. split; congruence.
Defined.

(** ** What a conversion writes *)

Section Conversion.

Import Json Normalizer Converter.

Variable DataFrame : json -> option dataframe.
Variable to_csv : dataframe -> content * bool.
Variable writable : string -> bool.




(** A target format that is none of the three (the box can be typed
    into) is reported as a success, and nothing has been written. *)
Theorem unknown_target_format_reports_success
  (data_var target_format : string) (fs : gmap string node) (n : node) (data : json) :
  data_var <> "" ->
  fs !! data_var = Some n ->
  read_source (Orchestrator.join Orchestrator.data_dir data_var) n = inr data ->
  target_format <> "jsonl" -> target_format <> "json" -> target_format <> "csv" ->
  convert_dataset DataFrame to_csv writable data_var target_format fs
  = (fs, Converted).
Proof.
  intros Hd Hn Hr H1 H2 H3. unfold convert_dataset, write_target.
  apply String.eqb_neq in Hd, H1, H2, H3. rewrite Hd, Hn, Hr, H1, H2, H3.
  reflexivity.
Qed.

Lemma all_lines_None lines : In None lines -> all_lines lines = None.
Proof.
  induction lines as [|[item|] lines IH]; [intros []| |reflexivity].
  intros [H|H]; [discriminate|]. cbn [all_lines]. rewrite (IH H). reflexivity.
Qed.

Lemma all_lines_Some lines items :
  all_lines lines = Some items -> lines = map Some items.
Proof.
  revert items. induction lines as [|[item|] lines IH]; intros items.
  - intros [= <-]. reflexivity.
  - cbn [all_lines]. destruct (all_lines lines) as [l|]; [|discriminate].
    intros [= <-]. cbn [map]. rewrite (IH l eq_refl). reflexivity.
  - discriminate.
Qed.

Lemma omap_id_map_Some {A} (l : list A) : omap id (map Some l) = l.
Proof. induction l as [|a l IH]; [reflexivity|]. cbn. rewrite IH. reflexivity. Qed.

Lemma load_data_jsonl_result data_path lines :
  Py.lower (snd (Py.splitext data_path)) = ".jsonl" ->
  result (load_data data_path (Some (File (JsonLines lines))))
  = match List.filter has_text (omap id lines) with
    | [] => inl NoValidData
    | data => inr data
    end.
Proof.
  intros Hext. rewrite load_data_result. unfold cannot_be_parsed, valid_examples.
  rewrite Hext. reflexivity.
Qed.

Lemma load_data_json_result data_path doc :
  Py.lower (snd (Py.splitext data_path)) = ".json" ->
  result (load_data data_path (Some (File (JsonDocument doc))))
  = match List.filter has_text (document_records doc) with
    | [] => inl NoValidData
    | data => inr data
    end.
Proof.
  intros Hext. rewrite load_data_result. unfold cannot_be_parsed, valid_examples.
  rewrite Hext. reflexivity.
Qed.

(** One malformed line blocks the conversion of a [.jsonl] file, whatever
    the target format, and nothing is written; [load_data] reads past the
    same line and loads the valid records of the file. *)
Theorem malformed_line_blocks_conversion
  (data_var target_format : string) (fs : gmap string node)
  (lines : list (option json)) :
  let source_path := Orchestrator.join Orchestrator.data_dir data_var in
  data_var <> "" ->
  fs !! data_var = Some (File (JsonLines lines)) ->
  Py.endswith source_path ".jsonl" = true ->
  Py.lower (snd (Py.splitext source_path)) = ".jsonl" ->
  In None lines ->
  convert_dataset DataFrame to_csv writable data_var target_format fs
  = (fs, Failed MalformedLine) /\
  result (load_data source_path (fs !! data_var))
  = match List.filter has_text (omap id lines) with
    | [] => inl NoValidData
    | data => inr data
    end.
Proof.
  cbv zeta. intros Hd Hn He Hx Hin. split.
  - unfold convert_dataset, read_source. apply String.eqb_neq in Hd.
    rewrite Hd, Hn, He, (all_lines_None _ Hin). reflexivity.
  - rewrite Hn. apply load_data_jsonl_result, Hx.
Qed.

Lemma all_lines_total lines :
  ~ In None lines -> all_lines lines = Some (omap id lines).
Proof.
  induction lines as [|[item|] lines IH]; intros Hin; [reflexivity| |].
  - cbn [all_lines omap list_omap id]. rewrite IH; [reflexivity|].
    intros H. apply Hin. right. exact H.
  - exfalso. apply Hin. left. reflexivity.
Qed.

(** A [.jsonl] file without a malformed line, whose records can be
    encoded, converts to a [.json] file from which [load_data] loads what
    it loads from the source, when the target can be opened. *)
Theorem conversion_to_json_keeps_the_examples
  (data_var : string) (fs : gmap string node) (lines : list (option json)) :
  let source_path := Orchestrator.join Orchestrator.data_dir data_var in
  let target := fst (Py.splitext data_var) ++ ".json" in
  let target_path := Orchestrator.join Orchestrator.data_dir target in
  let r := convert_dataset DataFrame to_csv writable data_var "json" fs in
  data_var <> "" ->
  fs !! data_var = Some (File (JsonLines lines)) ->
  Py.endswith source_path ".jsonl" = true ->
  Py.lower (snd (Py.splitext source_path)) = ".jsonl" ->
  Py.lower (snd (Py.splitext target_path)) = ".json" ->
  ~ In None lines ->
  forallb encodable (omap id lines) = true ->
  is_directory (fs !! target) = false ->
  writable target_path = true ->
  snd r = Converted /\
  fst r !! target = Some (File (JsonDocument (JList (omap id lines)))) /\
  result (load_data target_path (fst r !! target))
  = result (load_data source_path (fs !! data_var)).
Proof.
  cbv zeta. intros Hd Hn He Hx Ht Hin Henc Hdir Hw.
  unfold convert_dataset, read_source, write_target.
  apply String.eqb_neq in Hd. rewrite Hd, Hn, He, (all_lines_total _ Hin).
  cbn [String.eqb Ascii.eqb Bool.eqb].
  change (fst (Py.splitext data_var) ++ "." ++ "json")
    with (fst (Py.splitext data_var) ++ ".json").
  rewrite Hdir, Hw. cbn [andb negb encodable]. rewrite Henc. cbn [fst snd].
  rewrite lookup_insert_eq.
  split; [reflexivity|]. split; [reflexivity|].
  rewrite (load_data_json_result _ _ Ht), (load_data_jsonl_result _ _ Hx).
  reflexivity.
Qed.

Lemma collect_texts_texts source_path images es data :
  collect_texts source_path images es = inr data ->
  omap (field "text") data
  = omap (field "text") (omap text_example (List.filter is_txt es)).
Proof.
  revert data. induction es as [|[file entry] es IH]; intros data.
  - intros [= <-]. reflexivity.
  - cbn [collect_texts List.filter]. unfold is_txt at 1. cbn [fst].
    destruct (Py.endswith file ".txt") eqn:E; [|apply IH].
    destruct entry as [content|]; [|discriminate].
    destruct (collect_texts source_path images es) as [f|data']; [discriminate|].
    cbn [omap list_omap]. unfold text_example at 1. cbn [fst snd]. rewrite E.
    cbn [orb]. destruct (String.eqb (Py.strip content) ""); cbn [negb].
    + intros [= <-]. apply IH. reflexivity.
    + intros [= <-]. cbn [omap list_omap field record get String.eqb Ascii.eqb Bool.eqb].
      rewrite (IH data' eq_refl). reflexivity.
Qed.

Lemma collect_texts_unreadable source_path images es file :
  In (file, Unreadable) es -> Py.endswith file ".txt" = true ->
  collect_texts source_path images es = inl UnreadableText.
Proof.
  intros Hin Ht. induction es as [|[file' entry'] es IH]; [destruct Hin|].
  cbn [collect_texts]. destruct Hin as [[= -> ->]|Hin].
  - rewrite Ht. reflexivity.
  - rewrite (IH Hin). destruct (Py.endswith file' ".txt"); [|reflexivity].
    destruct entry'; reflexivity.
Qed.

Lemma collect_texts_readable source_path images es :
  (forall file, In (file, Unreadable) es -> Py.endswith file ".txt" = false) ->
  exists data, collect_texts source_path images es = inr data.
Proof.
  induction es as [|[file entry] es IH]; intros H; [eexists; reflexivity|].
  destruct IH as (data & Hd). { intros f Hf. apply H. right. exact Hf. }
  cbn [collect_texts]. rewrite Hd.
  destruct (Py.endswith file ".txt") eqn:E; [|eauto].
  destruct entry as [content|].
  - destruct (negb _); eauto.
  - rewrite (H file) in E; [discriminate|left; reflexivity].
Qed.

(** The conversion of a directory dataset reads its [.txt] files only: an
    unreadable one stops it with nothing written (where [load_data] warns
    and goes on); otherwise the records to write hold the texts of the
    non-blank [.txt] files, so the [.md] files that [load_data] reads are
    left out.  They are written when the target can be opened and they
    can be encoded; a target that cannot be opened, as when the directory
    is its own target, is left alone and the conversion fails. *)
Theorem directory_conversion_reads_txt_files_only
  (data_var : string) (fs : gmap string node)
  (es : list (string * text_entry)) (images : list string) :
  let source_path := Orchestrator.join Orchestrator.data_dir data_var in
  let target := fst (Py.splitext data_var) ++ ".jsonl" in
  let target_path := Orchestrator.join Orchestrator.data_dir target in
  let r := convert_dataset DataFrame to_csv writable data_var "jsonl" fs in
  data_var <> "" ->
  fs !! data_var = Some (Dir (TextListing es) images) ->
  ((exists file, In (file, Unreadable) es /\ Py.endswith file ".txt" = true) ->
   r = (fs, Failed UnreadableText)) /\
  ((forall file, In (file, Unreadable) es -> Py.endswith file ".txt" = false) ->
   exists data,
     collect_texts source_path images es = inr data /\
     omap (field "text") data
     = omap (field "text") (omap text_example (List.filter is_txt es)) /\
     (writable target_path = true -> is_directory (fs !! target) = false ->
      forallb encodable data = true ->
      r = (<[target := File (JsonLines (map Some data))]> fs, Converted)) /\
     (writable target_path = false \/ is_directory (fs !! target) = true ->
      r = (fs, Failed TargetNotWritable))).
Proof.
  cbv zeta. intros Hd Hn. apply String.eqb_neq in Hd.
  unfold convert_dataset, read_source. rewrite Hd, Hn. split.
  - intros (file & Hin & Ht).
    rewrite (collect_texts_unreadable _ _ _ _ Hin Ht). reflexivity.
  - intros H. destruct (collect_texts_readable
      (Orchestrator.join Orchestrator.data_dir data_var) images es H) as (data & Hc).
    rewrite Hc. exists data. split; [reflexivity|].
    split; [apply (collect_texts_texts _ _ _ _ Hc)|].
    change (fst (Py.splitext data_var) ++ "." ++ "jsonl")
      with (fst (Py.splitext data_var) ++ ".jsonl").
    unfold write_target. cbn [String.eqb Ascii.eqb Bool.eqb iterate]. split.
    + intros -> -> Henc. cbn [andb negb].
      rewrite (written_lines_encodable _ Henc). reflexivity.
    + intros [-> | ->]; rewrite ?andb_false_r; reflexivity.
Qed.

End Conversion.

Lemma unknown_target_format_reports_success_witness :
  Converter.convert_dataset Converter.frame_of_nothing Converter.csv_as_written
    Converter.permissive "d.json" "txt" Converter.one_bare_record
  = (Converter.one_bare_record, Converter.Converted).
Proof.
  apply (unknown_target_format_reports_success Converter.frame_of_nothing
           Converter.csv_as_written Converter.permissive
           "d.json" "txt" Converter.one_bare_record
           (Normalizer.File (Normalizer.JsonDocument Converter.bare_record))
           Converter.bare_record);
    solve [reflexivity | discriminate].
Defined.

Lemma malformed_line_blocks_conversion_witness :
  Converter.convert_dataset Converter.frame_of_nothing Converter.csv_as_written
    Converter.permissive "d.jsonl" "json" Converter.one_bad_line
  = (Converter.one_bad_line, Converter.Failed Converter.MalformedLine) /\
  Normalizer.result
    (Normalizer.load_data "data/d.jsonl" (Converter.one_bad_line !! "d.jsonl"))
  = inr [Normalizer.example "a"; Normalizer.example "b"; Normalizer.example "c"].
Proof.
  apply (malformed_line_blocks_conversion Converter.frame_of_nothing
           Converter.csv_as_written Converter.permissive
           "d.jsonl" "json" Converter.one_bad_line
           [Some (Normalizer.example "a"); None; Some (Normalizer.example "b");
            Some (Normalizer.example "c")]);
    try solve [reflexivity | discriminate].
  right. left. reflexivity.
Defined.

Lemma conversion_to_json_keeps_the_examples_witness :
  let r := Converter.convert_dataset Converter.frame_of_nothing
             Converter.csv_as_written Converter.permissive "d.jsonl"
             "json" Converter.two_lines in
  snd r = Converter.Converted /\
  fst r !! "d.json"
  = Some (Normalizer.File
            (Normalizer.JsonDocument
               (Json.JList [Normalizer.example "a"; Normalizer.example "b"]))) /\
  Normalizer.result (Normalizer.load_data "data/d.json" (fst r !! "d.json"))
  = Normalizer.result
      (Normalizer.load_data "data/d.jsonl" (Converter.two_lines !! "d.jsonl")).
Proof.
  apply (conversion_to_json_keeps_the_examples Converter.frame_of_nothing
           Converter.csv_as_written Converter.permissive
           "d.jsonl" Converter.two_lines
           [Some (Normalizer.example "a"); Some (Normalizer.example "b")]);
    try solve [reflexivity | discriminate].
  intros [H|[H|[]]]; discriminate.
Defined.

Lemma directory_conversion_reads_txt_files_only_witness :
  let es := [("a.txt", Normalizer.Readable "hello")] in
  let r := Converter.convert_dataset Converter.frame_of_nothing
             Converter.csv_as_written Converter.permissive "x.jsonl"
             "jsonl" Converter.directory_named_jsonl in
  ((exists file, In (file, Normalizer.Unreadable) es /\
                 Py.endswith file ".txt" = true) ->
   r = (Converter.directory_named_jsonl,
        Converter.Failed Converter.UnreadableText)) /\
  ((forall file, In (file, Normalizer.Unreadable) es ->
                 Py.endswith file ".txt" = false) ->
   exists data,
     Converter.collect_texts "data/x.jsonl" [] es = inr data /\
     omap (Json.field "text") data
     = omap (Json.field "text")
         (omap Normalizer.text_example (List.filter Converter.is_txt es)) /\
     (Converter.permissive "data/x.jsonl" = true ->
      Converter.is_directory (Converter.directory_named_jsonl !! "x.jsonl") = false ->
      forallb Json.encodable data = true ->
      r = (<["x.jsonl" :=
               Normalizer.File (Normalizer.JsonLines (map Some data))]>
             Converter.directory_named_jsonl, Converter.Converted)) /\
     (Converter.permissive "data/x.jsonl" = false \/
      Converter.is_directory (Converter.directory_named_jsonl !! "x.jsonl") = true ->
      r = (Converter.directory_named_jsonl,
           Converter.Failed Converter.TargetNotWritable))).
Proof.
  apply (directory_conversion_reads_txt_files_only Converter.frame_of_nothing
           Converter.csv_as_written Converter.permissive
           "x.jsonl" Converter.directory_named_jsonl
           [("a.txt", Normalizer.Readable "hello")] []);
    solve [reflexivity | discriminate].
Defined.

(** ** Saving and loading a configuration *)

Section Configuration.

Import Json Orchestrator Config.

Variable tk_string : json -> string.

Lemma estimate_memory_form h p : form (estimate_memory h p) = form p.
Proof.
  unfold estimate_memory. destruct (Estimator.estimate_memory _ _ _ _ _); reflexivity.
Qed.

Lemma update_lists_form h p :
  form (update_model_list h (update_data_list h p))
  = select_first FModel (models h) (select_first FData (datasets h) (form p)).
Proof.
  unfold update_model_list, update_data_list.
  rewrite !estimate_memory_form. cbn [form]. rewrite ?estimate_memory_form.
  reflexivity.
Qed.

Lemma get_set_var f g v e :
  get_var g (set_var f v e) = if bool_decide (g = f) then v else get_var g e.
Proof. destruct g; reflexivity. Qed.

Lemma select_first_other f g names e :
  g <> f -> get_var g (select_first f names e) = get_var g e.
Proof.
  intros Hg. unfold select_first. destruct names as [|first rest]; [reflexivity|].
  destruct (String.eqb (get_var f e) ""); [|reflexivity].
  rewrite get_set_var. case_bool_decide; [contradiction|reflexivity].
Qed.

Lemma select_first_same f names e :
  get_var f (select_first f names e)
  = if String.eqb (get_var f e) "" then hd "" names else get_var f e.
Proof.
  unfold select_first. destruct names as [|first rest].
  - cbn [hd]. destruct (String.eqb_spec (get_var f e) ""); congruence.
  - destruct (String.eqb (get_var f e) ""); [|reflexivity].
    rewrite get_set_var. case_bool_decide; [reflexivity|contradiction].
Qed.

Lemma entries_ext (a b : entries) :
  (forall f, get_var f a = get_var f b) -> a = b.
Proof.
  intros H. destruct a, b.
  pose proof (H FData). pose proof (H FModel). pose proof (H FDevice).
  pose proof (H FBatchSize). pose proof (H FEpochs). pose proof (H FLearningRate).
  pose proof (H FMaxLength). pose proof (H FWarmupSteps). pose proof (H FWeightDecay).
  pose proof (H FGradientAccumulationSteps). cbn in *. congruence.
Qed.

(** What [load_config] leaves in a variable: the value under its key, or
    the default; an empty selection is then filled from the listing. *)
Lemma load_config_form file_path members h p p' f :
  file_path <> "" ->
  load_config tk_string file_path (Some (JDict members)) h p = Some p' ->
  let loaded :=
    match get (key f) members with
    | Some v => as_set tk_string v
    | None => default f
    end in
  get_var f (form p')
  = match f with
    | FData => if String.eqb loaded "" then hd "" (datasets h) else loaded
    | FModel => if String.eqb loaded "" then hd "" (models h) else loaded
    | _ => loaded
    end.
Proof.
  intros Hp. unfold load_config. apply String.eqb_neq in Hp. rewrite Hp.
  intros [= <-]. cbn [form]. rewrite update_lists_form. cbn [form]. cbv zeta.
  destruct f;
    try (rewrite select_first_other by discriminate;
         rewrite select_first_other by discriminate; reflexivity).
  - rewrite select_first_other by discriminate.
    rewrite select_first_same. reflexivity.
  - rewrite select_first_same.
    rewrite select_first_other by discriminate. reflexivity.
Qed.

(** A saved configuration loads back: every variable gets the value it
    had when the file was written, whatever the form held in between;
    only an empty dataset or model selection is replaced, by the first
    name of its listing. *)
Theorem saved_configuration_loads_back
  (file_path : string) (saved p : panel) (h : host) :
  file_path <> "" ->
  exists written p1 p',
    save_config file_path true saved = Some (Some (file_path, written), p1) /\
    load_config tk_string file_path (Some written) h p = Some p' /\
    (forall f, f <> FData -> f <> FModel ->
               get_var f (form p') = get_var f (form saved)) /\
    data_var (form p')
    = (if String.eqb (data_var (form saved)) "" then hd "" (datasets h)
       else data_var (form saved)) /\
    model_var (form p')
    = (if String.eqb (model_var (form saved)) "" then hd "" (models h)
       else model_var (form saved)) /\
    (data_var (form saved) <> "" -> model_var (form saved) <> "" ->
     form p' = form saved).
Proof.
  intros Hp. pose proof Hp as Hp'. apply String.eqb_neq in Hp'.
  unfold save_config. rewrite Hp'.
  destruct (load_config tk_string file_path (Some (config (form saved))) h p)
    as [p'|] eqn:E.
  2:{ unfold load_config, config in E. rewrite Hp' in E. discriminate. }
  exists (config (form saved)). eexists. exists p'.
  split; [reflexivity|]. split; [exact E|].
  assert (L : forall f, get_var f (form p')
     = match f with
       | FData => if String.eqb (data_var (form saved)) "" then hd "" (datasets h)
                  else data_var (form saved)
       | FModel => if String.eqb (model_var (form saved)) "" then hd "" (models h)
                   else model_var (form saved)
       | _ => get_var f (form saved)
       end).
  { intros f. rewrite (load_config_form _ _ _ _ _ f Hp E). destruct f; reflexivity. }
  split; [|split; [|split]].
  - intros f H1 H2. rewrite L. destruct f; congruence.
  - apply (L FData).
  - apply (L FModel).
  - intros H1 H2. apply String.eqb_neq in H1, H2. apply entries_ext. intros f.
    rewrite L. destruct f; try reflexivity; cbn [get_var].
    + rewrite H1. reflexivity.
    + rewrite H2. reflexivity.
Qed.

(** A key the file does not hold resets its variable to the start-up
    value; a file that cannot be read, or that holds no object, changes
    nothing: the exception leaves the handler before any variable is
    set. *)
Theorem load_config_falls_back_to_the_startup_values
  (file_path : string) (read : option json) (h : host) (p : panel) :
  file_path <> "" ->
  match read with
  | Some (JDict members) =>
      exists p', load_config tk_string file_path read h p = Some p' /\
        forall f, get (key f) members = None -> f <> FData -> f <> FModel ->
                  get_var f (form p') = get_var f init_entries
  | _ => load_config tk_string file_path read h p = None
  end.
Proof.
  intros Hp. pose proof Hp as Hp'. apply String.eqb_neq in Hp'.
  destruct read as [[| | | | | |members]|];
    try (unfold load_config; rewrite Hp'; reflexivity).
  destruct (load_config tk_string file_path (Some (JDict members)) h p)
    as [p'|] eqn:E.
  2:{ unfold load_config in E. rewrite Hp' in E. discriminate. }
  exists p'. split; [reflexivity|]. intros f Hf H1 H2.
  rewrite (load_config_form _ _ _ _ _ f Hp E). cbv zeta. rewrite Hf.
  destruct f; try reflexivity; congruence.
Qed.

End Configuration.

Lemma saved_configuration_loads_back_witness :
  exists written p1 p',
    Config.save_config "c.json" true Config.filled
    = Some (Some ("c.json", written), p1) /\
    Config.load_config (fun _ => "") "c.json" (Some written) Config.small_host
      Config.blank = Some p' /\
    (forall f, f <> FData -> f <> FModel ->
               get_var f (Config.form p') = get_var f (Config.form Config.filled)) /\
    data_var (Config.form p')
    = (if String.eqb (data_var (Config.form Config.filled)) ""
       then hd "" (Config.datasets Config.small_host)
       else data_var (Config.form Config.filled)) /\
    model_var (Config.form p')
    = (if String.eqb (model_var (Config.form Config.filled)) ""
       then hd "" (Config.models Config.small_host)
       else model_var (Config.form Config.filled)) /\
    (data_var (Config.form Config.filled) <> "" ->
     model_var (Config.form Config.filled) <> "" ->
     Config.form p' = Config.form Config.filled).
Proof.
  apply (saved_configuration_loads_back (fun _ => "") "c.json" Config.filled
           Config.blank Config.small_host).
  discriminate.
Defined.

Lemma load_config_falls_back_to_the_startup_values_witness :
  exists p',
    Config.load_config (fun _ => "") "c.json"
      (Some (Json.JDict [("epochs", Json.JStr "3")])) Config.small_host
      Config.filled = Some p' /\
    forall f, Json.get (Config.key f) [("epochs", Json.JStr "3")] = None ->
              f <> FData -> f <> FModel ->
              get_var f (Config.form p') = get_var f init_entries.
Proof.
  apply (load_config_falls_back_to_the_startup_values (fun _ => "") "c.json"
           (Some (Json.JDict [("epochs", Json.JStr "3")])) Config.small_host
           Config.filled).
  discriminate.
Defined.

(** ** The preview of a dataset *)

Section Previews.

Import Json Normalizer Preview.

Variable fails_at_open : string -> bool.

Lemma show_lines_outcome i lines :
  show_lines i lines = show_lines i (take (5 - i) lines) /\
  (length (fst (show_lines i lines)) <= 5 - i)%nat /\
  length (List.filter is_file_header (fst (show_lines i lines))) = 0%nat /\
  (snd (show_lines i lines) = true <-> In None (take (5 - i) lines)) /\
  (snd (show_lines i lines) = false ->
   fst (show_lines i lines) = show_items i (omap id (take (5 - i) lines))).
Proof.
  revert i. induction lines as [|line lines IH]; intros i.
  - rewrite take_nil. cbn. repeat split; auto; try lia; try discriminate;
      try (intros []).
  - cbn [show_lines]. destruct (Nat.leb_spec 5 i) as [Hi|Hi].
    + replace (5 - i)%nat with 0%nat by lia. cbn.
      repeat split; auto; try lia; try discriminate; try (intros []).
    + replace (5 - i)%nat with (S (5 - S i)) by lia. cbn [take show_lines].
      destruct (Nat.leb_spec 5 i); [lia|].
      destruct line as [item|].
      * destruct (IH (S i)) as (E & L & F & R & T). rewrite <- E.
        destruct (show_lines (S i) lines) as [texts raised].
        cbn [fst snd length] in *.
        split; [reflexivity|]. split; [lia|]. split; [exact F|]. split; [split|].
        -- intros Hr. right. apply R, Hr.
        -- intros [Hr|Hr]; [discriminate|]. apply R, Hr.
        -- intros Hr. cbn [omap list_omap id show_items]. rewrite (T Hr). reflexivity.
      * cbn. repeat split; auto; try lia; discriminate.
Qed.

Lemma show_files_length es :
  (length (List.filter is_file_header (fst (show_files fails_at_open es)))
   <= length es)%nat /\
  length (List.filter is_record (fst (show_files fails_at_open es))) = 0%nat.
Proof.
  induction es as [|[file entry] es (IH1 & IH2)]; [cbn; lia|].
  cbn [show_files]. destruct (Py.endswith file ".txt"); [|cbn [length]; lia].
  destruct entry as [content|].
  - destruct (show_files fails_at_open es) as [texts raised]. cbn in *. lia.
  - destruct (fails_at_open file); cbn; lia.
Qed.

Lemma show_items_length i items :
  length (List.filter is_record (show_items i items)) = length items /\
  length (List.filter is_file_header (show_items i items)) = 0%nat.
Proof.
  revert i. induction items as [|item items IH]; intros i; [auto|].
  cbn. destruct (IH (S i)) as (-> & ->). auto.
Qed.

(** The preview never shows more than five records or five files,
    whatever the dataset holds. *)
Theorem preview_shows_five_at_most (data_var : string) (n : option node) :
  let texts := texts_of (preview_dataset fails_at_open data_var n) in
  (length (List.filter is_record texts) <= 5)%nat /\
  (length (List.filter is_file_header texts) <= 5)%nat.
Proof.
  cbv zeta. unfold preview_dataset.
  destruct (String.eqb data_var ""); [cbn; lia|].
  destruct n as [[c|text images]|]; [| |cbn; lia].
  - destruct (Py.endswith _ ".jsonl").
    { destruct c as [lines| | |]; try (cbn; lia).
      destruct (show_lines_outcome 0 lines) as (_ & L & F & _).
      destruct (show_lines 0 lines) as [texts raised]. cbn [texts_of fst] in *.
      rewrite F. split; [|lia].
      etransitivity; [apply List.filter_length_le|]. lia. }
    destruct (Py.endswith _ ".json").
    { destruct c as [|doc| |]; try (cbn; lia).
      destruct (first_five doc) as [items|] eqn:E; [|cbn; lia].
      cbn [texts_of]. destruct (show_items_length 0 items) as (-> & ->).
      split; [|lia]. unfold first_five in E.
      destruct doc; try discriminate; injection E as <-;
        rewrite length_take; lia. }
    destruct (Py.endswith _ ".csv"); [|cbn; lia].
    destruct c; cbn; lia.
  - destruct text as [| |es]; try (cbn; lia).
    destruct (show_files_length (take 5 es)) as (L & R).
    destruct (show_files fails_at_open (take 5 es)) as [texts raised].
    cbn [texts_of fst] in *. rewrite R. split; [lia|].
    rewrite length_take in L. lia.
Qed.

(** The preview of a [.jsonl] file reads its first five lines and no
    more: what comes after them, malformed or not, changes nothing.  A
    malformed line among the five ends the preview with an error box;
    without one, the records shown are those of the five lines, in
    order. *)
Theorem preview_reads_the_first_five_lines
  (data_var : string) (lines : list (option json)) :
  let o := preview_dataset fails_at_open data_var (Some (File (JsonLines lines))) in
  data_var <> "" ->
  Py.endswith (Orchestrator.join Orchestrator.data_dir data_var) ".jsonl" = true ->
  o = preview_dataset fails_at_open data_var
        (Some (File (JsonLines (take 5 lines)))) /\
  (raised_in o = true <-> In None (take 5 lines)) /\
  (raised_in o = false ->
   texts_of o = show_items 0 (omap id (take 5 lines))).
Proof.
  cbv zeta. intros Hd He. apply String.eqb_neq in Hd.
  unfold preview_dataset. rewrite Hd, He.
  destruct (show_lines_outcome 0 lines) as (E & _ & _ & R & T).
  change (5 - 0)%nat with 5%nat in *. rewrite <- E.
  destruct (show_lines 0 lines) as [texts raised]. cbn [fst snd] in *.
  auto.
Qed.

End Previews.

Lemma preview_reads_the_first_five_lines_witness :
  let o := Preview.preview_dataset (fun _ => true) "d.jsonl"
             (Some (Normalizer.File (Normalizer.JsonLines Preview.six_lines))) in
  o = Preview.preview_dataset (fun _ => true) "d.jsonl"
        (Some (Normalizer.File
                 (Normalizer.JsonLines (take 5 Preview.six_lines)))) /\
  (Preview.raised_in o = true <-> In None (take 5 Preview.six_lines)) /\
  (Preview.raised_in o = false ->
   Preview.texts_of o
   = Preview.show_items 0 (omap id (take 5 Preview.six_lines))).
Proof.
  apply (preview_reads_the_first_five_lines (fun _ => true) "d.jsonl"
           Preview.six_lines).
  - discriminate.
  - reflexivity.
Defined.

(** ** The check of the dependencies at start-up *)

Section StartupCheck.

Import Dependencies.
Local Open Scope run_scope.

Lemma value_bind {A B} (m : run A) (k : A -> run B) :
  value (bind m k) = match value m with Some a => value (k a) | None => None end.
Proof.
  unfold value, bind. destruct m as [t [a|]]; cbn; [|reflexivity].
  destruct (k a). reflexivity.
Qed.

Lemma installs_bind {A B} (m : run A) (k : A -> run B) :
  installs (bind m k)
  = match value m with
    | Some a => (installs m ++ installs (k a))%list
    | None => installs m
    end.
Proof.
  unfold installs, actions, value, bind. destruct m as [t [a|]]; cbn; [|reflexivity].
  destruct (k a). cbn. apply omap_app.
Qed.

Lemma check_packages_outcome h packages :
  (value (check_packages h packages) = Some true <->
   Forall (ready h) (map fst packages)) /\
  installs (check_packages h packages)
    `prefix_of` map requirement_of (List.filter (is_unsatisfied h) packages) /\
  (value (check_packages h packages) = Some true ->
   installs (check_packages h packages)
   = map requirement_of (List.filter (is_unsatisfied h) packages)).
Proof.
  induction packages as [|[package version] rest (IH1 & IH2 & IH3)].
  - cbn. repeat split; auto.
  - assert (Hu : is_unsatisfied h (package, version)
                 = match require h package with Unsatisfied => true | _ => false end)
      by reflexivity.
    cbn [check_packages List.filter map fst]. rewrite Hu.
    rewrite List.Forall_cons_iff. unfold ready at 1.
    destruct (require h package) eqn:Er.
    + rewrite value_bind, installs_bind. cbn [value log snd].
      change (installs (log (AlreadyInstalled package))) with (@nil string).
      cbn [List.app]. rewrite IH1.
      split; [|split; [exact IH2|]].
      * split; [intros H; split; [left; reflexivity|exact H]|tauto].
      * intros H. apply IH3, IH1, H.
    + rewrite value_bind, installs_bind. cbn [value log snd].
      change (installs (log (MissingPackage package version))) with (@nil string).
      cbn [List.app]. rewrite value_bind, installs_bind.
      unfold install_package. rewrite value_bind, installs_bind. cbn [value snd].
      change (installs ([PipInstall (package ++ version)], Some ()))
        with [package ++ version].
      cbn [map]. change (requirement_of (package, version)) with (package ++ version).
      destruct (install h package) eqn:Ei.
      * change (value (log (Installed package);; ret true)) with (Some true).
        change (installs (log (Installed package);; ret true)) with (@nil string).
        cbn [List.app]. rewrite IH1.
        split; [|split].
        -- split; [intros H; split; [right; split; reflexivity|exact H]|tauto].
        -- apply prefix_cons, IH2.
        -- intros H. f_equal. apply IH3, IH1, H.
      * change (value (log (InstallFailed package);; ret false)) with (Some false).
        change (installs (log (InstallFailed package);; ret false)) with (@nil string).
        cbn.
        split; [|split].
        -- split; [discriminate|]. intros ([H|[_ H]] & _); discriminate.
        -- apply prefix_cons, prefix_nil.
        -- discriminate.
      * cbn.
        split; [|split].
        -- split; [discriminate|]. intros ([H|[_ H]] & _); discriminate.
        -- apply prefix_cons, prefix_nil.
        -- discriminate.
    + cbn. split; [|split].
      * split; [discriminate|]. intros ([H|[H _]] & _); discriminate.
      * apply prefix_nil.
      * discriminate.
Qed.

Lemma requirements_ready_dec h :
  Forall (ready h) (map fst REQUIRED_PACKAGES) <->
  forall package version, In (package, version) REQUIRED_PACKAGES -> ready h package.
Proof.
  rewrite List.Forall_forall. split.
  - intros H package version Hin. apply H, in_map_iff. exists (package, version). auto.
  - intros H package Hin. apply in_map_iff in Hin as ([p v] & <- & Hin). eauto.
Qed.

Lemma check_and_install_outcome h :
  installs (check_and_install_dependencies h)
  = (if version_lt (version_info h) (3, 8) then []
     else match cuda h with
          | ProbeRaises => []
          | _ => installs (check_packages h REQUIRED_PACKAGES)
          end) /\
  value (check_and_install_dependencies h)
  = (if version_lt (version_info h) (3, 8) then Some false
     else match cuda h with
          | ProbeRaises => None
          | _ => value (check_packages h REQUIRED_PACKAGES)
          end).
Proof.
  unfold check_and_install_dependencies, check_python_version,
    check_cuda_availability.
  generalize (check_packages h REQUIRED_PACKAGES). intros [t [[|]|]].
  all: destruct (version_lt (version_info h) (3, 8)); [split; reflexivity|].
  all: destruct (cuda h); cbn; unfold installs, actions; cbn [fst];
       rewrite ?omap_app, ?app_nil_r; split; reflexivity.
Qed.

Lemma main_outcome h :
  installs (main h) = installs (check_and_install_dependencies h) /\
  value (main h)
  = Some (match value (check_and_install_dependencies h) with
          | Some b => b
          | None => false
          end).
Proof.
  unfold main, installs, actions, value.
  destruct (check_and_install_dependencies h) as [t [[|]|]]; cbn [fst snd];
    rewrite omap_app, app_nil_r; split; reflexivity.
Qed.

Lemma version_lt_3_8 v :
  version_lt v (3, 8) = false <-> 3 < fst v \/ (fst v = 3 /\ 8 <= snd v).
Proof.
  unfold version_lt. cbn [fst snd].
  destruct (Z.ltb_spec (fst v) 3), (Z.eqb_spec (fst v) 3), (Z.ltb_spec (snd v) 8);
    cbn; split; try lia; try discriminate; auto.
Qed.

(** The check of [main] never raises, and it passes exactly when Python
    is 3.8 or later, probing CUDA does not raise, and every required
    package is installed or installs.  That CUDA or [torch] is missing
    does not fail it. *)
Theorem dependency_check_passes_exactly_when (h : host) :
  (exists b, value (main h) = Some b) /\
  (value (main h) = Some true <->
   (3 < fst (version_info h) \/
    (fst (version_info h) = 3 /\ 8 <= snd (version_info h))) /\
   cuda h <> ProbeRaises /\
   forall package version,
     In (package, version) REQUIRED_PACKAGES -> ready h package).
Proof.
  rewrite <- requirements_ready_dec, <- version_lt_3_8.
  destruct (main_outcome h) as (_ & ->).
  destruct (check_and_install_outcome h) as (_ & ->).
  destruct (check_packages_outcome h REQUIRED_PACKAGES) as (P & _).
  split; [eexists; reflexivity|]. rewrite <- P.
  destruct (version_lt (version_info h) (3, 8)).
  { split; [intros H; discriminate H|]. intros (H & _). discriminate H. }
  destruct (cuda h).
  4:{ split; [intros H; discriminate H|]. intros (_ & H & _). congruence. }
  all: destruct (value (check_packages h REQUIRED_PACKAGES)) as [[|]|].
  all: split;
    [intros H; try discriminate H; repeat split; discriminate
    |intros (_ & _ & H); try discriminate H; reflexivity].
Qed.

(** The loop stops at the first package it cannot get past: the packages
    before it that were missing have been installed, the package itself
    has been tried if it was missing, and nothing after it is touched. *)
Lemma check_packages_stops h l1 p v l2 :
  Forall (ready h) (map fst l1) -> ~ ready h p ->
  installs (check_packages h (l1 ++ (p, v) :: l2))
  = (map requirement_of (List.filter (is_unsatisfied h) l1)
     ++ if is_unsatisfied h (p, v) then [requirement_of (p, v)] else [])%list.
Proof.
  intros Hready Hp. induction l1 as [|[q w] l1 IH].
  - cbn [List.app List.filter map check_packages].
    unfold is_unsatisfied, ready in *. cbn [fst].
    destruct (require h p) eqn:Er.
    + exfalso. apply Hp. left. reflexivity.
    + rewrite installs_bind. cbn [value log snd].
      rewrite installs_bind. unfold install_package.
      rewrite value_bind, installs_bind. cbn [value snd].
      destruct (install h p) eqn:Ei.
      * exfalso. apply Hp. right. split; reflexivity.
      * reflexivity.
      * reflexivity.
    + reflexivity.
  - cbn [map fst] in Hready. apply List.Forall_cons_iff in Hready as [Hq Hrest].
    specialize (IH Hrest).
    assert (Hu : is_unsatisfied h (q, w)
                 = match require h q with Unsatisfied => true | _ => false end)
      by reflexivity.
    change (((q, w) :: l1) ++ (p, v) :: l2)%list
      with ((q, w) :: (l1 ++ (p, v) :: l2))%list.
    cbn [check_packages List.filter]. rewrite Hu.
    destruct Hq as [Hq|[Hq Hi]]; rewrite Hq.
    + rewrite installs_bind. cbn [value log snd].
      change (installs (log (AlreadyInstalled q))) with (@nil string).
      exact IH.
    + rewrite installs_bind. cbn [value log snd].
      change (installs (log (MissingPackage q w))) with (@nil string).
      cbn [List.app]. rewrite installs_bind.
      unfold install_package. rewrite value_bind, installs_bind. cbn [value snd].
      rewrite Hi.
      change (value (log (Installed q);; ret true)) with (Some true).
      change (installs (([PipInstall (q ++ w)], Some ());; log (Installed q);; ret true))
        with [q ++ w].
      cbn [map List.app]. rewrite IH. reflexivity.
Qed.

(** What the check installs: only packages whose requirement is not
    met, each at most once and in the order of [REQUIRED_PACKAGES]; all of
    them when the check passes.  The loop stops at the first package that
    is neither there nor installs: the missing packages before it have
    been installed, the package itself has been tried if its requirement
    was not met, and nothing after it is installed.  On a Python that is
    too old, or when probing CUDA raises, nothing is installed. *)
Theorem dependency_check_installs_only_what_is_missing (h : host) :
  installs (main h)
    `prefix_of` map requirement_of
                  (List.filter (is_unsatisfied h) REQUIRED_PACKAGES) /\
  (value (main h) = Some true ->
   installs (main h)
   = map requirement_of (List.filter (is_unsatisfied h) REQUIRED_PACKAGES)) /\
  (forall before package version after,
     version_lt (version_info h) (3, 8) = false -> cuda h <> ProbeRaises ->
     REQUIRED_PACKAGES = (before ++ (package, version) :: after)%list ->
     Forall (ready h) (map fst before) -> ~ ready h package ->
     installs (main h)
     = (map requirement_of (List.filter (is_unsatisfied h) before)
        ++ if is_unsatisfied h (package, version)
           then [requirement_of (package, version)] else [])%list) /\
  (version_lt (version_info h) (3, 8) = true \/ cuda h = ProbeRaises ->
   installs (main h) = []).
Proof.
  destruct (main_outcome h) as (-> & ->).
  destruct (check_and_install_outcome h) as (-> & ->).
  destruct (check_packages_outcome h REQUIRED_PACKAGES) as (_ & P & Q).
  destruct (version_lt (version_info h) (3, 8)).
  { split; [apply prefix_nil|]. split; [discriminate|]. split; [discriminate|auto]. }
  destruct (cuda h) eqn:Ec.
  4:{ split; [apply prefix_nil|]. split; [discriminate|]. split; [congruence|auto]. }
  all: split; [exact P|]; split; [|split; [|intros [H|H]; discriminate]].
  all: try (destruct (value (check_packages h REQUIRED_PACKAGES)) as [[|]|];
            try discriminate; intros _; apply Q; reflexivity).
  all: intros before package version after _ _ E Hready Hp;
       rewrite E; apply check_packages_stops; assumption.
Qed.

End StartupCheck.
